(** * travel360.UI: the client-side logic of the airline booking front end

    A shallow embedding of the TypeScript sources that carry logic of their
    own: the axios wrapper ([services/api.ts]), the authentication service and
    context, the search page's filtering and sorting, the booking dialog's
    seat map, the airplane form and the booking page's availability gate.

    Conventions.
    - A JavaScript value of static type [any] is a [JSValue]; a value with a
      TypeScript interface is a record; [T | null] is [option T].
    - A [number] that holds a quantity (price, seat count, status code, epoch
      milliseconds) is a [Z]: finite doubles are integer multiples of one
      fixed power of two, so their order and the sign of their difference
      agree with exact arithmetic. [NaN] only arises from parsing a date
      string and is the [None] of an [option Z].
    - [localStorage] is a [gmap string string].
    - An [await] is a case split on the [Promise] the callee settled with;
      a [try]/[catch] is a match on that result. *)

From Stdlib Require Import ZArith Lia Ascii.
From stdpp Require Import base option list strings pretty gmap sorting.

#[local] Set Warnings "-register-all".
Local Open Scope Z_scope.

(** ** JavaScript values *)

Module JS.

Inductive JSValue : Type :=
| JUndefined
| JNull
| JBool (b : bool)
| JNumber (n : Z)
| JString (s : string)
| JArray (items : list JSValue)
| JObject (fields : list (string * JSValue)).

(** What a [throw] carries out of the modelled functions. *)
Inductive Exception : Type :=
| TypeError (msg : string)
| SyntaxError (msg : string).

(** The settled state of a promise ([await] either yields or throws). *)
Inductive Promise (A E : Type) : Type :=
| Resolved (a : A)
| Rejected (e : E).
Arguments Resolved {A E} a.
Arguments Rejected {A E} e.

(** A string is truthy unless it is empty. *)
Definition truthy_string (s : string) : bool :=
  negb (String.eqb s "").

(** [ToBoolean]. *)
Definition truthy (v : JSValue) : bool :=
  match v with
  | JUndefined | JNull => false
  | JBool b => b
  | JNumber n => negb (n =? 0)
  | JString s => truthy_string s
  | JArray _ | JObject _ => true
  end.

(** [typeof v === 'object'] (which holds of [null] and of arrays). *)
Definition typeof_object (v : JSValue) : bool :=
  match v with
  | JNull | JArray _ | JObject _ => true
  | _ => false
  end.

Fixpoint assoc (k : string) (fields : list (string * JSValue)) : option JSValue :=
  match fields with
  | [] => None
  | (k', v) :: rest => if String.eqb k k' then Some v else assoc k rest
  end.

(** [v.k] for a key [k] that names no built-in property: reading through
    [null] or [undefined] throws, an object yields the field or
    [undefined], every other value yields [undefined]. *)
Definition getProp (v : JSValue) (k : string) : Exception + JSValue :=
  match v with
  | JUndefined => inl (TypeError "Cannot read properties of undefined")
  | JNull => inl (TypeError "Cannot read properties of null")
  | JObject fields => inr (default JUndefined (assoc k fields))
  | _ => inr JUndefined
  end.

(** The field [k] of [v] where reading it does not throw, [undefined]
    where it does; for statements about values already known to be
    readable. *)
Definition field (v : JSValue) (k : string) : JSValue :=
  match getProp v k with
  | inr x => x
  | inl _ => JUndefined
  end.

(** [a || b] on values. *)
Definition or_else (a b : JSValue) : JSValue :=
  if truthy a then a else b.

End JS.
Export JS.

(** ** [localStorage] *)

Abbreviation Storage := (gmap string string).

Module LocalStorage.

Definition getItem (k : string) (ls : Storage) : option string := ls !! k.
Definition setItem (k v : string) (ls : Storage) : Storage := <[k := v]> ls.
Definition removeItem (k : string) (ls : Storage) : Storage := delete k ls.

End LocalStorage.

(** ** A reference JSON codec

    [JSON.parse] and [JSON.stringify] are platform functions; the services
    below take them as parameters. To run the model on concrete storage
    contents this module gives an executable codec for the fragment of JSON
    whose numbers are integers without fraction or exponent and whose strings
    use no [\u] escape. A text outside the fragment is rejected. *)

Module JSONRef.

Definition dq : ascii := ascii_of_nat 34.
Definition backslash : ascii := ascii_of_nat 92.

Definition is_ws (c : ascii) : bool :=
  let n := nat_of_ascii c in
  (Nat.eqb n 32 || Nat.eqb n 9 || Nat.eqb n 10 || Nat.eqb n 13)%bool.

Definition is_digit (c : ascii) : bool :=
  let n := nat_of_ascii c in (Nat.leb 48 n && Nat.leb n 57)%bool.

Definition digit_val (c : ascii) : Z := Z.of_nat (nat_of_ascii c) - 48.

Fixpoint skip_ws (s : string) : string :=
  match s with
  | String c r => if is_ws c then skip_ws r else s
  | EmptyString => s
  end.

Fixpoint parse_digits (acc : Z) (s : string) : Z * string :=
  match s with
  | String c r => if is_digit c then parse_digits (10 * acc + digit_val c) r else (acc, s)
  | EmptyString => (acc, s)
  end.

(** After the integer part nothing of a fraction or exponent may follow. *)
Definition integer_ends (s : string) : bool :=
  match s with
  | String c _ =>
      negb (Ascii.eqb c "." || Ascii.eqb c "e" || Ascii.eqb c "E" || is_digit c)
  | EmptyString => true
  end.

Definition parse_nat (s : string) : option (Z * string) :=
  match s with
  | String c r =>
      if Ascii.eqb c "0" then
        if integer_ends r then Some (0, r) else None
      else if is_digit c then
        let '(n, r') := parse_digits (digit_val c) r in
        if integer_ends r' then Some (n, r') else None
      else None
  | EmptyString => None
  end.

Definition parse_number (s : string) : option (Z * string) :=
  match s with
  | String c r =>
      if Ascii.eqb c "-" then
        match parse_nat r with
        | Some (n, r') => Some (- n, r')
        | None => None
        end
      else parse_nat s
  | EmptyString => None
  end.

Definition unescape (c : ascii) : option ascii :=
  if Ascii.eqb c dq then Some dq
  else if Ascii.eqb c backslash then Some backslash
  else if Ascii.eqb c "/" then Some "/"%char
  else if Ascii.eqb c "b" then Some (ascii_of_nat 8)
  else if Ascii.eqb c "f" then Some (ascii_of_nat 12)
  else if Ascii.eqb c "n" then Some (ascii_of_nat 10)
  else if Ascii.eqb c "r" then Some (ascii_of_nat 13)
  else if Ascii.eqb c "t" then Some (ascii_of_nat 9)
  else None.

(** The characters of a string literal after its opening quote, up to and
    including the closing quote. *)
Fixpoint parse_string_body (s : string) : option (string * string) :=
  match s with
  | EmptyString => None
  | String c r =>
      if Ascii.eqb c dq then Some (EmptyString, r)
      else if Ascii.eqb c backslash then
        match r with
        | String e r' =>
            match unescape e, parse_string_body r' with
            | Some c', Some (body, rest) => Some (String c' body, rest)
            | _, _ => None
            end
        | EmptyString => None
        end
      else if Nat.ltb (nat_of_ascii c) 32 then None
      else
        match parse_string_body r with
        | Some (body, rest) => Some (String c body, rest)
        | None => None
        end
  end.

Definition expect (lit : string) (v : JSValue) (s : string) : option (JSValue * string) :=
  if String.prefix lit s
  then Some (v, String.substring (String.length lit) (String.length s - String.length lit) s)
  else None.

(** A repeated key keeps its first position and takes the last value. *)
Fixpoint assoc_set (k : string) (v : JSValue) (fields : list (string * JSValue)) :
    list (string * JSValue) :=
  match fields with
  | [] => [(k, v)]
  | (k', v') :: rest =>
      if String.eqb k k' then (k, v) :: rest else (k', v') :: assoc_set k v rest
  end.

Fixpoint parse_value (fuel : nat) (s : string) {struct fuel} : option (JSValue * string) :=
  match fuel with
  | O => None
  | S fuel' =>
      match skip_ws s with
      | EmptyString => None
      | String c r =>
          if Ascii.eqb c "{" then
            match skip_ws r with
            | String c' r' =>
                if Ascii.eqb c' "}" then Some (JObject [], r')
                else parse_members fuel' (String c' r') []
            | EmptyString => None
            end
          else if Ascii.eqb c "[" then
            match skip_ws r with
            | String c' r' =>
                if Ascii.eqb c' "]" then Some (JArray [], r')
                else parse_elements fuel' (String c' r') []
            | EmptyString => None
            end
          else if Ascii.eqb c dq then
            match parse_string_body r with
            | Some (str, rest) => Some (JString str, rest)
            | None => None
            end
          else if Ascii.eqb c "t" then expect "true" (JBool true) (String c r)
          else if Ascii.eqb c "f" then expect "false" (JBool false) (String c r)
          else if Ascii.eqb c "n" then expect "null" JNull (String c r)
          else
            match parse_number (String c r) with
            | Some (n, rest) => Some (JNumber n, rest)
            | None => None
            end
      end
  end
with parse_elements (fuel : nat) (s : string) (acc : list JSValue) {struct fuel} :
    option (JSValue * string) :=
  match fuel with
  | O => None
  | S fuel' =>
      match parse_value fuel' s with
      | Some (v, rest) =>
          match skip_ws rest with
          | String c r =>
              if Ascii.eqb c "," then parse_elements fuel' r (acc ++ [v])
              else if Ascii.eqb c "]" then Some (JArray (acc ++ [v]), r)
              else None
          | EmptyString => None
          end
      | None => None
      end
  end
with parse_members (fuel : nat) (s : string) (acc : list (string * JSValue)) {struct fuel} :
    option (JSValue * string) :=
  match fuel with
  | O => None
  | S fuel' =>
      match skip_ws s with
      | String c r =>
          if Ascii.eqb c dq then
            match parse_string_body r with
            | Some (k, rest) =>
                match skip_ws rest with
                | String c1 r1 =>
                    if Ascii.eqb c1 ":" then
                      match parse_value fuel' r1 with
                      | Some (v, rest') =>
                          match skip_ws rest' with
                          | String c2 r2 =>
                              if Ascii.eqb c2 "," then parse_members fuel' r2 (assoc_set k v acc)
                              else if Ascii.eqb c2 "}" then Some (JObject (assoc_set k v acc), r2)
                              else None
                          | EmptyString => None
                          end
                      | None => None
                      end
                    else None
                | EmptyString => None
                end
            | None => None
            end
          else None
      | EmptyString => None
      end
  end.

(** [JSON.parse]: [None] stands for the [SyntaxError] it throws. *)
Definition parse (s : string) : option JSValue :=
  match parse_value (2 * String.length s + 2) s with
  | Some (v, rest) =>
      match skip_ws rest with
      | EmptyString => Some v
      | String _ _ => None
      end
  | None => None
  end.

Definition hex_digit (n : nat) : ascii :=
  if Nat.ltb n 10 then ascii_of_nat (48 + n) else ascii_of_nat (87 + n).

Definition escape_char (c : ascii) : string :=
  let n := nat_of_ascii c in
  if Ascii.eqb c dq then String backslash (String dq EmptyString)
  else if Ascii.eqb c backslash then String backslash (String backslash EmptyString)
  else if Nat.eqb n 8 then String backslash "b"
  else if Nat.eqb n 12 then String backslash "f"
  else if Nat.eqb n 10 then String backslash "n"
  else if Nat.eqb n 13 then String backslash "r"
  else if Nat.eqb n 9 then String backslash "t"
  else if Nat.ltb n 32 then
    String backslash
      (String "u" (String "0" (String "0"
        (String (hex_digit (Nat.div n 16)) (String (hex_digit (Nat.modulo n 16)) EmptyString)))))
  else String c EmptyString.

Fixpoint escape (s : string) : string :=
  match s with
  | EmptyString => EmptyString
  | String c r => escape_char c +:+ escape r
  end.

Definition quote (s : string) : string :=
  String dq (escape s +:+ String dq EmptyString).

(** [String(JSON.stringify(v))]: an [undefined] array element is written
    [null], an [undefined] field is left out. *)
Fixpoint stringify (v : JSValue) : string :=
  match v with
  | JUndefined => "undefined"
  | JNull => "null"
  | JBool true => "true"
  | JBool false => "false"
  | JNumber n => pretty n
  | JString s => quote s
  | JArray items =>
      "[" +:+ String.concat ","
        ((fix elements (l : list JSValue) : list string :=
            match l with
            | [] => []
            | x :: r =>
                match x with
                | JUndefined => "null"
                | _ => stringify x
                end :: elements r
            end) items) +:+ "]"
  | JObject fields =>
      "{" +:+ String.concat ","
        ((fix members (l : list (string * JSValue)) : list string :=
            match l with
            | [] => []
            | (k, x) :: r =>
                match x with
                | JUndefined => members r
                | _ => (quote k +:+ ":" +:+ stringify x) :: members r
                end
            end) fields) +:+ "}"
  end.

End JSONRef.

(** ** The API client ([services/api.ts]) *)

Module Api.

Inductive Method : Type := GET | POST | PUT | PATCH | DELETE.

(** The axios request configuration. [_retry] is the property the response
    interceptor writes on it. *)
Record RequestConfig : Type := mkConfig {
  method : Method;
  url : string;
  headers : gmap string string;
  params : JSValue;
  body : JSValue;
  _retry : bool
}.

Record AxiosResponse : Type := mkResponse {
  data : JSValue;
  status : Z;
  response_config : RequestConfig
}.

(** The handle [error.request] of a request that went out. *)
Record ClientRequest : Type := mkClientRequest { sent_config : RequestConfig }.

Record AxiosError : Type := mkAxiosError {
  config : RequestConfig;
  response : option AxiosResponse;
  request : option ClientRequest;
  error_message : string
}.

Inductive Details : Type :=
| DetailsData (d : JSValue)
| DetailsRequest (r : ClientRequest)
| DetailsError (e : AxiosError).

(** The object [handleError] builds. *)
Record AppError : Type := mkAppError {
  code : string;
  message : JSValue;
  details : Details
}.

(** What an HTTP method of the service throws: the value [handleError]
    returned, or the exception raised while [handleError] ran. *)
Inductive Thrown : Type :=
| ThrownAppError (e : AppError)
| ThrownException (e : Exception).

(** What the transport does with one request: a response with a status and
    a body, no response at all (timeout, connection lost), or a failure
    while the request was being set up. *)
Inductive NetOutcome : Type :=
| Responded (st : Z) (d : JSValue)
| NoResponse
| NotSent (msg : string).

Definition Network : Type := RequestConfig -> NetOutcome.

(** A callback registered with [setTimeout]. *)
Inductive Timer : Type :=
| RedirectToLogin (delay : Z).

Record World : Type := mkWorld {
  localStorage : Storage;
  pathname : string;
  timers : list Timer;
  issued : list RequestConfig
}.

Definition set_localStorage (ls : Storage) (w : World) : World :=
  mkWorld ls (pathname w) (timers w) (issued w).
Definition set_pathname (p : string) (w : World) : World :=
  mkWorld (localStorage w) p (timers w) (issued w).
Definition add_timer (t : Timer) (w : World) : World :=
  mkWorld (localStorage w) (pathname w) (timers w ++ [t]) (issued w).
Definition add_issued (c : RequestConfig) (w : World) : World :=
  mkWorld (localStorage w) (pathname w) (timers w) (issued w ++ [c]).

Definition set_header (k v : string) (c : RequestConfig) : RequestConfig :=
  mkConfig (method c) (url c) (<[k := v]> (headers c)) (params c) (body c) (_retry c).
Definition set_retry (b : bool) (c : RequestConfig) : RequestConfig :=
  mkConfig (method c) (url c) (headers c) (params c) (body c) b.
Definition set_config (c : RequestConfig) (e : AxiosError) : AxiosError :=
  mkAxiosError c (response e) (request e) (error_message e).

(** The instance's default headers ([axios.create]). *)
Definition defaultHeaders : gmap string string :=
  {[ "Content-Type" := "application/json" ]}.

Definition setAuthToken (token : string) (ls : Storage) : Storage :=
  LocalStorage.setItem "auth_token" token ls.

Definition removeAuthToken (ls : Storage) : Storage :=
  LocalStorage.removeItem "user_data" (LocalStorage.removeItem "auth_token" ls).

Definition getAuthToken (ls : Storage) : option string :=
  LocalStorage.getItem "auth_token" ls.

(** The request interceptor. *)
Definition requestInterceptor (ls : Storage) (c : RequestConfig) : RequestConfig :=
  match LocalStorage.getItem "auth_token" ls with
  | Some token =>
      if truthy_string token
      then set_header "Authorization" ("Bearer " +:+ token) c
      else c
  | None => c
  end.

(** [error.response?.status === 401] *)
Definition is_401 (e : AxiosError) : bool :=
  match response e with
  | Some r => status r =? 401
  | None => false
  end.

(** The response interceptor's error handler; the promise it returns is
    always rejected with the error it was given. *)
Definition responseInterceptor (e : AxiosError) (w : World) : World * AxiosError :=
  let originalRequest := config e in
  if is_401 e && negb (_retry originalRequest) then
    let e' := set_config (set_retry true originalRequest) e in
    let currentPath := pathname w in
    if negb (String.eqb currentPath "/login") && negb (String.eqb currentPath "/register")
    then (add_timer (RedirectToLogin 100) (set_localStorage (removeAuthToken (localStorage w)) w), e')
    else (w, e')
  else (w, e).

(** The body of the timer the interceptor sets. *)
Definition fireTimer (t : Timer) (w : World) : World :=
  match t with
  | RedirectToLogin _ =>
      if negb (String.eqb (pathname w) "/login") then set_pathname "/login" w else w
  end.

(** One call of the axios instance: the request interceptor, the transport,
    axios' default [validateStatus] (2xx fulfils), the response
    interceptor. [issued] records each request the instance is asked to
    make, as it leaves the request interceptor. *)
Definition send (c : RequestConfig) (net : Network) (w : World) :
    World * Promise AxiosResponse AxiosError :=
  let c' := requestInterceptor (localStorage w) c in
  let w1 := add_issued c' w in
  match net c' with
  | Responded st d =>
      let r := mkResponse d st c' in
      if (200 <=? st) && (st <? 300) then (w1, Resolved r)
      else
        let '(w2, e) :=
          responseInterceptor
            (mkAxiosError c' (Some r) (Some (mkClientRequest c'))
               ("Request failed with status code " +:+ pretty st)) w1 in
        (w2, Rejected e)
  | NoResponse =>
      let '(w2, e) :=
        responseInterceptor
          (mkAxiosError c' None (Some (mkClientRequest c')) "Network Error") w1 in
      (w2, Rejected e)
  | NotSent msg =>
      let '(w2, e) := responseInterceptor (mkAxiosError c' None None msg) w1 in
      (w2, Rejected e)
  end.

Definition handleError (e : AxiosError) : Exception + AppError :=
  match response e with
  | Some r =>
      let data := data r in
      let code := "HTTP_" +:+ pretty (status r) in
      match getProp data "message" with
      | inl exn => inl exn
      | inr m =>
          if truthy m then inr (mkAppError code m (DetailsData data))
          else
            match getProp data "error" with
            | inl exn => inl exn
            | inr m' =>
                inr (mkAppError code (or_else m' (JString "An error occurred"))
                       (DetailsData data))
            end
      end
  | None =>
      match request e with
      | Some req =>
          inr (mkAppError "NETWORK_ERROR"
                 (JString "Network error. Please check your connection.")
                 (DetailsRequest req))
      | None =>
          inr (mkAppError "UNKNOWN_ERROR"
                 (if truthy_string (error_message e)
                  then JString (error_message e)
                  else JString "An unknown error occurred")
                 (DetailsError e))
      end
  end.

(** [throw this.handleError(error)] *)
Definition throw_handled (e : AxiosError) : Thrown :=
  match handleError e with
  | inr app => ThrownAppError app
  | inl exn => ThrownException exn
  end.

(** The shape shared by the six HTTP methods:
    [try { return (await this.api.m(..)).data } catch (e) { throw this.handleError(e) }] *)
Definition call (c : RequestConfig) (net : Network) (w : World) :
    World * Promise JSValue Thrown :=
  match send c net w with
  | (w', Resolved r) => (w', Resolved (data r))
  | (w', Rejected e) => (w', Rejected (throw_handled e))
  end.

Definition get (url : string) (params : JSValue) : Network -> World -> World * Promise JSValue Thrown :=
  call (mkConfig GET url defaultHeaders params JUndefined false).

Definition getPaginated (url : string) (params : JSValue) :
    Network -> World -> World * Promise JSValue Thrown :=
  call (mkConfig GET url defaultHeaders params JUndefined false).

Definition post (url : string) (data : JSValue) : Network -> World -> World * Promise JSValue Thrown :=
  call (mkConfig POST url defaultHeaders JUndefined data false).

Definition put (url : string) (data : JSValue) : Network -> World -> World * Promise JSValue Thrown :=
  call (mkConfig PUT url defaultHeaders JUndefined data false).

Definition patch (url : string) (data : JSValue) : Network -> World -> World * Promise JSValue Thrown :=
  call (mkConfig PATCH url defaultHeaders JUndefined data false).

Definition delete (url : string) : Network -> World -> World * Promise JSValue Thrown :=
  call (mkConfig DELETE url defaultHeaders JUndefined JUndefined false).

(** Whether an outcome of the transport makes axios reject the call. *)
Definition fails (o : NetOutcome) : bool :=
  match o with
  | Responded st _ => negb ((200 <=? st) && (st <? 300))
  | NoResponse | NotSent _ => true
  end.

Definition unauthorized (o : NetOutcome) : bool :=
  match o with
  | Responded st _ => st =? 401
  | NoResponse | NotSent _ => false
  end.

(** The two paths on which the interceptor leaves the session alone. *)
Definition on_auth_page (w : World) : bool :=
  String.eqb (pathname w) "/login" || String.eqb (pathname w) "/register".

(** The six methods as data, to quantify over "every call". *)
Inductive Call : Type :=
| CallGet (url : string) (params : JSValue)
| CallGetPaginated (url : string) (params : JSValue)
| CallPost (url : string) (data : JSValue)
| CallPut (url : string) (data : JSValue)
| CallPatch (url : string) (data : JSValue)
| CallDelete (url : string).

Definition perform (k : Call) : Network -> World -> World * Promise JSValue Thrown :=
  match k with
  | CallGet u p => get u p
  | CallGetPaginated u p => getPaginated u p
  | CallPost u d => post u d
  | CallPut u d => put u d
  | CallPatch u d => patch u d
  | CallDelete u => delete u
  end.

(** The configuration a call hands to the axios instance. *)
Definition config_of (k : Call) : RequestConfig :=
  match k with
  | CallGet u p | CallGetPaginated u p => mkConfig GET u defaultHeaders p JUndefined false
  | CallPost u d => mkConfig POST u defaultHeaders JUndefined d false
  | CallPut u d => mkConfig PUT u defaultHeaders JUndefined d false
  | CallPatch u d => mkConfig PATCH u defaultHeaders JUndefined d false
  | CallDelete u => mkConfig DELETE u defaultHeaders JUndefined JUndefined false
  end.

End Api.

(** ** Shared types ([types/index.ts]) *)

Module Types.

(** [ApiResponse<T>]; [data] is [None] when the field is [null] or absent,
    which is when [response.data] is falsy for an object or array payload. *)
Record ApiResponse (T : Type) : Type := mkApiResponse {
  success : bool;
  data : option T;
  message : option string
}.
Arguments mkApiResponse {T} _ _ _.
Arguments success {T} _.
Arguments data {T} _.
Arguments message {T} _.

Record LoginCredentials : Type := mkCredentials {
  login_username : string;
  login_password : string
}.

(** [LoginResponse] of [services/authService.ts]. *)
Record LoginResponse : Type := mkLoginResponse {
  token : string;
  userId : Z;
  username : string;
  firstName : string;
  lastName : string;
  email : string;
  role : string;
  login_success : bool;
  login_message : string
}.

(** [User] as the pages read it from [useAuth]. *)
Record User : Type := mkUser {
  user_id : Z;
  user_username : string;
  user_email : string;
  user_firstName : string;
  user_lastName : string;
  user_role : string
}.

Inductive SeatClass : Type := FIRST | BUSINESS | ECONOMY.

(** The enum's string value. *)
Definition SeatClass_value (c : SeatClass) : string :=
  match c with
  | FIRST => "FIRST"
  | BUSINESS => "BUSINESS"
  | ECONOMY => "ECONOMY"
  end.

Inductive FlightStatus : Type :=
| SCHEDULED | BOARDING | DEPARTED | IN_FLIGHT | ARRIVED | CANCELLED | DELAYED.

Inductive AirplaneCapacity : Type := SMALL | MEDIUM | LARGE.

Definition AirplaneCapacity_value (c : AirplaneCapacity) : string :=
  match c with
  | SMALL => "SMALL"
  | MEDIUM => "MEDIUM"
  | LARGE => "LARGE"
  end.

Record Airport : Type := mkAirport {
  airport_id : string;
  airport_code : string;
  airport_name : string;
  city : string;
  country : string;
  timezone : string
}.

(** An airplane as the pages read it (the capacity fields are the ones
    [CreateBookingDialog] and the airplane form use). *)
Record Airplane : Type := mkAirplane {
  airplane_id : string;
  model : string;
  registrationNumber : string;
  size : AirplaneCapacity;
  firstClassCapacity : Z;
  businessClassCapacity : Z;
  economyClassCapacity : Z;
  active : bool
}.

Record Flight : Type := mkFlight {
  id : string;
  flightNumber : string;
  airplane : Airplane;
  origin : Airport;
  destination : Airport;
  departureTime : string;
  arrivalTime : string;
  status : FlightStatus;
  firstClassPrice : Z;
  businessClassPrice : Z;
  economyClassPrice : Z;
  availableFirstClassSeats : Z;
  availableBusinessClassSeats : Z;
  availableEconomyClassSeats : Z
}.

Record TransitFlightOption : Type := mkTransit {
  transit_id : string;
  totalDuration : Z;
  totalPrice : Z;
  flights : list Flight;
  transitAirports : list Airport
}.

Record FlightSearchResult : Type := mkSearchResult {
  directFlights : list Flight;
  transitFlights : list TransitFlightOption
}.

End Types.

(** ** The authentication service ([services/authService.ts]) *)

Module AuthService.
Import Types.

Section WithPlatform.

(** [JSON.parse] ([None]: it throws) and [JSON.stringify]. *)
Variable JSON_parse : string -> option JSValue.
Variable JSON_stringify : JSValue -> string.
(** The unchecked readings of a response body at its TypeScript type. *)
Variable as_ApiResponse : JSValue -> ApiResponse JSValue.
Variable as_LoginResponse : JSValue -> LoginResponse.

Definition js_of_credentials (c : LoginCredentials) : JSValue :=
  JObject [("username", JString (login_username c)); ("password", JString (login_password c))].

Definition login (credentials : LoginCredentials) (net : Api.Network) (w : Api.World) :
    Api.World * Promise (ApiResponse JSValue) Api.Thrown :=
  match Api.post "/auth/login" (js_of_credentials credentials) net w with
  | (w1, Resolved raw) =>
      let response := as_ApiResponse raw in
      match success response, data response with
      | true, Some d =>
          let ls1 := Api.setAuthToken (token (as_LoginResponse d)) (Api.localStorage w1) in
          let ls2 := LocalStorage.setItem "user_data" (JSON_stringify d) ls1 in
          (Api.set_localStorage ls2 w1, Resolved response)
      | _, _ => (w1, Resolved response)
      end
  | (w1, Rejected e) => (w1, Rejected e)
  end.

(** [try { await post } catch { log } finally { removeAuthToken() }] *)
Definition logout (net : Api.Network) (w : Api.World) : Api.World * Promise unit Api.Thrown :=
  let finally (w' : Api.World) :=
    Api.set_localStorage (Api.removeAuthToken (Api.localStorage w')) w' in
  match Api.post "/auth/logout" JUndefined net w with
  | (w1, Resolved _) => (finally w1, Resolved tt)
  | (w1, Rejected _) => (finally w1, Resolved tt)
  end.

Definition getCurrentUser (net : Api.Network) (w : Api.World) :
    Api.World * Promise (ApiResponse JSValue) Api.Thrown :=
  match Api.get "/auth/me" JUndefined net w with
  | (w1, Resolved raw) => (w1, Resolved (as_ApiResponse raw))
  | (w1, Rejected e) => (w1, Rejected e)
  end.

(** [parsedUser && typeof parsedUser === 'object' && parsedUser.id &&
    parsedUser.username && parsedUser.email], left to right. *)
Definition hasUserFields (parsedUser : JSValue) : Exception + bool :=
  if truthy parsedUser && typeof_object parsedUser then
    match getProp parsedUser "id" with
    | inl exn => inl exn
    | inr i =>
        if truthy i then
          match getProp parsedUser "username" with
          | inl exn => inl exn
          | inr u =>
              if truthy u then
                match getProp parsedUser "email" with
                | inl exn => inl exn
                | inr e => inr (truthy e)
                end
              else inr false
          end
        else inr false
    end
  else inr false.

(** A value [getStoredUser] accepts: an object, not [null], whose [id],
    [username] and [email] are truthy. *)
Definition userShaped (v : JSValue) : Prop :=
  typeof_object v = true /\ v <> JNull
  /\ truthy (field v "id") = true
  /\ truthy (field v "username") = true
  /\ truthy (field v "email") = true.

(** The [try] block of [getStoredUser]. *)
Definition getStoredUser_try (ls : Storage) : Exception + (option JSValue * Storage) :=
  match LocalStorage.getItem "user_data" ls with
  | None => inr (None, ls)
  | Some userData =>
      if negb (truthy_string userData) then inr (None, ls)
      else
        match JSON_parse userData with
        | None => inl (SyntaxError "Unexpected token")
        | Some parsedUser =>
            match hasUserFields parsedUser with
            | inl exn => inl exn
            | inr true => inr (Some parsedUser, ls)
            | inr false => inr (None, LocalStorage.removeItem "user_data" ls)
            end
        end
  end.

(** [getStoredUser]: the value it returns, or the exception that leaves it,
    and the storage afterwards. *)
Definition getStoredUser (ls : Storage) : (Exception + option JSValue) * Storage :=
  match getStoredUser_try ls with
  | inr (u, ls') => (inr u, ls')
  | inl _ => (inr None, LocalStorage.removeItem "user_data" ls)
  end.

(** [user.role === r] for a user object and a role name. *)
Definition role_is (user : JSValue) (r : string) : bool :=
  match field user "role" with
  | JString s => String.eqb s r
  | _ => false
  end.

(** [isAuthenticated()]: [!!(token && user)], and the storage afterwards. *)
Definition isAuthenticated (ls : Storage) : (Exception + bool) * Storage :=
  let token := Api.getAuthToken ls in
  match getStoredUser ls with
  | (inr user, ls') =>
      (inr match token, user with
           | Some t, Some _ => truthy_string t
           | _, _ => false
           end, ls')
  | (inl exn, ls') => (inl exn, ls')
  end.

(** [hasRole(requiredRole)]: [user?.role === requiredRole]. *)
Definition hasRole (requiredRole : string) (ls : Storage) : (Exception + bool) * Storage :=
  match getStoredUser ls with
  | (inr user, ls') =>
      (inr match user with
           | Some u => role_is u requiredRole
           | None => false
           end, ls')
  | (inl exn, ls') => (inl exn, ls')
  end.

(** [hasAnyRole(roles)]: [user ? roles.includes(user.role) : false]. *)
Definition hasAnyRole (roles : list string) (ls : Storage) : (Exception + bool) * Storage :=
  match getStoredUser ls with
  | (inr user, ls') =>
      (inr match user with
           | Some u => existsb (role_is u) roles
           | None => false
           end, ls')
  | (inl exn, ls') => (inl exn, ls')
  end.

End WithPlatform.

(** An object with exactly the fields of the [LoginResponse] interface. *)
Definition js_of_LoginResponse (r : LoginResponse) : JSValue :=
  JObject [("token", JString (token r));
           ("userId", JNumber (userId r));
           ("username", JString (username r));
           ("firstName", JString (firstName r));
           ("lastName", JString (lastName r));
           ("email", JString (email r));
           ("role", JString (role r));
           ("success", JBool (login_success r));
           ("message", JString (login_message r))].

End AuthService.

(** ** The authentication context ([contexts/AuthContext.tsx]) *)

Module AuthContext.
Import Types.

(** [AuthState]. The [token] is declared [string | null]; the field holds
    whatever value is assigned to it, and [login] assigns the reply's
    [token] unchecked. *)
Record AuthState : Type := mkAuthState {
  user : option JSValue;
  token : JSValue;
  isAuthenticated : bool;
  isLoading : bool
}.

(** The argument of one [setAuthState] call. *)
Definition Update : Type := AuthState -> AuthState.

Definition initialState : AuthState := mkAuthState None JNull false true.
Definition loggedOut : AuthState := mkAuthState None JNull false false.

Definition put (s : AuthState) : Update := fun _ => s.
Definition withLoading (b : bool) : Update :=
  fun prev => mkAuthState (user prev) (token prev) (isAuthenticated prev) b.
Definition withUser (u : JSValue) : Update :=
  fun prev => mkAuthState (Some u) (token prev) (isAuthenticated prev) (isLoading prev).

(** The state after a sequence of [setAuthState] calls. *)
Definition run (us : list Update) (s : AuthState) : AuthState :=
  foldl (fun acc u => u acc) s us.

Section WithPlatform.

Variable JSON_parse : string -> option JSValue.
Variable JSON_stringify : JSValue -> string.
Variable as_ApiResponse : JSValue -> ApiResponse JSValue.
Variable as_LoginResponse : JSValue -> LoginResponse.

Definition initializeAuth (net : Api.Network) (w : Api.World) : list Update * Api.World :=
  let token := Api.getAuthToken (Api.localStorage w) in
  match AuthService.getStoredUser JSON_parse (Api.localStorage w) with
  | (inl _, ls1) => ([put loggedOut], Api.set_localStorage ls1 w)
  | (inr user, ls1) =>
      let w1 := Api.set_localStorage ls1 w in
      match token, user with
      | Some t, Some u =>
          if truthy_string t then
            let verifying := put (mkAuthState (Some u) (JString t) true true) in
            match AuthService.getCurrentUser as_ApiResponse net w1 with
            | (w2, Resolved response) =>
                match success response, data response with
                | true, Some d =>
                    ([verifying; put (mkAuthState (Some d) (JString t) true false)],
                     Api.set_localStorage
                       (LocalStorage.setItem "user_data" (JSON_stringify d) (Api.localStorage w2))
                       w2)
                | _, _ =>
                    ([verifying; put loggedOut],
                     Api.set_localStorage (Api.removeAuthToken (Api.localStorage w2)) w2)
                end
            | (w2, Rejected _) =>
                ([verifying; put (mkAuthState (Some u) (JString t) true false)], w2)
            end
          else ([withLoading false], w1)
      | _, _ => ([withLoading false], w1)
      end
  end.

(** The user object [login] builds from [response.data]. *)
Definition user_of_login (d : JSValue) : JSValue :=
  JObject [("id", field d "userId");
           ("username", field d "username");
           ("firstName", field d "firstName");
           ("lastName", field d "lastName");
           ("email", field d "email");
           ("role", field d "role")].

Definition login (credentials : LoginCredentials) (net : Api.Network) (w : Api.World) :
    (list Update * bool) * Api.World :=
  match AuthService.login JSON_stringify as_ApiResponse as_LoginResponse credentials net w with
  | (w1, Resolved response) =>
      match success response, data response with
      | true, Some d =>
          ([withLoading true;
            put (mkAuthState (Some (user_of_login d)) (field d "token") true false)],
           true, w1)
      | _, _ => ([withLoading true; withLoading false], false, w1)
      end
  | (w1, Rejected _) => ([withLoading true; withLoading false], false, w1)
  end.

Definition logout (net : Api.Network) (w : Api.World) : list Update * Api.World :=
  match AuthService.logout net w with
  | (w1, Resolved _) => ([put loggedOut], w1)
  | (w1, Rejected _) => ([put loggedOut], w1)
  end.

Definition refreshUser (net : Api.Network) (w : Api.World) : list Update * Api.World :=
  match AuthService.getCurrentUser as_ApiResponse net w with
  | (w1, Resolved response) =>
      match success response, data response with
      | true, Some d =>
          ([withUser d],
           Api.set_localStorage
             (LocalStorage.setItem "user_data" (JSON_stringify d) (Api.localStorage w1)) w1)
      | _, _ => ([], w1)
      end
  | (w1, Rejected _) => ([], w1)
  end.

(** One [setAuthState] call of some operation of the provider, under some
    state of the browser and some behaviour of the network among those the
    server in question shows. *)
Inductive performs (server : Api.Network -> Prop) : Update -> Prop :=
| by_initializeAuth net w u :
    server net -> u ∈ (initializeAuth net w).1 -> performs server u
| by_login c net w u :
    server net -> u ∈ (login c net w).1.1 -> performs server u
| by_logout net w u :
    server net -> u ∈ (logout net w).1 -> performs server u
| by_refreshUser net w u :
    server net -> u ∈ (refreshUser net w).1 -> performs server u.

(** The states the provider can expose: the initial one, and any state an
    operation's [setAuthState] call produces from an exposed one, in any
    interleaving. *)
Inductive exposed (server : Api.Network -> Prop) : AuthState -> Prop :=
| exposed_initial : exposed server initialState
| exposed_update s u : exposed server s -> performs server u -> exposed server (u s).

(** The network's accepted logins carry a token: whenever [authService.login]
    resolves with [success] and a payload, the payload's [token] is neither
    [null] nor missing. *)
Definition tokenInReply (net : Api.Network) : Prop :=
  forall credentials w w1 response d,
    AuthService.login JSON_stringify as_ApiResponse as_LoginResponse credentials net w
    = (w1, Resolved response) ->
    success response = true -> data response = Some d ->
    field d "token" <> JNull /\ field d "token" <> JUndefined.

End WithPlatform.

(** [isAuthenticated] only with a user and a token. *)
Definition consistent (s : AuthState) : Prop :=
  isAuthenticated s = true -> user s <> None /\ token s <> JNull.

(** The same, with a token that is not [undefined] either. *)
Definition signedIn (s : AuthState) : Prop :=
  isAuthenticated s = true ->
  user s <> None /\ token s <> JNull /\ token s <> JUndefined.

(** The three shapes a [setAuthState] argument takes in the provider. *)
Inductive shape : Update -> Prop :=
| shape_put s : signedIn s -> shape (put s)
| shape_loading b : shape (withLoading b)
| shape_user u : shape (withUser u).

End AuthContext.

(** ** JavaScript numbers that may be [NaN], and [Array.prototype.sort] *)

Module Num.

(** [a <= b], [a > b] and [a - b] when either side may be [NaN] ([None]). *)
Definition le (a b : option Z) : bool :=
  match a, b with
  | Some x, Some y => x <=? y
  | _, _ => false
  end.

Definition ge (a b : option Z) : bool :=
  match a, b with
  | Some x, Some y => y <=? x
  | _, _ => false
  end.

Definition gt (a b : option Z) : bool :=
  match a, b with
  | Some x, Some y => y <? x
  | _, _ => false
  end.

Definition sub (a b : option Z) : option Z :=
  match a, b with
  | Some x, Some y => Some (x - y)
  | _, _ => None
  end.

Section Sort.
Context {A : Type}.
Variable comparefn : A -> A -> option Z.

(** [SortCompare]: a comparator result of [NaN] counts as [+0]. *)
Definition sortCompare (a b : A) : Z := default 0 (comparefn a b).

Fixpoint insert (x : A) (l : list A) : list A :=
  match l with
  | [] => [x]
  | y :: l' => if sortCompare x y <=? 0 then x :: y :: l' else y :: insert x l'
  end.

(** [Array.prototype.sort]. The language fixes the result for a consistent
    comparator: sorted, and stable. Insertion from the right, placing an
    element before the first one it does not exceed, computes that result.
    For a comparator that is not consistent (one that returns [NaN] for
    some pairs) the language leaves the order to the engine and fixes only
    that the result is a permutation; of such a sort nothing but the
    permutation is stated below. *)
Definition Array_sort (l : list A) : list A := foldr insert [] l.

End Sort.

(** Non-decreasing order by a key that both elements have. *)
Definition by_key {A : Type} (key : A -> option Z) (a b : A) : Prop :=
  exists x y, key a = Some x /\ key b = Some y /\ x <= y.

(** [Array.from({ length }, (_, i) => f i)]; [ToLength] clamps a negative
    length to 0. *)
Fixpoint from_index {A : Type} (f : nat -> A) (i count : nat) : list A :=
  match count with
  | O => []
  | S count' => f i :: from_index f (S i) count'
  end.

Definition Array_from {A : Type} (length : Z) (f : nat -> A) : list A :=
  from_index f 0 (Z.to_nat length).

(** [l.includes(x)] on strings. *)
Definition includes (l : list string) (x : string) : bool :=
  existsb (String.eqb x) l.

(** [a < b] *)
Definition lt (a b : option Z) : bool :=
  match a, b with
  | Some x, Some y => x <? y
  | _, _ => false
  end.

(** A number in a template literal; [None] prints as [NaN]. *)
Definition show (n : option Z) : string :=
  match n with
  | Some x => pretty x
  | None => "NaN"
  end.

(** [Math.floor(a / b)] and [a % b] on whole numbers, [b > 0]. *)
Definition floorDiv (a : option Z) (b : Z) : option Z :=
  match a with
  | Some x => Some (x / b)
  | None => None
  end.

Definition remainder (a : option Z) (b : Z) : option Z :=
  match a with
  | Some x => Some (Z.rem x b)
  | None => None
  end.

End Num.

(** ** The search page ([pages/FlightSearchPage.tsx]) *)

Module FlightSearchPage.
Import Types.

Inductive SortBy : Type := price | duration | departure.

Record TimeRange : Type := mkTimeRange { start : string; end_ : string }.

Record Filters : Type := mkFilters {
  maxPrice : Z;
  seatClass : option SeatClass;
  departureTimeRange : TimeRange;
  airlines : list string;
  maxStops : Z;
  sortBy : SortBy
}.

(** The price column the page reads for a selected class. *)
Definition classPrice (sc : option SeatClass) (flight : Flight) : Z :=
  match sc with
  | Some FIRST => firstClassPrice flight
  | Some BUSINESS => businessClassPrice flight
  | _ => economyClassPrice flight
  end.

Definition classSeats (sc : option SeatClass) (flight : Flight) : Z :=
  match sc with
  | Some FIRST => availableFirstClassSeats flight
  | Some BUSINESS => availableBusinessClassSeats flight
  | _ => availableEconomyClassSeats flight
  end.

Section WithDate.

(** [new Date(s).getTime()] ([None]: [NaN]) and [new Date(s).toTimeString()]. *)
Variable Date_getTime : string -> option Z.
Variable Date_toTimeString : string -> string.

(** [new Date(`2000-01-01T${hhmm}`).getTime()] *)
Definition onReferenceDay (hhmm : string) : option Z :=
  Date_getTime ("2000-01-01T" +:+ hhmm).

(** [new Date(flight.departureTime).toTimeString().slice(0, 5)] on the
    reference day. *)
Definition flightTime (flight : Flight) : option Z :=
  onReferenceDay (String.substring 0 5 (Date_toTimeString (departureTime flight))).

Definition sortFunctions (filters : Filters) (by_ : SortBy) (a b : Flight) : option Z :=
  match by_ with
  | price =>
      let priceA := classPrice (seatClass filters) a in
      let priceB := classPrice (seatClass filters) b in
      Some (priceA - priceB)
  | departure =>
      Num.sub (Date_getTime (departureTime a)) (Date_getTime (departureTime b))
  | duration =>
      let durationA := Num.sub (Date_getTime (arrivalTime a)) (Date_getTime (departureTime a)) in
      let durationB := Num.sub (Date_getTime (arrivalTime b)) (Date_getTime (departureTime b)) in
      Num.sub durationA durationB
  end.

Definition getFilteredResults (searchResults : option FlightSearchResult) (filters : Filters) :
    option FlightSearchResult :=
  match searchResults with
  | None => None
  | Some searchResults =>
      let directFlights0 := directFlights searchResults in
      let transitFlights0 := transitFlights searchResults in
      (* price filter *)
      let '(directFlights1, transitFlights1) :=
        if 0 <? maxPrice filters then
          (List.filter (fun flight => classPrice (seatClass filters) flight <=? maxPrice filters)
             directFlights0,
           List.filter (fun option => totalPrice option <=? maxPrice filters) transitFlights0)
        else (directFlights0, transitFlights0) in
      (* seat class filter *)
      let directFlights2 :=
        match seatClass filters with
        | Some _ =>
            List.filter (fun flight => 0 <? classSeats (seatClass filters) flight) directFlights1
        | None => directFlights1
        end in
      (* departure time filter *)
      let range := departureTimeRange filters in
      let directFlights3 :=
        if truthy_string (start range) && truthy_string (end_ range) then
          let startTime := onReferenceDay (start range) in
          let endTime := onReferenceDay (end_ range) in
          List.filter
            (fun flight =>
               Num.ge (flightTime flight) startTime && Num.le (flightTime flight) endTime)
            directFlights2
        else directFlights2 in
      (* sort *)
      let directFlights4 := Num.Array_sort (sortFunctions filters (sortBy filters)) directFlights3 in
      Some (mkSearchResult directFlights4
              (List.filter
                 (fun option => Z.of_nat (length (flights option)) - 1 <=? maxStops filters)
                 transitFlights1))
  end.

(** The direct flights before sorting: the three conditional filters. *)
Definition filteredDirect (filters : Filters) (l : list Flight) : list Flight :=
  let range := departureTimeRange filters in
  let l1 := if 0 <? maxPrice filters
            then List.filter (fun flight => classPrice (seatClass filters) flight <=? maxPrice filters) l
            else l in
  let l2 := if bool_decide (seatClass filters <> None)
            then List.filter (fun flight => 0 <? classSeats (seatClass filters) flight) l1
            else l1 in
  if truthy_string (start range) && truthy_string (end_ range)
  then List.filter
         (fun flight =>
            Num.ge (flightTime flight)
              (onReferenceDay (start range))
            && Num.le (flightTime flight)
                 (onReferenceDay (end_ range))) l2
  else l2.

Definition filteredTransit (filters : Filters) (l : list TransitFlightOption) :
    list TransitFlightOption :=
  List.filter (fun option => Z.of_nat (length (flights option)) - 1 <=? maxStops filters)
    (if 0 <? maxPrice filters
     then List.filter (fun option => totalPrice option <=? maxPrice filters) l
     else l).

(** The key the direct flights are ordered by. *)
Definition sortKey (filters : Filters) (flight : Flight) : option Z :=
  match sortBy filters with
  | price => Some (classPrice (seatClass filters) flight)
  | departure => Date_getTime (departureTime flight)
  | duration => Num.sub (Date_getTime (arrivalTime flight)) (Date_getTime (departureTime flight))
  end.

(** The departure's time of day lies within the range's bounds. *)
Definition departsWithin (range : TimeRange) (flight : Flight) : Prop :=
  exists lo t hi,
    onReferenceDay (start range) = Some lo
    /\ flightTime flight = Some t
    /\ onReferenceDay (end_ range) = Some hi
    /\ lo <= t <= hi.

(** The active predicates on a direct flight. *)
Definition keepsDirect (filters : Filters) (flight : Flight) : Prop :=
  (0 < maxPrice filters -> classPrice (seatClass filters) flight <= maxPrice filters)
  /\ (seatClass filters <> None -> 0 < classSeats (seatClass filters) flight)
  /\ (start (departureTimeRange filters) <> "" -> end_ (departureTimeRange filters) <> "" ->
        departsWithin (departureTimeRange filters) flight).

(** The active predicates on a transit option. *)
Definition keepsTransit (filters : Filters) (option : TransitFlightOption) : Prop :=
  (0 < maxPrice filters -> totalPrice option <= maxPrice filters)
  /\ Z.of_nat (length (flights option)) - 1 <= maxStops filters.

(** [totalResults]: how many results the page announces. *)
Definition totalResults (searchResults : option FlightSearchResult) (filters : Filters) : nat :=
  match getFilteredResults searchResults filters with
  | Some filteredResults =>
      length (directFlights filteredResults) + length (transitFlights filteredResults)
  | None => 0
  end.

End WithDate.

End FlightSearchPage.

(** ** The filter panel ([components/flights/FlightFilters.tsx]) *)

Module FlightFilters.
Import Types FlightSearchPage.

(** One [updateFilter(key, value)]. *)
Inductive Change : Type :=
| SetMaxPrice (v : Z)
| SetSeatClass (v : option SeatClass)
| SetDepartureTimeRange (v : TimeRange)
| SetAirlines (v : list string)
| SetMaxStops (v : Z)
| SetSortBy (v : SortBy).

(** The argument [updateFilter] passes to [onFiltersChange]:
    [{ ...filters, [key]: value }], built from the [filters] prop of the
    current render. *)
Definition updateFilter (filters : Filters) (c : Change) : Filters :=
  match c with
  | SetMaxPrice v =>
      mkFilters v (seatClass filters) (departureTimeRange filters) (airlines filters)
        (maxStops filters) (sortBy filters)
  | SetSeatClass v =>
      mkFilters (maxPrice filters) v (departureTimeRange filters) (airlines filters)
        (maxStops filters) (sortBy filters)
  | SetDepartureTimeRange v =>
      mkFilters (maxPrice filters) (seatClass filters) v (airlines filters)
        (maxStops filters) (sortBy filters)
  | SetAirlines v =>
      mkFilters (maxPrice filters) (seatClass filters) (departureTimeRange filters) v
        (maxStops filters) (sortBy filters)
  | SetMaxStops v =>
      mkFilters (maxPrice filters) (seatClass filters) (departureTimeRange filters)
        (airlines filters) v (sortBy filters)
  | SetSortBy v =>
      mkFilters (maxPrice filters) (seatClass filters) (departureTimeRange filters)
        (airlines filters) (maxStops filters) v
  end.

(** The argument [resetFilters] passes to [onFiltersChange]. *)
Definition resetFilters : Filters :=
  mkFilters 0 None (mkTimeRange "" "") [] 2 price.

(** An event handler of the panel: the [updateFilter] calls it makes, in
    order, all of them reading the same [filters] prop. *)
Definition handler (changes : list Change) (filters : Filters) : list Filters :=
  map (updateFilter filters) changes.

(** The page's [handleFilterChange] is [setFilters(newFilters)]: after the
    handler the state is the argument of its last call. *)
Definition afterHandler (changes : list Change) (filters : Filters) : Filters :=
  foldl (fun _ newFilters => newFilters) filters (handler changes filters).

(** The three quick-filter buttons. *)
Definition cheapestEconomy : list Change := [SetSortBy price; SetSeatClass (Some ECONOMY)].
Definition fastestDirect : list Change := [SetSortBy duration; SetMaxStops 0].
Definition businessClass : list Change := [SetSeatClass (Some BUSINESS); SetSortBy departure].

(** The airline checkbox of [airline], ticked or cleared. *)
Definition toggleAirline (airline : string) (checked : bool) (filters : Filters) : Change :=
  SetAirlines
    (if checked then airlines filters ++ [airline]
     else List.filter (fun a => negb (String.eqb a airline)) (airlines filters)).

Record PriceRange : Type := mkPriceRange { min : Z; max : Z }.

(** The prices [getPriceRange] collects, in the order it pushes them. *)
Definition allPrices (searchResults : FlightSearchResult) : list Z :=
  flat_map (fun flight =>
              [economyClassPrice flight; businessClassPrice flight; firstClassPrice flight])
    (directFlights searchResults)
  ++ map totalPrice (transitFlights searchResults).

Definition getPriceRange (searchResults : option FlightSearchResult) : PriceRange :=
  match searchResults with
  | None => mkPriceRange 0 5000
  | Some searchResults =>
      match allPrices searchResults with
      | [] => mkPriceRange 0 5000
      | p :: ps => mkPriceRange (foldl Z.min p ps) (foldl Z.max p ps)
      end
  end.

(** [filters.maxPrice || priceRange.max], the number the panel prints as
    the current bound and hands to the range input. *)
Definition shownMaxPrice (filters : Filters) (searchResults : option FlightSearchResult) : Z :=
  if maxPrice filters =? 0 then max (getPriceRange searchResults) else maxPrice filters.

(** [airlines.add(airline)] on a [Set] kept in insertion order. *)
Definition Set_add (seen : list string) (x : string) : list string :=
  if Num.includes seen x then seen else seen ++ [x].

(** The airline code the panel reads off a flight number. *)
Definition airlineOf (flight : Flight) : string :=
  String.substring 0 2 (flightNumber flight).

Definition getAvailableAirlines (searchResults : option FlightSearchResult) : list string :=
  match searchResults with
  | None => []
  | Some searchResults =>
      let airlines0 := foldl (fun acc flight => Set_add acc (airlineOf flight)) []
                         (directFlights searchResults) in
      foldl (fun acc option =>
               foldl (fun acc' flight => Set_add acc' (airlineOf flight)) acc (flights option))
        airlines0 (transitFlights searchResults)
  end.

Definition hasActiveFilters (filters : Filters) : bool :=
  (0 <? maxPrice filters)
  || bool_decide (seatClass filters <> None)
  || truthy_string (start (departureTimeRange filters))
  || truthy_string (end_ (departureTimeRange filters))
  || Nat.ltb 0 (length (airlines filters))
  || (maxStops filters <? 2).

End FlightFilters.

(** ** The booking dialog ([CreateBookingDialog]) *)

Module CreateBookingDialog.
Import Types.

Record State : Type := mkState {
  flights : list Flight;
  selectedFlight : option Flight;
  availableSeats : list string;
  bookedSeats : list string;
  isLoadingFlights : bool
}.

Definition set_flights (fs : list Flight) (st : State) : State :=
  mkState fs (selectedFlight st) (availableSeats st) (bookedSeats st) (isLoadingFlights st).
Definition set_availableSeats (l : list string) (st : State) : State :=
  mkState (flights st) (selectedFlight st) l (bookedSeats st) (isLoadingFlights st).
Definition set_bookedSeats (l : list string) (st : State) : State :=
  mkState (flights st) (selectedFlight st) (availableSeats st) l (isLoadingFlights st).
Definition set_isLoadingFlights (b : bool) (st : State) : State :=
  mkState (flights st) (selectedFlight st) (availableSeats st) (bookedSeats st) b.

Definition FlightStatus_is_scheduled (s : FlightStatus) : bool :=
  match s with
  | SCHEDULED => true
  | _ => false
  end.

Section WithDate.

Variable Date_getTime : string -> option Z.

(** [loadFlights], given the current time and the settled result of
    [flightService.getAllFlights()]. *)
Definition loadFlights (now : Z) (r : Promise (ApiResponse (list Flight)) Api.Thrown)
    (st : State) : State :=
  let st1 := set_isLoadingFlights true st in
  let st2 :=
    match r with
    | Resolved response =>
        if success response then
          let futureFlights :=
            List.filter
              (fun flight =>
                 Num.gt (Date_getTime (departureTime flight)) (Some now)
                 && FlightStatus_is_scheduled (status flight))
              (default [] (data response)) in
          set_flights futureFlights st1
        else st1
    | Rejected _ => st1
    end in
  set_isLoadingFlights false st2.

End WithDate.

Definition capacityOf (seatClass : SeatClass) (flight : Flight) : Z :=
  match seatClass with
  | FIRST => firstClassCapacity (airplane flight)
  | BUSINESS => businessClassCapacity (airplane flight)
  | ECONOMY => economyClassCapacity (airplane flight)
  end.

Definition seatPrefixOf (seatClass : SeatClass) : string :=
  match seatClass with
  | FIRST => "F"
  | BUSINESS => "B"
  | ECONOMY => "E"
  end.

(** [`${seatPrefix}${i + 1}`] *)
Definition seatLabel (seatPrefix : string) (i : nat) : string :=
  seatPrefix +:+ pretty (i + 1)%nat.

(** The seats [loadAvailableSeats] generates for a flight. *)
Definition allSeatsOf (seatClass : SeatClass) (flight : Flight) : list string :=
  let capacity := capacityOf seatClass flight in
  let seatPrefix := seatPrefixOf seatClass in
  Num.Array_from capacity (seatLabel seatPrefix).

(** [loadAvailableSeats], given the settled result of
    [bookingService.getBookedSeats(flightId, seatClass)]. *)
Definition loadAvailableSeats (flightId : string) (seatClass : SeatClass)
    (r : Promise (ApiResponse (list string)) Api.Thrown) (st : State) : State :=
  match r with
  | Resolved response =>
      if success response then
        let st1 := set_bookedSeats (default [] (data response)) st in
        match List.find (fun f => String.eqb (id f) flightId) (flights st) with
        | Some flight =>
            let allSeats := allSeatsOf seatClass flight in
            let available :=
              List.filter (fun seat => negb (Num.includes (default [] (data response)) seat))
                allSeats in
            set_availableSeats available st1
        | None => st1
        end
      else st
  | Rejected _ => st
  end.

(** [z.infer<typeof createBookingSchema>] *)
Record CreateBookingFormData : Type := mkBookingForm {
  form_flightId : string;
  form_seatClass : SeatClass;
  form_customerId : option string;
  form_seatNumber : option string
}.

(** [createBookingSchema.safeParse(data)]: the issues, none when the data
    pass. *)
Definition createBookingSchema (data : CreateBookingFormData) : list (string * string) :=
  if Nat.leb 1 (String.length (form_flightId data)) then []
  else [("flightId", "Please select a flight")].

(** [user?.role === UserRole.CUSTOMER ? user.id.toString() : data.customerId || ''] *)
Definition customerIdOf (user : option User) (data : CreateBookingFormData) : string :=
  match user with
  | Some u =>
      if String.eqb (user_role u) "CUSTOMER" then pretty (user_id u)
      else
        match form_customerId data with
        | Some c => if truthy_string c then c else ""
        | None => ""
        end
  | None =>
      match form_customerId data with
      | Some c => if truthy_string c then c else ""
      | None => ""
      end
  end.

Definition js_of_optional (o : option string) : JSValue :=
  match o with
  | Some x => JString x
  | None => JUndefined
  end.

(** The request [handleSubmit] hands to [bookingService.createBooking]. *)
Definition handleSubmit (user : option User) (data : CreateBookingFormData) : Api.Call :=
  Api.CallPost "/bookings"
    (JObject [("customerId", JString (customerIdOf user data));
              ("flightId", JString (form_flightId data));
              ("seatClass", JString (SeatClass_value (form_seatClass data)));
              ("seatNumber", js_of_optional (form_seatNumber data))]).

(** [form.handleSubmit(handleSubmit)] *)
Definition onSubmit (user : option User) (data : CreateBookingFormData) :
    list (string * string) + Api.Call :=
  match createBookingSchema data with
  | [] => inr (handleSubmit user data)
  | issues => inl issues
  end.

(** The body of a [POST]. *)
Definition bodyOf (k : Api.Call) : JSValue :=
  match k with
  | Api.CallPost _ d | Api.CallPut _ d | Api.CallPatch _ d => d
  | _ => JUndefined
  end.

End CreateBookingDialog.

(** ** The airplane form ([AirplaneManagementPage]) *)

Module AirplaneManagementPage.
Import Types.

(** [z.infer<typeof airplaneSchema>]; the capacity inputs store
    [parseInt(value) || 0], an integer. *)
Record AirplaneFormData : Type := mkFormData {
  model : string;
  registrationNumber : string;
  size : AirplaneCapacity;
  firstClassCapacity : Z;
  businessClassCapacity : Z;
  economyClassCapacity : Z;
  active : bool
}.

(** One issue of the zod schema: the field and its message. *)
Definition Issue : Type := (string * string)%type.

Definition check (ok : bool) (field msg : string) : list Issue :=
  if ok then [] else [(field, msg)].

(** [airplaneSchema.safeParse(data)]: the issues, none when the data pass. *)
Definition airplaneSchema (data : AirplaneFormData) : list Issue :=
  check (Nat.leb 1 (String.length (model data))) "model" "Model is required"
  ++ check (Nat.leb 1 (String.length (registrationNumber data)))
       "registrationNumber" "Registration is required"
  ++ check (0 <=? firstClassCapacity data) "firstClassCapacity" "Must be 0 or greater"
  ++ check (0 <=? businessClassCapacity data) "businessClassCapacity" "Must be 0 or greater"
  ++ check (1 <=? economyClassCapacity data) "economyClassCapacity"
       "Must have at least 1 economy seat".

(** What the schema asks of the form data. *)
Definition admissible (data : AirplaneFormData) : Prop :=
  model data <> "" /\ registrationNumber data <> ""
  /\ 0 <= firstClassCapacity data /\ 0 <= businessClassCapacity data
  /\ 1 <= economyClassCapacity data.

(** The request [handleAdd] hands to [flightService.createAirplane]. *)
Definition handleAdd (data : AirplaneFormData) : Api.Call :=
  let totalCapacity :=
    firstClassCapacity data + businessClassCapacity data + economyClassCapacity data in
  Api.CallPost "/airplanes"
    (JObject [("model", JString (model data));
              ("registrationNumber", JString (registrationNumber data));
              ("size", JString (AirplaneCapacity_value (size data)));
              ("firstClassCapacity", JNumber (firstClassCapacity data));
              ("businessClassCapacity", JNumber (businessClassCapacity data));
              ("economyClassCapacity", JNumber (economyClassCapacity data));
              ("active", JBool (active data));
              ("totalCapacity", JNumber totalCapacity)]).

(** [form.handleSubmit(handleAdd)]: the handler runs only when the
    resolver reports no issue; otherwise the issues are shown. *)
Definition onSubmitAdd (data : AirplaneFormData) : list Issue + Api.Call :=
  match airplaneSchema data with
  | [] => inr (handleAdd data)
  | issues => inl issues
  end.

Inductive StatusFilter : Type := AllStatuses | ActiveOnly | InactiveOnly.

(** The page state the handlers read. *)
Record State : Type := mkState {
  airplanes : list Airplane;
  searchTerm : string;
  statusFilter : StatusFilter;
  capacityFilter : option AirplaneCapacity;
  selectedAirplane : option Airplane
}.

(** [text.includes(part)] *)
Fixpoint String_includes (text part : string) : bool :=
  String.prefix part text
  || match text with
     | EmptyString => false
     | String _ rest => String_includes rest part
     end.

Definition AirplaneCapacity_eqb (a b : AirplaneCapacity) : bool :=
  match a, b with
  | SMALL, SMALL | MEDIUM, MEDIUM | LARGE, LARGE => true
  | _, _ => false
  end.

Section WithLocale.

(** [String.prototype.toLowerCase] *)
Variable toLowerCase : string -> string.

(** The list [filterAirplanes] stores in [filteredAirplanes]. *)
Definition filterAirplanes (st : State) : list Airplane :=
  let filtered0 := airplanes st in
  let filtered1 :=
    if truthy_string (searchTerm st) then
      List.filter
        (fun airplane =>
           String_includes (toLowerCase (Types.model airplane)) (toLowerCase (searchTerm st))
           || String_includes (toLowerCase (Types.registrationNumber airplane))
                (toLowerCase (searchTerm st)))
        filtered0
    else filtered0 in
  let filtered2 :=
    match statusFilter st with
    | AllStatuses => filtered1
    | ActiveOnly => List.filter (fun airplane => Types.active airplane) filtered1
    | InactiveOnly => List.filter (fun airplane => negb (Types.active airplane)) filtered1
    end in
  match capacityFilter st with
  | None => filtered2
  | Some capacity =>
      List.filter (fun airplane => AirplaneCapacity_eqb (Types.size airplane) capacity) filtered2
  end.

End WithLocale.

Definition getTotalActiveAirplanes (st : State) : nat :=
  length (List.filter (fun a => Types.active a) (airplanes st)).

Definition getTotalInactiveAirplanes (st : State) : nat :=
  length (List.filter (fun a => negb (Types.active a)) (airplanes st)).

Definition setSelectedAirplane (v : option Airplane) (st : State) : State :=
  mkState (airplanes st) (searchTerm st) (statusFilter st) (capacityFilter st) v.

(** [openEditDialog]: the airplane becomes the selected one, and the form
    is reset to its values. *)
Definition openEditDialog (airplane : Airplane) (st : State) : State * AirplaneFormData :=
  (setSelectedAirplane (Some airplane) st,
   mkFormData (Types.model airplane) (Types.registrationNumber airplane) (Types.size airplane)
     (Types.firstClassCapacity airplane) (Types.businessClassCapacity airplane)
     (Types.economyClassCapacity airplane) (Types.active airplane)).

(** [{ ...data, totalCapacity }] as [handleEdit] builds it. *)
Definition airplaneData (data : AirplaneFormData) : JSValue :=
  let totalCapacity :=
    firstClassCapacity data + businessClassCapacity data + economyClassCapacity data in
  JObject [("model", JString (model data));
           ("registrationNumber", JString (registrationNumber data));
           ("size", JString (AirplaneCapacity_value (size data)));
           ("firstClassCapacity", JNumber (firstClassCapacity data));
           ("businessClassCapacity", JNumber (businessClassCapacity data));
           ("economyClassCapacity", JNumber (economyClassCapacity data));
           ("active", JBool (active data));
           ("totalCapacity", JNumber totalCapacity)].

(** The request [handleEdit] hands to [flightService.updateAirplane], if an
    airplane is selected. *)
Definition handleEdit (st : State) (data : AirplaneFormData) : option Api.Call :=
  match selectedAirplane st with
  | None => None
  | Some selected =>
      Some (Api.CallPut ("/airplanes/" +:+ airplane_id selected) (airplaneData data))
  end.

(** [form.handleSubmit(handleEdit)] *)
Definition onSubmitEdit (st : State) (data : AirplaneFormData) : list Issue + option Api.Call :=
  match airplaneSchema data with
  | [] => inr (handleEdit st data)
  | issues => inl issues
  end.

End AirplaneManagementPage.

(** ** The customer's bookings ([pages/MyBookingsPage.tsx]) *)

Module MyBookingsPage.
Import Types.

Inductive BookingStatus : Type := CONFIRMED | CANCELLED_BOOKING | COMPLETED.

Record Booking : Type := mkBooking {
  booking_id : string;
  bookingReference : string;
  flight : Flight;
  seatClass : SeatClass;
  seatNumber : string;
  price : Z;
  bookingDate : string;
  status : BookingStatus
}.

Definition is_confirmed (s : BookingStatus) : bool :=
  match s with
  | CONFIRMED => true
  | _ => false
  end.

Section WithDate.

Variable Date_getTime : string -> option Z.

(** [new Date(booking.flight.departureTime).getTime()] *)
Definition departure (booking : Booking) : option Z :=
  Date_getTime (departureTime (flight booking)).

(** [flightDate > now && booking.status === CONFIRMED] *)
Definition isUpcoming (now : Z) (booking : Booking) : bool :=
  Num.gt (departure booking) (Some now) && is_confirmed (status booking).

(** [organizeBookings]: the lists it stores as upcoming and past. *)
Definition organizeBookings (now : Z) (allBookings : list Booking) :
    list Booking * list Booking :=
  let upcoming := List.filter (isUpcoming now) allBookings in
  let past := List.filter (fun booking => negb (isUpcoming now booking)) allBookings in
  (Num.Array_sort (fun a b => Num.sub (departure a) (departure b)) upcoming,
   Num.Array_sort (fun a b => Num.sub (departure b) (departure a)) past).

(** [getTimeUntilFlight] *)
Definition getTimeUntilFlight (now : Z) (departureTime : string) : string :=
  let diff := Num.sub (Date_getTime departureTime) (Some now) in
  if Num.lt diff (Some 0) then "Departed"
  else
    let days := Num.floorDiv diff (1000 * 60 * 60 * 24) in
    let hours := Num.floorDiv (Num.remainder diff (1000 * 60 * 60 * 24)) (1000 * 60 * 60) in
    if Num.gt days (Some 0) then
      Num.show days +:+ " day" +:+ (if Num.gt days (Some 1) then "s" else "") +:+ " left"
    else if Num.gt hours (Some 0) then
      Num.show hours +:+ " hour" +:+ (if Num.gt hours (Some 1) then "s" else "") +:+ " left"
    else "Departing soon".

End WithDate.

End MyBookingsPage.

(** ** The booking page ([pages/BookingPage.tsx]) *)

Module BookingPage.
Import Types.

Record State : Type := mkState {
  flight : option Flight;
  user : option User;
  isBooking : bool;
  selectedSeatClass : SeatClass;
  (** [searchCriteria?.passengers] *)
  criteriaPassengers : option Z
}.

Definition getAvailableSeats (st : State) (seatClass : SeatClass) : Z :=
  match flight st with
  | None => 0
  | Some f =>
      match seatClass with
      | FIRST => availableFirstClassSeats f
      | BUSINESS => availableBusinessClassSeats f
      | ECONOMY => availableEconomyClassSeats f
      end
  end.

(** [searchCriteria?.passengers || 1] *)
Definition passengers (st : State) : Z :=
  match criteriaPassengers st with
  | Some n => if n =? 0 then 1 else n
  | None => 1
  end.

Definition isAvailable (st : State) : bool :=
  passengers st <=? getAvailableSeats st (selectedSeatClass st).

(** The [disabled] attribute of the Book button. *)
Definition bookDisabled (st : State) : bool :=
  negb (isAvailable st) || isBooking st.

(** The request [handleBookFlight] hands to [bookingService.createBooking],
    if it gets that far. *)
Definition handleBookFlight (st : State) : option Api.Call :=
  match flight st, user st with
  | Some f, Some u =>
      Some (Api.CallPost "/bookings"
              (JObject [("customerId", JString (pretty (user_id u)));
                        ("flightId", JString (id f));
                        ("seatClass", JString (SeatClass_value (selectedSeatClass st)))]))
  | _, _ => None
  end.

(** A click on the Book button; a disabled button fires no handler. *)
Definition clickBook (st : State) : option Api.Call :=
  if bookDisabled st then None else handleBookFlight st.

Section WithDate.

Variable Date_getTime : string -> option Z.

(** Hours and minutes as [formatDuration] computes them. *)
Definition durationParts (departureTime arrivalTime : string) : option Z * option Z :=
  let durationMs := Num.sub (Date_getTime arrivalTime) (Date_getTime departureTime) in
  let hours := Num.floorDiv durationMs (1000 * 60 * 60) in
  let minutes := Num.floorDiv (Num.remainder durationMs (1000 * 60 * 60)) (1000 * 60) in
  (hours, minutes).

Definition formatDuration (departureTime arrivalTime : string) : string :=
  let '(hours, minutes) := durationParts departureTime arrivalTime in
  Num.show hours +:+ "h " +:+ Num.show minutes +:+ "m".

End WithDate.

End BookingPage.

(** ** A reference [Date]

    [Date] is a platform object; the pages above take its two methods as
    parameters. This module gives an executable instance for a browser whose
    local time zone is UTC and for date-time strings of the forms
    [YYYY-MM-DDTHH:MM] and [YYYY-MM-DDTHH:MM:SS]; any other string is an
    invalid date. *)

Module DateRef.

Fixpoint digits_value (acc : Z) (s : string) : option Z :=
  match s with
  | EmptyString => Some acc
  | String c r =>
      if JSONRef.is_digit c then digits_value (10 * acc + JSONRef.digit_val c) r else None
  end.

(** The number written in the [len] characters at [pos]. *)
Definition field (pos len : nat) (s : string) : option Z :=
  let part := String.substring pos len s in
  if Nat.eqb (String.length part) len then digits_value 0 part else None.

Definition separator (pos : nat) (c : ascii) (s : string) : bool :=
  match String.get pos s with
  | Some c' => Ascii.eqb c c'
  | None => false
  end.

(** Days from 1970-01-01 to the given civil date. *)
Definition days_from_civil (y m d : Z) : Z :=
  let y' := if m <=? 2 then y - 1 else y in
  let era := y' / 400 in
  let yoe := y' - era * 400 in
  let mp := (m + 9) mod 12 in
  let doy := (153 * mp + 2) / 5 + d - 1 in
  let doe := yoe * 365 + yoe / 4 - yoe / 100 + doy in
  era * 146097 + doe - 719468.

Definition in_range (lo hi x : Z) : bool := (lo <=? x) && (x <=? hi).

Definition getTime (s : string) : option Z :=
  let n := String.length s in
  if (Nat.eqb n 16 || Nat.eqb n 19)
     && separator 4 "-" s && separator 7 "-" s && separator 10 "T" s && separator 13 ":" s
     && (Nat.eqb n 16 || separator 16 ":" s) then
    match field 0 4 s, field 5 2 s, field 8 2 s, field 11 2 s, field 14 2 s,
          (if Nat.eqb n 16 then Some 0 else field 17 2 s) with
    | Some y, Some m, Some d, Some hh, Some mm, Some ss =>
        if in_range 1 12 m && in_range 1 31 d && in_range 0 23 hh
           && in_range 0 59 mm && in_range 0 59 ss
        then Some ((((days_from_civil y m d * 24 + hh) * 60 + mm) * 60 + ss) * 1000)
        else None
    | _, _, _, _, _, _ => None
    end
  else None.

Definition pad2 (n : Z) : string :=
  if n <? 10 then "0" +:+ pretty n else pretty n.

Definition toTimeString (s : string) : string :=
  match getTime s with
  | None => "Invalid Date"
  | Some ms =>
      let secs := (ms / 1000) mod 86400 in
      pad2 (secs / 3600) +:+ ":" +:+ pad2 ((secs / 60) mod 60) +:+ ":" +:+ pad2 (secs mod 60)
      +:+ " GMT+0000 (Coordinated Universal Time)"
  end.

End DateRef.

(** ** Reference readings of a response body

    The unchecked casts of the services, made executable: the envelope
    [{ success, data, message }] and the login payload read field by field,
    a missing or ill-typed field read as the type's empty value. *)

Module DecodeRef.
Import Types.

Definition as_string (v : JSValue) : string :=
  match v with
  | JString s => s
  | _ => ""
  end.

Definition as_number (v : JSValue) : Z :=
  match v with
  | JNumber n => n
  | _ => 0
  end.

(** [ToString], which [localStorage.setItem] applies to the value it is
    given. *)
Fixpoint ToString (v : JSValue) : string :=
  match v with
  | JUndefined => "undefined"
  | JNull => "null"
  | JBool b => if b then "true" else "false"
  | JNumber n => pretty n
  | JString s => s
  | JArray items =>
      (fix join (l : list JSValue) : string :=
         let element (x : JSValue) : string :=
           match x with
           | JUndefined | JNull => ""
           | _ => ToString x
           end in
         match l with
         | [] => ""
         | [x] => element x
         | x :: rest => element x +:+ "," +:+ join rest
         end) items
  | JObject _ => "[object Object]"
  end.

Definition as_ApiResponse (raw : JSValue) : ApiResponse JSValue :=
  mkApiResponse
    (truthy (field raw "success"))
    (if truthy (field raw "data") then Some (field raw "data") else None)
    (match field raw "message" with
     | JString s => Some s
     | _ => None
     end).

Definition as_LoginResponse (d : JSValue) : LoginResponse :=
  mkLoginResponse
    (ToString (field d "token"))
    (as_number (field d "userId"))
    (as_string (field d "username"))
    (as_string (field d "firstName"))
    (as_string (field d "lastName"))
    (as_string (field d "email"))
    (as_string (field d "role"))
    (truthy (field d "success"))
    (as_string (field d "message")).

End DecodeRef.

(** ** Routing ([components/layout/AppRouter.tsx]) and the menu
    ([components/layout/AppLayout.tsx]) *)

Module AppRouter.
Import Types.

(** A location, named by the route pattern it matches; [Other] is what only
    the catch-all [*] matches. *)
Inductive Route : Type :=
| Login | Register | Home | Search
| Book (flightId : string) | MyBookings | BookingDetails (id : string)
| Dashboard | ManageFlights | ManageBookings | ManageAirports | ManageAirplanes
| Reports | ManageUsers
| Unauthorized | NotFound | Other (path : string).

Inductive Page : Type :=
| LoginPage | RegisterPage | HomePage | FlightSearchPage
| BookingPage | MyBookingsPage | BookingDetailsPage
| DashboardPage | FlightManagementPage | BookingManagementPage | AirportManagementPage
| AirplaneManagementPage | ReportsPage | UserManagementPage
| UnauthorizedPage | NotFoundPage.

(** What a route element renders. *)
Inductive Element : Type :=
| LoadingSpinner
| Navigate (to : Route)
| Render (page : Page).

Definition CUSTOMER : string := "CUSTOMER".
Definition OPERATOR : string := "OPERATOR".
Definition ADMINISTRATOR : string := "ADMINISTRATOR".

(** [requiredRoles.includes(user.role)] *)
Definition hasRequiredRole (requiredRoles : list string) (user : JSValue) : bool :=
  existsb (AuthService.role_is user) requiredRoles.

Definition ProtectedRoute (children : Page) (requiredRoles : list string)
    (fallback : Element) (auth : AuthContext.AuthState) : Element :=
  if AuthContext.isLoading auth then LoadingSpinner
  else if negb (AuthContext.isAuthenticated auth) then fallback
  else
    match AuthContext.user auth with
    | Some user =>
        if Nat.ltb 0 (length requiredRoles) && negb (hasRequiredRole requiredRoles user)
        then Navigate Unauthorized
        else Render children
    | None => Render children
    end.

Definition PublicRoute (children : Page) (auth : AuthContext.AuthState) : Element :=
  if AuthContext.isLoading auth then LoadingSpinner
  else if AuthContext.isAuthenticated auth then Navigate Dashboard
  else Render children.

Definition staff : list string := [OPERATOR; ADMINISTRATOR].

(** The route table of [AppRouter]. *)
Definition element (r : Route) (auth : AuthContext.AuthState) : Element :=
  match r with
  | Login => PublicRoute LoginPage auth
  | Register => PublicRoute RegisterPage auth
  | Home => ProtectedRoute HomePage [] (Navigate Search) auth
  | Search => Render FlightSearchPage
  | Book _ => ProtectedRoute BookingPage [] (Navigate Login) auth
  | MyBookings => ProtectedRoute MyBookingsPage [] (Navigate Login) auth
  | BookingDetails _ => ProtectedRoute BookingDetailsPage [] (Navigate Login) auth
  | Dashboard => ProtectedRoute DashboardPage staff (Navigate Login) auth
  | ManageFlights => ProtectedRoute FlightManagementPage staff (Navigate Login) auth
  | ManageBookings => ProtectedRoute BookingManagementPage staff (Navigate Login) auth
  | ManageAirports => ProtectedRoute AirportManagementPage staff (Navigate Login) auth
  | ManageAirplanes => ProtectedRoute AirplaneManagementPage staff (Navigate Login) auth
  | Reports => ProtectedRoute ReportsPage staff (Navigate Login) auth
  | ManageUsers => ProtectedRoute UserManagementPage [ADMINISTRATOR] (Navigate Login) auth
  | Unauthorized => Render UnauthorizedPage
  | NotFound => Render NotFoundPage
  | Other _ => Navigate NotFound
  end.

(** Following [Navigate] elements from a location, at most [fuel] times:
    where the browser ends up and what is shown there, or [None] if it is
    still being redirected. *)
Fixpoint settle (fuel : nat) (r : Route) (auth : AuthContext.AuthState) :
    option (Route * Element) :=
  match element r auth with
  | Navigate to =>
      match fuel with
      | O => None
      | S fuel' => settle fuel' to auth
      end
  | e => Some (r, e)
  end.

Definition is_redirect (e : Element) : bool :=
  match e with
  | Navigate _ => true
  | _ => false
  end.

(** The pages behind a role requirement, with the roles admitted. *)
Definition rolesFor (p : Page) : list string :=
  match p with
  | DashboardPage | FlightManagementPage | BookingManagementPage | AirportManagementPage
  | AirplaneManagementPage | ReportsPage => staff
  | UserManagementPage => [ADMINISTRATOR]
  | _ => []
  end.

(** The pages that need a login. *)
Definition needsLogin (p : Page) : bool :=
  match p with
  | LoginPage | RegisterPage | FlightSearchPage | UnauthorizedPage | NotFoundPage => false
  | _ => true
  end.

End AppRouter.

Module AppLayout.
Import AppRouter.

Record NavigationItem : Type := mkItem {
  title : string;
  href : Route;
  roles : list string;
  requireAuth : bool
}.

Definition everyone : list string := [CUSTOMER; OPERATOR; ADMINISTRATOR].

Definition navigationItems : list NavigationItem :=
  [ mkItem "Search Flights" Search everyone false;
    mkItem "My Bookings" MyBookings everyone true;
    mkItem "Dashboard" Dashboard staff true;
    mkItem "Manage Flights" ManageFlights staff true;
    mkItem "Manage Bookings" ManageBookings staff true;
    mkItem "Manage Airports" ManageAirports staff true;
    mkItem "Manage Users" ManageUsers [ADMINISTRATOR] true;
    mkItem "Reports" Reports staff true ].

Definition filteredNavigation (auth : AuthContext.AuthState) : list NavigationItem :=
  List.filter
    (fun item =>
       if requireAuth item && negb (AuthContext.isAuthenticated auth) then false
       else
         match AuthContext.user auth with
         | Some user => existsb (AuthService.role_is user) (roles item)
         | None => negb (requireAuth item)
         end)
    navigationItems.

End AppLayout.

(** ** Sample data, for running the model *)

Module Samples.
Import Types.

Definition CMB : Airport := mkAirport "1" "CMB" "Bandaranaike" "Colombo" "Sri Lanka" "Asia/Colombo".
Definition SIN : Airport := mkAirport "2" "SIN" "Changi" "Singapore" "Singapore" "Asia/Singapore".

Definition a320 : Airplane := mkAirplane "p1" "A320" "4R-ABC" MEDIUM 0 2 3 true.

Definition flight (fid dep arr : string) (st : FlightStatus) (economy : Z) (seats : Z) : Flight :=
  mkFlight fid ("UL" +:+ fid) a320 CMB SIN dep arr st 900 500 economy 0 2 seats.

Definition morning : Flight :=
  flight "101" "2030-05-01T07:15" "2030-05-01T11:45" SCHEDULED 220 3.
Definition noon : Flight :=
  flight "102" "2030-05-01T12:00" "2030-05-01T15:30" SCHEDULED 180 0.
Definition evening : Flight :=
  flight "103" "2030-05-01T19:40" "2030-05-02T00:20" SCHEDULED 150 1.
Definition departed : Flight :=
  flight "090" "2020-01-01T10:00" "2020-01-01T14:00" DEPARTED 100 0.
Definition cancelled : Flight :=
  flight "104" "2030-05-02T09:00" "2030-05-02T13:00" CANCELLED 100 3.
(** A flight whose times the server has not filled in with dates. *)
Definition undated : Flight :=
  flight "105" "TBA" "TBA" SCHEDULED 120 2.

Definition viaSIN : TransitFlightOption := mkTransit "t1" 600 300 [morning; evening] [SIN].
Definition viaTwo : TransitFlightOption :=
  mkTransit "t2" 900 260 [morning; noon; evening] [SIN; CMB].

Definition results : FlightSearchResult :=
  mkSearchResult [evening; morning; noon] [viaSIN; viaTwo].

(** 2025-01-01T00:00 UTC in epoch milliseconds. *)
Definition now : Z := 1735689600000.

Definition loginBody : JSValue :=
  JObject [("success", JBool true);
           ("data", JObject [("token", JString "jwt-1"); ("userId", JNumber 7);
                             ("username", JString "ann"); ("firstName", JString "Ann");
                             ("lastName", JString "Lee"); ("email", JString "ann@example.org");
                             ("role", JString "CUSTOMER")]);
           ("message", JString "ok")].

(** A server that accepts the login and refuses everything else. *)
Definition server : Api.Network :=
  fun c =>
    if String.eqb (Api.url c) "/auth/login" then Api.Responded 200 loginBody
    else Api.Responded 401 (JObject [("message", JString "Unauthorized")]).

(** Servers that accept the login with a payload that has no [token], and
    with one whose [token] is [null]. *)
Definition noToken : Api.Network :=
  fun _ =>
    Api.Responded 200
      (JObject [("success", JBool true);
                ("data", JObject [("userId", JNumber 7); ("username", JString "ann");
                                  ("email", JString "ann@example.org");
                                  ("role", JString "CUSTOMER")]);
                ("message", JString "ok")]).

Definition nullToken : Api.Network :=
  fun _ =>
    Api.Responded 200
      (JObject [("success", JBool true);
                ("data", JObject [("token", JNull); ("userId", JNumber 7);
                                  ("username", JString "ann");
                                  ("email", JString "ann@example.org");
                                  ("role", JString "CUSTOMER")]);
                ("message", JString "ok")]).

Definition offline : Api.Network := fun _ => Api.NoResponse.

Definition accepting : Api.Network :=
  fun _ => Api.Responded 200 (JObject [("success", JBool true)]).

(** What a login leaves under [user_data]. *)
Definition storedUser : JSValue :=
  JObject [("token", JString "jwt-1"); ("userId", JNumber 7); ("id", JNumber 7);
           ("username", JString "ann"); ("email", JString "ann@example.org")].

Definition browser : Api.World :=
  Api.mkWorld {[ "auth_token" := "jwt-0"; "user_data" := "{}" ]} "/search" [] [].

Definition credentials : LoginCredentials := mkCredentials "ann" "secret".

(** A login payload with exactly the interface's fields, and a server that
    answers every login with it. *)
Definition typedLogin : LoginResponse :=
  mkLoginResponse "jwt-2" 7 "ann" "Ann" "Lee" "ann@example.org" "CUSTOMER" true "ok".

Definition typedServer : Api.Network :=
  fun _ =>
    Api.Responded 200
      (JObject [("success", JBool true);
                ("data", AuthService.js_of_LoginResponse typedLogin);
                ("message", JString "ok")]).

(** A browser with a stored session, as [/auth/me] leaves it. *)
Definition session : Api.World :=
  Api.mkWorld {[ "auth_token" := "jwt-1"; "user_data" := JSONRef.stringify storedUser ]}
    "/my-bookings" [] [].

Definition ann : User := mkUser 7 "ann" "ann@example.org" "Ann" "Lee" "CUSTOMER".

Definition noEconomy : AirplaneManagementPage.AirplaneFormData :=
  AirplaneManagementPage.mkFormData "A320" "4R-ABC" MEDIUM 0 12 0 true.

(** Two passengers for a flight with no economy seat left. *)
Definition soldOut : BookingPage.State :=
  BookingPage.mkState (Some noon) (Some ann) false ECONOMY (Some 2).

Definition byDeparture : FlightSearchPage.Filters :=
  FlightSearchPage.mkFilters 0 None (FlightSearchPage.mkTimeRange "" "") [] 2
    FlightSearchPage.departure.

(** Economy, at most 200, departing between 06:00 and 20:00, direct or one
    stop, cheapest first. *)
Definition cheapEconomy : FlightSearchPage.Filters :=
  FlightSearchPage.mkFilters 200 (Some ECONOMY) (FlightSearchPage.mkTimeRange "06:00" "20:00")
    [] 1 FlightSearchPage.price.

End Samples.

(** * Properties *)

(** ** The API client *)

Section ApiProperties.
Import Api.

Lemma perform_call (k : Call) : perform k = call (config_of k).
Proof. by destruct k. Qed.

Lemma config_of_headers (k : Call) : headers (config_of k) = defaultHeaders.
Proof. by destruct k. Qed.

Lemma config_of_retry (k : Call) : _retry (config_of k) = false.
Proof. by destruct k. Qed.

Lemma responseInterceptor_issued e w :
  issued (responseInterceptor e w).1 = issued w.
Proof.
  unfold responseInterceptor.
  repeat case_match; reflexivity.
Qed.

Lemma responseInterceptor_pathname e w :
  pathname (responseInterceptor e w).1 = pathname w.
Proof.
  unfold responseInterceptor.
  repeat case_match; reflexivity.
Qed.

(** The request handed to the transport by [send]. *)
Lemma send_issued c net w :
  issued (send c net w).1 = issued w ++ [requestInterceptor (localStorage w) c].
Proof.
  unfold send.
  destruct (net _) as [st d| |msg]; [case_match; [reflexivity|]|..];
    match goal with
    | |- context [responseInterceptor ?e ?w0] =>
        let Hi := fresh "Hi" in
        pose proof (responseInterceptor_issued e w0) as Hi;
        destruct (responseInterceptor e w0) as [w2 e2]; simpl in *; by rewrite Hi
    end.
Qed.

Lemma call_world c net w : (call c net w).1 = (send c net w).1.
Proof. unfold call. by destruct (send c net w) as [w' [r|e]]. Qed.

Lemma requestInterceptor_retry ls c : _retry (requestInterceptor ls c) = _retry c.
Proof. unfold requestInterceptor. by repeat case_match. Qed.

(** What the response interceptor does to a fresh request's error. *)
Lemma responseInterceptor_fresh e w :
  _retry (config e) = false ->
  responseInterceptor e w =
    if is_401 e then
      (if on_auth_page w then w
       else add_timer (RedirectToLogin 100)
              (set_localStorage (removeAuthToken (localStorage w)) w),
       set_config (set_retry true (config e)) e)
    else (w, e).
Proof.
  intros Hfresh. unfold responseInterceptor, on_auth_page. rewrite Hfresh.
  destruct (is_401 e); [|reflexivity]. simpl.
  by destruct (String.eqb (pathname w) "/login"), (String.eqb (pathname w) "/register").
Qed.


Lemma truthy_string_spec s : truthy_string s = true <-> s <> "".
Proof.
  unfold truthy_string. destruct (String.eqb_spec s ""); simpl; split; congruence.
Qed.

(** C8 (as amended). Every call hands the axios instance one request whose
    headers are the defaults plus, exactly when a non-empty token is stored
    under [auth_token], [Authorization: Bearer <token>]; with no token
    stored, or the empty string stored, the interceptor adds no
    [Authorization] header. *)
Theorem C8_bearer_token (k : Call) (net : Network) (w : World) :
  let c := requestInterceptor (localStorage w) (config_of k) in
  issued (perform k net w).1 = issued w ++ [c]
  /\ (forall t, LocalStorage.getItem "auth_token" (localStorage w) = Some t -> t <> "" ->
        headers c = <["Authorization" := "Bearer " +:+ t]> defaultHeaders
        /\ headers c !! "Authorization" = Some ("Bearer " +:+ t))
  /\ (LocalStorage.getItem "auth_token" (localStorage w) = None
       \/ LocalStorage.getItem "auth_token" (localStorage w) = Some "" ->
        headers c = defaultHeaders /\ headers c !! "Authorization" = None).
Proof.
  intros c. split; [|split].
  - rewrite perform_call, call_world. apply send_issued.
  - intros t Ht Hne. unfold c, requestInterceptor. rewrite Ht.
    apply truthy_string_spec in Hne. rewrite Hne. simpl.
    rewrite config_of_headers. split; [reflexivity|]. apply lookup_insert_eq.
  - intros Hnone. unfold c, requestInterceptor.
    destruct Hnone as [-> | ->]; simpl; rewrite config_of_headers; by split.
Qed.

(** What [handleError] builds from an axios error whose response body can
    be read (is neither [null] nor [undefined]), from an error without a
    response, and from an error without a request. *)
Theorem handleError_mapping (e : AxiosError) :
  match response e with
  | Some r =>
      data r <> JNull -> data r <> JUndefined ->
      handleError e =
        inr (mkAppError ("HTTP_" +:+ pretty (status r))
               (or_else (field (data r) "message")
                  (or_else (field (data r) "error") (JString "An error occurred")))
               (DetailsData (data r)))
  | None =>
      match request e with
      | Some req =>
          handleError e =
            inr (mkAppError "NETWORK_ERROR"
                   (JString "Network error. Please check your connection.")
                   (DetailsRequest req))
      | None =>
          handleError e =
            inr (mkAppError "UNKNOWN_ERROR"
                   (JString (if decide (error_message e = "")
                             then "An unknown error occurred" else error_message e))
                   (DetailsError e))
      end
  end.
Proof.
  unfold handleError. destruct (response e) as [r|].
  - intros Hnull Hundef. unfold field, or_else.
    destruct (Api.data r); try done; simpl; repeat case_match; try done.
  - destruct (request e); [reflexivity|].
    unfold truthy_string. case_decide as Hmsg.
    + by rewrite Hmsg.
    + by apply String.eqb_neq in Hmsg as ->.
Qed.

(** Every rejection of a call carries what [handleError] made of the axios
    error, or the exception [handleError] raised. *)
Lemma perform_rejection (k : Call) (net : Network) (w : World) (t : Thrown) :
  (perform k net w).2 = Rejected t ->
  exists e, (send (config_of k) net w).2 = Rejected e /\ t = throw_handled e.
Proof.
  rewrite perform_call. unfold call.
  destruct (send (config_of k) net w) as [w' [r|e]]; simpl; [done|].
  intros [= <-]. by exists e.
Qed.

End ApiProperties.


(** C8, the claim as written fails: with the empty string stored under
    [auth_token] the request goes out without an [Authorization] header. *)
Lemma C8_counterexample :
  let w := Api.mkWorld {[ "auth_token" := "" ]} "/search" [] [] in
  let net := fun _ => Api.Responded 200 (JObject []) in
  let res := Api.get "/flights" JUndefined net w in
  LocalStorage.getItem "auth_token" (Api.localStorage w) = Some ""
  /\ Api.headers <$> Api.issued res.1 = [Api.defaultHeaders]
  /\ Api.defaultHeaders !! "Authorization" = None.
Proof. cbv zeta. split; [reflexivity|]. split; reflexivity. Qed.

(** C6, the failing input: a 500 answer whose JSON body is [null]. The call
    is rejected with the [TypeError] raised inside [handleError], not with
    an object [{code, message, details}]. *)
Lemma C6_null_body_throws_TypeError :
  let w := Api.mkWorld ∅ "/search" [] [] in
  let net := fun _ => Api.Responded 500 JNull in
  (Api.get "/flights" JUndefined net w).2
  = Rejected (Api.ThrownException (TypeError "Cannot read properties of null")).
Proof. reflexivity. Qed.

(** ** The authentication service and context *)

Section AuthProperties.
Import Types AuthContext.

Variable JSON_parse : string -> option JSValue.
Variable JSON_stringify : JSValue -> string.
Variable as_ApiResponse : JSValue -> ApiResponse JSValue.
Variable as_LoginResponse : JSValue -> LoginResponse.

Lemma removeAuthToken_token ls :
  LocalStorage.getItem "auth_token" (Api.removeAuthToken ls) = None.
Proof.
  unfold Api.removeAuthToken, LocalStorage.getItem, LocalStorage.removeItem.
  rewrite lookup_delete_ne by done. apply lookup_delete_eq.
Qed.

Lemma removeAuthToken_user ls :
  LocalStorage.getItem "user_data" (Api.removeAuthToken ls) = None.
Proof.
  unfold Api.removeAuthToken, LocalStorage.getItem, LocalStorage.removeItem.
  apply lookup_delete_eq.
Qed.

(** The service's [logout] always resolves, with both entries gone. *)
Lemma AuthService_logout_resolves net w :
  exists w1,
    AuthService.logout net w
    = (Api.set_localStorage (Api.removeAuthToken (Api.localStorage w1)) w1, Resolved tt).
Proof.
  unfold AuthService.logout.
  destruct (Api.post _ _ _ _) as [w1 [d|e]]; by exists w1.
Qed.

(** C7. After [logout()] the authentication state is
    [{user: null, token: null, isAuthenticated: false, isLoading: false}]
    and [auth_token] and [user_data] are gone from [localStorage], whatever
    the state and storage before and whatever became of the
    [POST /auth/logout] request (answered, refused, or never answered). *)
Theorem C7_logout_teardown (net : Api.Network) (w : Api.World) (s : AuthState) :
  let res := AuthContext.logout net w in
  run res.1 s = mkAuthState None JNull false false
  /\ LocalStorage.getItem "auth_token" (Api.localStorage res.2) = None
  /\ LocalStorage.getItem "user_data" (Api.localStorage res.2) = None.
Proof.
  cbv zeta. unfold AuthContext.logout.
  destruct (AuthService_logout_resolves net w) as [w1 ->]. simpl.
  split; [reflexivity|]. split; [apply removeAuthToken_token | apply removeAuthToken_user].
Qed.

Lemma shape_preserves u s : shape u -> signedIn s -> signedIn (u s).
Proof.
  intros [s' Hs'|b|v] Hs; [exact Hs'| |].
  - unfold withLoading, signedIn in *. simpl. exact Hs.
  - unfold withUser, signedIn in *. simpl. intros Hauth.
    split; [done|]. by apply Hs.
Qed.

Lemma signedIn_loggedOut : signedIn loggedOut.
Proof. intros [=]. Qed.

Lemma signedIn_stored u t b : signedIn (mkAuthState (Some u) (JString t) true b).
Proof. intros _. by repeat split. Qed.

Create HintDb auth.
Local Hint Resolve signedIn_loggedOut signedIn_stored : auth.
Local Hint Constructors shape Forall : auth.

Lemma initializeAuth_shapes net w :
  Forall shape (initializeAuth JSON_parse JSON_stringify as_ApiResponse net w).1.
Proof.
  unfold initializeAuth. repeat case_match; simpl; auto 6 with auth.
Qed.

(** [login] is where the token is taken from the reply as it is. *)
Lemma login_shapes c net w :
  tokenInReply JSON_stringify as_ApiResponse as_LoginResponse net ->
  Forall shape (login JSON_stringify as_ApiResponse as_LoginResponse c net w).1.1.
Proof.
  intros Htoken. unfold login.
  destruct (AuthService.login _ _ _ c net w) as [w1 [response|e]] eqn:Hlogin;
    [|simpl; auto with auth].
  destruct (success response) eqn:Hok, (data response) as [d|] eqn:Hdata;
    simpl; auto with auth.
  destruct (Htoken c w w1 response d Hlogin Hok Hdata) as [Hnull Hundefined].
  constructor; [apply shape_loading|]. constructor; [|constructor].
  apply shape_put. intros _. simpl. by repeat split.
Qed.

Lemma logout_shapes net w : Forall shape (AuthContext.logout net w).1.
Proof.
  unfold AuthContext.logout. repeat case_match; simpl; auto with auth.
Qed.

Lemma refreshUser_shapes net w :
  Forall shape (refreshUser JSON_stringify as_ApiResponse net w).1.
Proof.
  unfold refreshUser. repeat case_match; simpl; auto with auth.
Qed.

Lemma performs_shape (server : Api.Network -> Prop) u :
  (forall net, server net ->
     tokenInReply JSON_stringify as_ApiResponse as_LoginResponse net) ->
  performs JSON_parse JSON_stringify as_ApiResponse as_LoginResponse server u -> shape u.
Proof.
  intros Hserver [net w u' Hnet Hin|c net w u' Hnet Hin|net w u' Hnet Hin|net w u' Hnet Hin];
    revert u' Hin; apply Forall_forall.
  - apply initializeAuth_shapes.
  - by apply login_shapes, Hserver.
  - apply logout_shapes.
  - apply refreshUser_shapes.
Qed.

(** C9 (as amended). [login] copies the reply's [token] into the state
    unchecked, so the invariant rests on what the server sends. Against a
    server whose accepted logins carry a token, every state the provider
    exposes is consistent: it starts consistent, and every [setAuthState]
    call of [initializeAuth], [login], [logout] and [refreshUser] keeps it
    so, in any order and interleaving of the calls. In an authenticated
    state the user is not [null] and the token is neither [null] nor
    [undefined]. *)
Theorem C9_auth_state_consistent (server : Api.Network -> Prop) (s : AuthState) :
  (forall net, server net ->
     tokenInReply JSON_stringify as_ApiResponse as_LoginResponse net) ->
  exposed JSON_parse JSON_stringify as_ApiResponse as_LoginResponse server s ->
  consistent s /\ (isAuthenticated s = true -> token s <> JUndefined).
Proof.
  intros Hserver Hs.
  assert (Hin : signedIn s).
  { induction Hs as [|s u _ IH Hu].
    - intros [=].
    - apply shape_preserves; [by eapply performs_shape | exact IH]. }
  split; [intros Hauth|intros Hauth]; by destruct (Hin Hauth) as (? & ? & ?).
Qed.

Lemma hasUserFields_spec v :
  (AuthService.hasUserFields v = inr true /\ AuthService.userShaped v)
  \/ (AuthService.hasUserFields v = inr false /\ ~ AuthService.userShaped v).
Proof.
  unfold AuthService.hasUserFields, AuthService.userShaped, field.
  destruct v as [| |b|n|str|items|fields]; simpl;
    try (right; split; [by repeat case_match | by intros (? & ? & ?)]).
  - right. split; [reflexivity|]. by intros (_ & _ & ? & _).
  - destruct (truthy (default JUndefined (assoc "id" fields))) eqn:Hid;
      [|right; split; [reflexivity|]; intros (_ & _ & ? & _); congruence].
    destruct (truthy (default JUndefined (assoc "username" fields))) eqn:Hname;
      [|right; split; [reflexivity|]; intros (_ & _ & _ & ? & _); congruence].
    destruct (truthy (default JUndefined (assoc "email" fields))) eqn:Hmail;
      [|right; split; [reflexivity|]; intros (_ & _ & _ & _ & ?); congruence].
    left. by repeat split.
Qed.

(** C10 (as amended). [getStoredUser] never throws. It returns the parsed
    value exactly when [user_data] holds a non-empty string that parses to
    an object with truthy [id], [username] and [email], and [null]
    otherwise. It removes [user_data] exactly when a non-empty string is
    stored that does not parse or parses to something else; with nothing
    stored, or the empty string stored, it returns [null] and leaves the
    storage as it is. *)
Theorem C10_getStoredUser (ls : Storage) :
  let res := AuthService.getStoredUser JSON_parse ls in
  (exists u, res.1 = inr u)
  /\ match LocalStorage.getItem "user_data" ls with
  | None => res = (inr None, ls)
  | Some s =>
      if decide (s = "") then res = (inr None, ls)
      else
        match JSON_parse s with
        | None => res = (inr None, LocalStorage.removeItem "user_data" ls)
        | Some v =>
            (AuthService.userShaped v /\ res = (inr (Some v), ls))
            \/ (~ AuthService.userShaped v
                /\ res = (inr None, LocalStorage.removeItem "user_data" ls))
        end
  end.
Proof.
  cbv zeta. split.
  { unfold AuthService.getStoredUser.
    destruct (AuthService.getStoredUser_try JSON_parse ls) as [exn|[u ls']]; by eexists. }
  unfold AuthService.getStoredUser, AuthService.getStoredUser_try.
  destruct (LocalStorage.getItem "user_data" ls) as [s|]; [|reflexivity].
  case_decide as Hs.
  - subst s. reflexivity.
  - apply truthy_string_spec in Hs. rewrite Hs. simpl.
    destruct (JSON_parse s) as [v|]; [|reflexivity].
    destruct (hasUserFields_spec v) as [[-> Hv]|[-> Hv]]; [left|right]; by split.
Qed.

End AuthProperties.

Example JSONRef_round_trip :
  JSONRef.parse (JSONRef.stringify Samples.loginBody) = Some Samples.loginBody.
Proof. reflexivity. Qed.

Example JSONRef_rejects :
  JSONRef.parse "" = None /\ JSONRef.parse "{id:1}" = None /\ JSONRef.parse "[1,2" = None
  /\ JSONRef.parse "01" = None /\ JSONRef.parse "nul" = None.
Proof. repeat split; reflexivity. Qed.

Example getStoredUser_valid :
  let ls : Storage := {[ "user_data" := JSONRef.stringify Samples.storedUser ]} in
  AuthService.getStoredUser JSONRef.parse ls = (inr (Some Samples.storedUser), ls).
Proof. reflexivity. Qed.

(** A stored array, and a stored object without [email], are removed. *)
Example getStoredUser_invalid :
  AuthService.getStoredUser JSONRef.parse {[ "user_data" := "[1, 2]" ]} = (inr None, ∅)
  /\ AuthService.getStoredUser JSONRef.parse
       {[ "user_data" := JSONRef.stringify (JObject [("id", JNumber 1); ("username", JString "a")]) ]}
     = (inr None, ∅)
  /\ AuthService.getStoredUser JSONRef.parse {[ "user_data" := "{oops" ]} = (inr None, ∅).
Proof.
  repeat split; (f_equal; apply map_eq; intros i; vm_compute; reflexivity).
Qed.

(** C10, the claim as written fails: the empty string stored under
    [user_data] is present and does not parse, yet it is left in place. *)
Lemma C10_counterexample :
  let ls : Storage := {[ "user_data" := "" ]} in
  JSONRef.parse "" = None
  /\ AuthService.getStoredUser JSONRef.parse ls = (inr None, ls)
  /\ LocalStorage.getItem "user_data" ls = Some "".
Proof. cbv zeta. split; [reflexivity|]. split; reflexivity. Qed.

(** ** The booking dialog's seat map *)

Section SeatMap.
Import Types CreateBookingDialog.

Lemma from_index_seq {A : Type} (f : nat -> A) (i n : nat) :
  Num.from_index f i n = f <$> seq i n.
Proof.
  revert i. induction n as [|n IH]; intros i; simpl; [reflexivity|].
  by rewrite IH.
Qed.

Lemma Array_from_seq {A : Type} (f : nat -> A) (n : nat) :
  Num.Array_from (Z.of_nat n) f = f <$> seq 0 n.
Proof. unfold Num.Array_from. by rewrite Nat2Z.id, from_index_seq. Qed.

Lemma includes_spec (l : list string) (x : string) :
  Num.includes l x = true <-> x ∈ l.
Proof.
  unfold Num.includes. rewrite existsb_exists. split.
  - intros (y & Hin & Heq). apply String.eqb_eq in Heq as ->.
    by apply list_elem_of_In.
  - intros Hin. exists x. split; [by apply list_elem_of_In | apply String.eqb_refl].
Qed.

(** The callback filter of the code against the set-style filter. *)
Lemma filter_not_included (B l : list string) :
  List.filter (fun seat => negb (Num.includes B seat)) l = filter (fun seat => seat ∉ B) l.
Proof.
  induction l as [|x l IH]; [reflexivity|]. simpl.
  rewrite filter_cons. destruct (Num.includes B x) eqn:Hx; simpl.
  - apply includes_spec in Hx. rewrite decide_False by (intros Hn; by apply Hn). exact IH.
  - rewrite decide_True; [by rewrite IH|].
    intros Hin. apply includes_spec in Hin. congruence.
Qed.

Lemma seatLabels_seq (P : string) (n : nat) :
  seatLabel P <$> seq 0 n = (fun k : nat => P +:+ pretty k) <$> seq 1 n.
Proof.
  rewrite <-(fmap_S_seq 0 n), <-list_fmap_compose.
  apply list_fmap_ext. intros _ i _. unfold seatLabel. simpl.
  by rewrite Nat.add_1_r.
Qed.


(** The generated seats are pairwise distinct. *)
Lemma allSeats_NoDup (seatClass : SeatClass) (flight : Flight) :
  NoDup (allSeatsOf seatClass flight).
Proof.
  unfold allSeatsOf, Num.Array_from. rewrite from_index_seq.
  apply NoDup_fmap_2; [|apply NoDup_seq].
  intros i j Hij. unfold seatLabel in Hij.
  apply (inj (String.app _)) in Hij. apply (inj pretty) in Hij. lia.
Qed.

End SeatMap.


(** ** The search page: filtering and sorting *)

Section Sorting.
Context {A : Type}.
Variable comparefn : A -> A -> option Z.
Variable key : A -> option Z.
Hypothesis comparefn_key : forall a b, comparefn a b = Num.sub (key a) (key b).

Abbreviation by_key := (Num.by_key key).

Lemma insert_perm x l : Num.insert comparefn x l ≡ₚ x :: l.
Proof.
  induction l as [|y l IH]; simpl; [reflexivity|].
  case_match; [reflexivity|]. rewrite IH. apply Permutation_swap.
Qed.

Lemma Array_sort_perm l : Num.Array_sort comparefn l ≡ₚ l.
Proof.
  induction l as [|x l IH]; simpl; [reflexivity|].
  rewrite insert_perm. by rewrite IH.
Qed.

Lemma sortCompare_le a b x y :
  key a = Some x -> key b = Some y ->
  (Num.sortCompare comparefn a b <=? 0) = (x <=? y).
Proof.
  intros Ha Hb. unfold Num.sortCompare. rewrite comparefn_key, Ha, Hb. simpl. lia.
Qed.

Lemma insert_sorted x l :
  is_Some (key x) -> Forall (fun a => is_Some (key a)) l ->
  StronglySorted by_key l -> StronglySorted by_key (Num.insert comparefn x l).
Proof.
  intros [kx Hx] Hkeys Hsorted.
  induction Hsorted as [|y l Hl IH Hy]; simpl.
  - repeat constructor.
  - apply Forall_cons in Hkeys as [[ky Hky] Hkeys].
    rewrite (sortCompare_le x y kx ky) by done.
    destruct (Z.leb_spec kx ky) as [Hle|Hgt].
    + constructor; [by constructor|].
      constructor; [by exists kx, ky|].
      eapply Forall_impl; [exact Hy|].
      intros z (y' & kz & Hy' & Hz & Hle'). exists kx, kz.
      rewrite Hky in Hy'. injection Hy' as <-. repeat split; [done..|lia].
    + constructor; [by apply IH|].
      rewrite insert_perm. constructor; [|exact Hy].
      exists ky, kx. repeat split; [done..|lia].
Qed.

Lemma Array_sort_sorted l :
  Forall (fun a => is_Some (key a)) l -> StronglySorted by_key (Num.Array_sort comparefn l).
Proof.
  induction l as [|x l IH]; intros Hkeys; simpl; [constructor|].
  apply Forall_cons in Hkeys as [Hx Hkeys].
  apply insert_sorted; [done| |by apply IH].
  by rewrite Array_sort_perm.
Qed.

End Sorting.

Section SearchFilters.
Import Types FlightSearchPage.

Variable Date_getTime : string -> option Z.
Variable Date_toTimeString : string -> string.

Abbreviation getFilteredResults := (getFilteredResults Date_getTime Date_toTimeString).
Abbreviation keepsDirect := (keepsDirect Date_getTime Date_toTimeString).
Abbreviation sortFunctions := (sortFunctions Date_getTime).
Abbreviation sortKey := (sortKey Date_getTime).
Abbreviation filteredDirect := (filteredDirect Date_getTime Date_toTimeString).

(** A filter applied under a condition keeps what the input holds and, if
    the condition is on, the callback accepts. *)
Lemma elem_of_filter_if {B : Type} (c : bool) (f : B -> bool) (l : list B) (x : B) :
  x ∈ (if c then List.filter f l else l) <-> x ∈ l /\ (c = true -> f x = true).
Proof.
  destruct c.
  - rewrite !list_elem_of_In, filter_In. tauto.
  - split; [by intros ?; split | by intros [? _]].
Qed.

Lemma sublist_List_filter {B : Type} (f : B -> bool) (l : list B) :
  sublist (List.filter f l) l.
Proof.
  induction l as [|x l IH]; simpl; [constructor|].
  destruct (f x); by constructor.
Qed.

Lemma sublist_filter_if {B : Type} (c : bool) (f : B -> bool) (l : list B) :
  sublist (if c then List.filter f l else l) l.
Proof. destruct c; [apply sublist_List_filter | reflexivity]. Qed.

Lemma within_spec (filters : Filters) (flight : Flight) :
  Num.ge (flightTime Date_getTime Date_toTimeString flight)
    (onReferenceDay Date_getTime (start (departureTimeRange filters)))
  && Num.le (flightTime Date_getTime Date_toTimeString flight)
       (onReferenceDay Date_getTime (end_ (departureTimeRange filters))) = true
  <-> departsWithin Date_getTime Date_toTimeString (departureTimeRange filters) flight.
Proof.
  unfold departsWithin, Num.ge, Num.le.
  destruct (flightTime _ _ flight) as [t|],
    (onReferenceDay _ (start _)) as [lo|], (onReferenceDay _ (end_ _)) as [hi|];
    simpl; split; try (intros (? & ? & ? & ? & ? & ? & ?)); try done.
  - intros H. exists lo, t, hi. repeat split; lia.
  - simplify_eq. lia.
  - rewrite andb_false_r. done.
Qed.

Lemma getFilteredResults_unfold (sr : FlightSearchResult) (filters : Filters) :
  getFilteredResults (Some sr) filters
  = Some (mkSearchResult
            (Num.Array_sort (sortFunctions filters (sortBy filters))
               (filteredDirect filters (directFlights sr)))
            (filteredTransit filters (transitFlights sr))).
Proof.
  unfold FlightSearchPage.getFilteredResults, filteredDirect, filteredTransit.
  destruct (0 <? maxPrice filters); destruct (seatClass filters); reflexivity.
Qed.

Lemma elem_of_filteredDirect (filters : Filters) (l : list Flight) (flight : Flight) :
  flight ∈ filteredDirect filters l <-> flight ∈ l /\ keepsDirect filters flight.
Proof.
  unfold filteredDirect, FlightSearchPage.keepsDirect.
  rewrite !elem_of_filter_if, andb_true_iff, !truthy_string_spec, within_spec.
  rewrite bool_decide_eq_true, Z.ltb_lt, Z.leb_le, Z.ltb_lt.
  tauto.
Qed.

Lemma elem_of_filteredTransit (filters : Filters) (l : list TransitFlightOption)
    (option : TransitFlightOption) :
  option ∈ filteredTransit filters l <-> option ∈ l /\ keepsTransit filters option.
Proof.
  unfold filteredTransit, keepsTransit.
  rewrite list_elem_of_In, filter_In, <-list_elem_of_In, elem_of_filter_if.
  rewrite Z.ltb_lt, !Z.leb_le. tauto.
Qed.

(** C2. Filtering only selects. For a non-null search result the page shows
    direct flights that are, up to order, a sub-list of the result's direct
    flights, and transit options that are a sub-list of the result's, in
    the result's order. A direct flight is kept exactly when it passes the
    active predicates: price in the selected class ([firstClassPrice] for
    FIRST, [businessClassPrice] for BUSINESS, [economyClassPrice] for
    ECONOMY and when none is selected) at most [maxPrice] when
    [maxPrice > 0]; a positive number of available seats in the selected
    class when one is selected; when both bounds are set, a departure whose
    time of day, the first five characters of [toTimeString()] read as a
    time on 2000-01-01, lies between the bounds read the same way. A transit
    option is kept exactly when its total price is at most [maxPrice] when
    [maxPrice > 0] and it has at most [maxStops] stops. *)
Theorem C2_filtering_selects (sr : FlightSearchResult) (filters : Filters) :
  let priceOf (flight : Flight) : Z :=
    match seatClass filters with
    | Some FIRST => firstClassPrice flight
    | Some BUSINESS => businessClassPrice flight
    | _ => economyClassPrice flight
    end in
  let seatsOf (flight : Flight) : Z :=
    match seatClass filters with
    | Some FIRST => availableFirstClassSeats flight
    | Some BUSINESS => availableBusinessClassSeats flight
    | _ => availableEconomyClassSeats flight
    end in
  let timeOfDay (hhmm : string) : option Z := Date_getTime ("2000-01-01T" +:+ hhmm) in
  let departs (flight : Flight) : option Z :=
    timeOfDay (String.substring 0 5 (Date_toTimeString (departureTime flight))) in
  let range := departureTimeRange filters in
  exists out,
    getFilteredResults (Some sr) filters = Some out
    /\ (exists kept, sublist kept (directFlights sr) /\ directFlights out ≡ₚ kept)
    /\ sublist (transitFlights out) (transitFlights sr)
    /\ (forall flight,
          flight ∈ directFlights out
          <-> flight ∈ directFlights sr
              /\ (0 < maxPrice filters -> priceOf flight <= maxPrice filters)
              /\ (seatClass filters <> None -> 0 < seatsOf flight)
              /\ (start range <> "" -> end_ range <> "" ->
                  exists lo t hi,
                    timeOfDay (start range) = Some lo
                    /\ departs flight = Some t
                    /\ timeOfDay (end_ range) = Some hi
                    /\ lo <= t <= hi))
    /\ (forall option,
          option ∈ transitFlights out
          <-> option ∈ transitFlights sr
              /\ (0 < maxPrice filters -> totalPrice option <= maxPrice filters)
              /\ Z.of_nat (length (flights option)) - 1 <= maxStops filters).
Proof.
  cbv zeta. eexists. split; [apply getFilteredResults_unfold|]. simpl.
  split; [|split; [|split]].
  - exists (filteredDirect filters (directFlights sr)). split.
    + unfold filteredDirect. cbv zeta.
      etrans; [apply sublist_filter_if|]. etrans; apply sublist_filter_if.
    + apply Array_sort_perm.
  - unfold filteredTransit. etrans; [apply sublist_List_filter | apply sublist_filter_if].
  - intros flight. rewrite Array_sort_perm.
    exact (elem_of_filteredDirect filters (directFlights sr) flight).
  - intros option. exact (elem_of_filteredTransit filters (transitFlights sr) option).
Qed.

Lemma sortFunctions_key (filters : Filters) (a b : Flight) :
  sortFunctions filters (sortBy filters) a b = Num.sub (sortKey filters a) (sortKey filters b).
Proof.
  unfold FlightSearchPage.sortFunctions, FlightSearchPage.sortKey.
  by destruct (sortBy filters).
Qed.

(** C3 (as amended). When every direct flight of the result has a key,
    the direct flights come out in non-decreasing order of it: for [price]
    the price in the selected class ([firstClassPrice] for FIRST,
    [businessClassPrice] for BUSINESS, [economyClassPrice] otherwise), for
    [departure] the departure time, for [duration] arrival minus departure.
    A price is always a key; a time is one when its text is a valid date. *)
Theorem C3_direct_flights_sorted (sr : FlightSearchResult) (filters : Filters) :
  let key (flight : Flight) : option Z :=
    match sortBy filters with
    | price =>
        Some match seatClass filters with
             | Some FIRST => firstClassPrice flight
             | Some BUSINESS => businessClassPrice flight
             | _ => economyClassPrice flight
             end
    | departure => Date_getTime (departureTime flight)
    | duration =>
        match Date_getTime (arrivalTime flight), Date_getTime (departureTime flight) with
        | Some arrives, Some leaves => Some (arrives - leaves)
        | _, _ => None
        end
    end in
  Forall (fun flight => is_Some (key flight)) (directFlights sr) ->
  exists out,
    getFilteredResults (Some sr) filters = Some out
    /\ StronglySorted
         (fun a b => exists x y, key a = Some x /\ key b = Some y /\ x <= y)
         (directFlights out).
Proof.
  intros key Hkeys.
  change (Forall (fun flight => is_Some (sortKey filters flight)) (directFlights sr)) in Hkeys.
  eexists. split; [apply getFilteredResults_unfold|].
  change (StronglySorted (Num.by_key (sortKey filters))
            (Num.Array_sort (sortFunctions filters (sortBy filters))
               (filteredDirect filters (directFlights sr)))).
  apply (Array_sort_sorted _ (sortKey filters) (sortFunctions_key filters)).
  rewrite Forall_forall in Hkeys |- *. intros flight Hin.
  apply Hkeys. by apply elem_of_filteredDirect in Hin as [? _].
Qed.

End SearchFilters.

(** C3 on three flights listed out of order, sorted by departure. *)
Lemma C3_witness :
  let key (flight : Types.Flight) : option Z :=
    DateRef.getTime (Types.departureTime flight) in
  exists out,
    FlightSearchPage.getFilteredResults DateRef.getTime DateRef.toTimeString
      (Some Samples.results) Samples.byDeparture = Some out
    /\ StronglySorted
         (fun a b => exists x y, key a = Some x /\ key b = Some y /\ x <= y)
         (Types.directFlights out).
Proof.
  cbv zeta.
  apply (C3_direct_flights_sorted DateRef.getTime DateRef.toTimeString
           Samples.results Samples.byDeparture).
  repeat constructor; by eexists.
Defined.

(** C3 as stated fails. A flight whose departure time is no date has no
    departure to be ordered by: its comparisons give [NaN]. The filters of
    [byDeparture] keep it, and whichever order the engine's sort leaves the
    two flights in, the list is not in order of departure time. *)
Lemma C3_counterexample :
  let sr := Types.mkSearchResult [Samples.undated; Samples.morning] [] in
  let key (flight : Types.Flight) : option Z :=
    DateRef.getTime (Types.departureTime flight) in
  key Samples.undated = None
  /\ (exists out,
        FlightSearchPage.getFilteredResults DateRef.getTime DateRef.toTimeString
          (Some sr) Samples.byDeparture = Some out
        /\ Types.directFlights out ≡ₚ [Samples.undated; Samples.morning])
  /\ (forall shown,
        shown ≡ₚ [Samples.undated; Samples.morning] ->
        ~ StronglySorted
            (fun a b => exists x y, key a = Some x /\ key b = Some y /\ x <= y)
            shown).
Proof.
  cbv zeta. split; [reflexivity|]. split.
  - eexists. split; [reflexivity|]. simpl. reflexivity.
  - intros shown Hperm Hsorted.
    apply Permutation_sym, Permutation_length_2_inv in Hperm as [->| ->];
      apply StronglySorted_inv in Hsorted as [_ Hfirst];
      apply Forall_cons in Hfirst as [(x & y & Ha & Hb & _) _];
      discriminate.
Qed.

Example search_by_departure :
  FlightSearchPage.getFilteredResults DateRef.getTime DateRef.toTimeString
    (Some Samples.results) Samples.byDeparture
  = Some (Types.mkSearchResult [Samples.morning; Samples.noon; Samples.evening]
            [Samples.viaSIN; Samples.viaTwo]).
Proof. reflexivity. Qed.

Example search_cheap_economy :
  FlightSearchPage.getFilteredResults DateRef.getTime DateRef.toTimeString
    (Some Samples.results) Samples.cheapEconomy
  = Some (Types.mkSearchResult [Samples.evening] []).
Proof. reflexivity. Qed.

(** ** Client-side checks before a create request *)

Section ClientChecks.
Import Types.

Lemma nonempty_length (s : string) : Nat.leb 1 (String.length s) = true <-> s <> "".
Proof. by destruct s. Qed.

Lemma check_nil (ok : bool) (field msg : string) :
  AirplaneManagementPage.check ok field msg = [] <-> ok = true.
Proof. by destruct ok. Qed.

Lemma airplaneSchema_spec (data : AirplaneManagementPage.AirplaneFormData) :
  AirplaneManagementPage.airplaneSchema data = []
  <-> AirplaneManagementPage.admissible data.
Proof.
  unfold AirplaneManagementPage.airplaneSchema, AirplaneManagementPage.admissible.
  rewrite !app_nil, !check_nil, !nonempty_length, !Z.leb_le. tauto.
Qed.

Lemma clickBook_spec (st : BookingPage.State) :
  match BookingPage.clickBook st with
  | Some req =>
      BookingPage.handleBookFlight st = Some req
      /\ BookingPage.isBooking st = false
      /\ BookingPage.passengers st
         <= BookingPage.getAvailableSeats st (BookingPage.selectedSeatClass st)
  | None =>
      BookingPage.flight st = None \/ BookingPage.user st = None
      \/ BookingPage.isBooking st = true
      \/ BookingPage.getAvailableSeats st (BookingPage.selectedSeatClass st)
         < BookingPage.passengers st
  end.
Proof.
  unfold BookingPage.clickBook, BookingPage.bookDisabled, BookingPage.isAvailable.
  destruct (Z.leb_spec (BookingPage.passengers st)
              (BookingPage.getAvailableSeats st (BookingPage.selectedSeatClass st)));
    simpl; [|tauto].
  destruct (BookingPage.isBooking st); [tauto|].
  unfold BookingPage.handleBookFlight.
  destruct (BookingPage.flight st), (BookingPage.user st); tauto.
Qed.

Lemma gt_spec (a : option Z) (now : Z) :
  Num.gt a (Some now) = true <-> exists t, a = Some t /\ now < t.
Proof.
  destruct a as [t|]; simpl.
  - rewrite Z.ltb_lt. split; [by exists t | by intros (? & [= <-] & ?)].
  - split; [done | by intros (? & ? & ?)].
Qed.

Lemma is_scheduled_spec (s : FlightStatus) :
  CreateBookingDialog.FlightStatus_is_scheduled s = true <-> s = SCHEDULED.
Proof. by destruct s. Qed.

Lemma loadFlights_spec (Date_getTime : string -> option Z) (now : Z)
    (response : ApiResponse (list Flight)) (st : CreateBookingDialog.State) (flight : Flight) :
  success response = true ->
  flight ∈ CreateBookingDialog.flights
             (CreateBookingDialog.loadFlights Date_getTime now (Resolved response) st)
  <-> flight ∈ default [] (data response)
      /\ status flight = SCHEDULED
      /\ exists t, Date_getTime (departureTime flight) = Some t /\ now < t.
Proof.
  intros Hok. unfold CreateBookingDialog.loadFlights. rewrite Hok. simpl.
  rewrite list_elem_of_In, filter_In, <-list_elem_of_In, andb_true_iff.
  rewrite gt_spec, is_scheduled_spec. tauto.
Qed.


End ClientChecks.


Example future_scheduled_flights_only :
  CreateBookingDialog.flights
    (CreateBookingDialog.loadFlights DateRef.getTime Samples.now
       (Resolved (Types.mkApiResponse true
          (Some [Samples.departed; Samples.morning; Samples.cancelled; Samples.noon]) None))
       (CreateBookingDialog.mkState [] None [] [] false))
  = [Samples.morning; Samples.noon].
Proof. reflexivity. Qed.

(** ** Runs of the authentication flow *)

Section AuthRuns.
Import Types AuthContext.

Variable JSON_parse : string -> option JSValue.
Variable JSON_stringify : JSValue -> string.
Variable as_ApiResponse : JSValue -> ApiResponse JSValue.
Variable as_LoginResponse : JSValue -> LoginResponse.

Variable server : Api.Network -> Prop.

Abbreviation exposed' :=
  (exposed JSON_parse JSON_stringify as_ApiResponse as_LoginResponse server).
Abbreviation performs' :=
  (performs JSON_parse JSON_stringify as_ApiResponse as_LoginResponse server).

(** A whole operation run from an exposed state ends in an exposed state. *)
Lemma exposed_run (us : list Update) (s : AuthState) :
  Forall performs' us -> exposed' s -> exposed' (run us s).
Proof.
  revert s. induction us as [|u us IH]; intros s Hus Hs; [exact Hs|].
  apply Forall_cons in Hus as [Hu Hus]. simpl.
  apply IH; [exact Hus|]. by apply exposed_update.
Qed.

Lemma exposed_after_login c net w s :
  server net ->
  exposed' s ->
  exposed' (run (login JSON_stringify as_ApiResponse as_LoginResponse c net w).1.1 s).
Proof.
  intros Hnet Hs. apply exposed_run; [|exact Hs].
  apply Forall_forall. intros u Hu. by eapply by_login.
Qed.

Lemma exposed_after_initializeAuth net w s :
  server net ->
  exposed' s ->
  exposed' (run (initializeAuth JSON_parse JSON_stringify as_ApiResponse net w).1 s).
Proof.
  intros Hnet Hs. apply exposed_run; [|exact Hs].
  apply Forall_forall. intros u Hu. by eapply by_initializeAuth.
Qed.

End AuthRuns.

Example login_then_state :
  AuthContext.run
    (AuthContext.login JSONRef.stringify DecodeRef.as_ApiResponse DecodeRef.as_LoginResponse
       Samples.credentials Samples.server Samples.browser).1.1
    AuthContext.initialState
  = AuthContext.mkAuthState
      (Some (JObject [("id", JNumber 7); ("username", JString "ann");
                      ("firstName", JString "Ann"); ("lastName", JString "Lee");
                      ("email", JString "ann@example.org"); ("role", JString "CUSTOMER")]))
      (JString "jwt-1") true false.
Proof. reflexivity. Qed.

Lemma requestInterceptor_url (ls : Storage) (c : Api.RequestConfig) :
  Api.url (Api.requestInterceptor ls c) = Api.url c.
Proof. unfold Api.requestInterceptor. by repeat case_match. Qed.

(** The sample server's accepted logins carry the token [jwt-1]. *)
Lemma server_tokenInReply :
  AuthContext.tokenInReply JSONRef.stringify DecodeRef.as_ApiResponse
    DecodeRef.as_LoginResponse Samples.server.
Proof.
  intros c w w1 response d Hlogin Hok Hdata.
  unfold AuthService.login, Api.post, Api.call, Api.send in Hlogin.
  assert (Hreply :
    Samples.server
      (Api.requestInterceptor (Api.localStorage w)
         (Api.mkConfig Api.POST "/auth/login" Api.defaultHeaders JUndefined
            (AuthService.js_of_credentials c) false))
    = Api.Responded 200 Samples.loginBody).
  { unfold Samples.server. by rewrite requestInterceptor_url. }
  rewrite Hreply in Hlogin. simpl in Hlogin.
  injection Hlogin as _ <-. simpl in Hdata. by injection Hdata as <-.
Qed.

(** C9 on the state a successful login leaves, which is authenticated. *)
Lemma C9_witness :
  let s :=
    AuthContext.run
      (AuthContext.login JSONRef.stringify DecodeRef.as_ApiResponse DecodeRef.as_LoginResponse
         Samples.credentials Samples.server Samples.browser).1.1
      AuthContext.initialState in
  AuthContext.isAuthenticated s = true
  /\ AuthContext.consistent s
  /\ (AuthContext.isAuthenticated s = true -> AuthContext.token s <> JUndefined).
Proof.
  cbv zeta. split; [reflexivity|].
  apply (C9_auth_state_consistent JSONRef.parse JSONRef.stringify
           DecodeRef.as_ApiResponse DecodeRef.as_LoginResponse
           (fun net => net = Samples.server)).
  - intros net ->. exact server_tokenInReply.
  - apply exposed_after_login; [reflexivity | apply AuthContext.exposed_initial].
Defined.

(** C9 as stated fails. A server that accepts the login with [token: null]
    leaves an exposed state that is authenticated with a [null] token; one
    that accepts it with no [token] at all leaves an authenticated state
    whose token is [undefined]. *)
Lemma C9_counterexample :
  let login :=
    AuthContext.login JSONRef.stringify DecodeRef.as_ApiResponse DecodeRef.as_LoginResponse
      Samples.credentials in
  let exposed :=
    AuthContext.exposed JSONRef.parse JSONRef.stringify DecodeRef.as_ApiResponse
      DecodeRef.as_LoginResponse (fun _ => True) in
  let s := AuthContext.run (login Samples.nullToken Samples.browser).1.1
             AuthContext.initialState in
  let s' := AuthContext.run (login Samples.noToken Samples.browser).1.1
              AuthContext.initialState in
  (exposed s /\ AuthContext.isAuthenticated s = true /\ AuthContext.token s = JNull
   /\ ~ AuthContext.consistent s)
  /\ (exposed s' /\ AuthContext.isAuthenticated s' = true
      /\ AuthContext.token s' = JUndefined).
Proof.
  cbv zeta. split.
  - split; [by apply exposed_after_login; [|apply AuthContext.exposed_initial]|].
    split; [reflexivity|]. split; [reflexivity|].
    intros Hconsistent. destruct (Hconsistent eq_refl) as [_ Htoken]. by apply Htoken.
  - split; [by apply exposed_after_login; [|apply AuthContext.exposed_initial]|].
    by split.
Qed.

(** What the token-less login leaves: the state holds [undefined], the
    storage the text [undefined]. *)
Example login_without_token :
  let res :=
    AuthContext.login JSONRef.stringify DecodeRef.as_ApiResponse DecodeRef.as_LoginResponse
      Samples.credentials Samples.noToken Samples.browser in
  res.1.2 = true
  /\ AuthContext.token (AuthContext.run res.1.1 AuthContext.initialState) = JUndefined
  /\ Api.getAuthToken (Api.localStorage res.2) = Some "undefined".
Proof. by repeat split. Qed.

(** [logout] with the server accepting, refusing, and with the network
    down. *)
Example logout_accepted :
  let res := AuthContext.logout Samples.accepting Samples.browser in
  Api.localStorage res.2 = ∅ /\ Api.timers res.2 = []
  /\ (Api.post "/auth/logout" JUndefined Samples.accepting Samples.browser).2
     = Resolved (JObject [("success", JBool true)]).
Proof.
  cbv zeta. split; [apply map_eq; intros i; vm_compute; reflexivity|].
  split; reflexivity.
Qed.

Example logout_refused :
  let res := AuthContext.logout Samples.server Samples.browser in
  Api.localStorage res.2 = ∅ /\ Api.issued res.2 <> [] /\ Api.timers res.2 = [Api.RedirectToLogin 100].
Proof. cbv zeta. split; [|split]; [apply map_eq; intros i; vm_compute; reflexivity|done|reflexivity]. Qed.

Example logout_offline :
  let res := AuthContext.logout Samples.offline Samples.browser in
  Api.localStorage res.2 = ∅ /\ Api.timers res.2 = [].
Proof. cbv zeta. split; [apply map_eq; intros i; vm_compute; reflexivity|reflexivity]. Qed.

(** ** Sessions: login, reload, logout *)

Section Sessions.
Import Types AuthContext.

Variable JSON_parse : string -> option JSValue.
Variable JSON_stringify : JSValue -> string.
Variable as_ApiResponse : JSValue -> ApiResponse JSValue.
Variable as_LoginResponse : JSValue -> LoginResponse.

Abbreviation service_login :=
  (AuthService.login JSON_stringify as_ApiResponse as_LoginResponse).
Abbreviation context_login :=
  (AuthContext.login JSON_stringify as_ApiResponse as_LoginResponse).
Abbreviation initializeAuth' :=
  (AuthContext.initializeAuth JSON_parse JSON_stringify as_ApiResponse).
Abbreviation getStoredUser' := (AuthService.getStoredUser JSON_parse).

(** The request a call hands on, in terms of the storage it finds. *)
Lemma perform_issued (k : Api.Call) (net : Api.Network) (w : Api.World) :
  Api.issued (Api.perform k net w).1
  = Api.issued w ++ [Api.requestInterceptor (Api.localStorage w) (Api.config_of k)].
Proof. rewrite perform_call, call_world. apply send_issued. Qed.

(** A call that resolves touches nothing but the request log. *)
Lemma call_resolved (c : Api.RequestConfig) (net : Api.Network) (w w' : Api.World) (d : JSValue) :
  Api.call c net w = (w', Resolved d) ->
  w' = Api.add_issued (Api.requestInterceptor (Api.localStorage w) c) w.
Proof.
  unfold Api.call, Api.send.
  destruct (net _) as [st body| |msg]; [case_match|..];
    repeat (case_match; simplify_eq/=); congruence.
Qed.

(** What a successful [login] of the service leaves in storage. *)
Lemma service_login_storage c net w w' response d :
  service_login c net w = (w', Resolved response) ->
  success response = true -> data response = Some d ->
  Api.localStorage w'
  = <["user_data" := JSON_stringify d]>
      (<["auth_token" := Types.token (as_LoginResponse d)]> (Api.localStorage w)).
Proof.
  unfold AuthService.login. intros Hlogin Hok Hdata.
  destruct (Api.post _ _ net w) as [w1 [raw|e]] eqn:Hpost; [|done].
  apply call_resolved in Hpost as ->.
  assert (response = as_ApiResponse raw) as ->.
  { by destruct (success (as_ApiResponse raw)), (data (as_ApiResponse raw)); simplify_eq. }
  rewrite Hok, Hdata in Hlogin. by simplify_eq.
Qed.

(** After a successful login with a non-empty token, the token is stored
    and the next call of the API client, whatever it is, carries it as
    [Authorization: Bearer <token>]. *)
Theorem login_then_bearer c net w w' response d (k : Api.Call) (net' : Api.Network) :
  service_login c net w = (w', Resolved response) ->
  success response = true -> data response = Some d ->
  Types.token (as_LoginResponse d) <> "" ->
  Api.getAuthToken (Api.localStorage w') = Some (Types.token (as_LoginResponse d))
  /\ exists c',
       Api.issued (Api.perform k net' w').1 = Api.issued w' ++ [c']
       /\ Api.headers c' !! "Authorization" = Some ("Bearer " +:+ Types.token (as_LoginResponse d)).
Proof.
  intros Hlogin Hok Hdata Htoken.
  pose proof (service_login_storage _ _ _ _ _ _ Hlogin Hok Hdata) as Hls.
  assert (Hget : Api.getAuthToken (Api.localStorage w') = Some (Types.token (as_LoginResponse d))).
  { unfold Api.getAuthToken, LocalStorage.getItem. rewrite Hls.
    rewrite lookup_insert_ne by done. apply lookup_insert_eq. }
  split; [exact Hget|].
  eexists. split; [apply perform_issued|].
  unfold Api.requestInterceptor. unfold Api.getAuthToken in Hget. rewrite Hget.
  apply truthy_string_spec in Htoken. rewrite Htoken. simpl.
  apply lookup_insert_eq.
Qed.

(** After [logout], whatever the server did with the logout request, the
    next call of the API client carries no [Authorization] header. *)
Theorem logout_then_no_bearer (net : Api.Network) (w : Api.World)
    (k : Api.Call) (net' : Api.Network) :
  let w' := (AuthContext.logout net w).2 in
  exists c',
    Api.issued (Api.perform k net' w').1 = Api.issued w' ++ [c']
    /\ Api.headers c' = Api.defaultHeaders
    /\ Api.headers c' !! "Authorization" = None.
Proof.
  cbv zeta. eexists. split; [apply perform_issued|].
  unfold AuthContext.logout.
  destruct (AuthService_logout_resolves net w) as [w1 ->]. simpl.
  unfold Api.requestInterceptor. rewrite removeAuthToken_token.
  rewrite config_of_headers. by split.
Qed.

(** [getStoredUser] on a storage whose [user_data] is the text of [d]. *)
Lemma getStoredUser_of_stringified (ls : Storage) (d : JSValue) :
  JSON_parse (JSON_stringify d) = Some d ->
  JSON_stringify d <> "" ->
  ls !! "user_data" = Some (JSON_stringify d) ->
  (AuthService.userShaped d /\ getStoredUser' ls = (inr (Some d), ls))
  \/ (~ AuthService.userShaped d
      /\ getStoredUser' ls = (inr None, LocalStorage.removeItem "user_data" ls)).
Proof.
  intros Hround Hne Hls.
  unfold AuthService.getStoredUser, AuthService.getStoredUser_try, LocalStorage.getItem.
  rewrite Hls. apply truthy_string_spec in Hne. rewrite Hne. simpl. rewrite Hround.
  destruct (hasUserFields_spec d) as [[-> Hd]|[-> Hd]]; [left|right]; by split.
Qed.

(** The stored copy of a login survives a reload exactly when the login
    payload itself has truthy [id], [username] and [email]: [getStoredUser]
    gives it back then, and otherwise removes it. ([JSON.parse] undoing
    [JSON.stringify] on the payload is assumed, as is that the text is not
    empty.) *)
Theorem login_then_getStoredUser c net w w' response d :
  JSON_parse (JSON_stringify d) = Some d ->
  JSON_stringify d <> "" ->
  service_login c net w = (w', Resolved response) ->
  success response = true -> data response = Some d ->
  (AuthService.userShaped d
   /\ getStoredUser' (Api.localStorage w') = (inr (Some d), Api.localStorage w'))
  \/ (~ AuthService.userShaped d
      /\ getStoredUser' (Api.localStorage w')
         = (inr None, LocalStorage.removeItem "user_data" (Api.localStorage w'))).
Proof.
  intros Hround Hne Hlogin Hok Hdata.
  apply getStoredUser_of_stringified; [done..|].
  rewrite (service_login_storage _ _ _ _ _ _ Hlogin Hok Hdata). apply lookup_insert_eq.
Qed.

(** An object with exactly the fields of [LoginResponse] has no [id]. *)
Lemma LoginResponse_not_userShaped (r : LoginResponse) :
  ~ AuthService.userShaped (AuthService.js_of_LoginResponse r).
Proof. by intros (_ & _ & Hid & _). Qed.

(** A session stored by [login] from a payload with exactly the fields of
    [LoginResponse] does not survive a reload: on the next page load
    [initializeAuth] finds no valid user, removes [user_data], sends no
    request and leaves the user unauthenticated, while the token stays in
    storage. *)
Theorem typed_login_lost_on_reload c net w w' response (r : LoginResponse)
    (net' : Api.Network) (path : string) :
  JSON_parse (JSON_stringify (AuthService.js_of_LoginResponse r))
    = Some (AuthService.js_of_LoginResponse r) ->
  JSON_stringify (AuthService.js_of_LoginResponse r) <> "" ->
  service_login c net w = (w', Resolved response) ->
  success response = true ->
  data response = Some (AuthService.js_of_LoginResponse r) ->
  let reloaded := Api.mkWorld (Api.localStorage w') path [] [] in
  let res := initializeAuth' net' reloaded in
  run res.1 initialState = mkAuthState None JNull false false
  /\ Api.issued res.2 = []
  /\ LocalStorage.getItem "user_data" (Api.localStorage res.2) = None
  /\ LocalStorage.getItem "auth_token" (Api.localStorage res.2)
     = Some (Types.token (as_LoginResponse (AuthService.js_of_LoginResponse r))).
Proof.
  intros Hround Hne Hlogin Hok Hdata reloaded res.
  pose proof (service_login_storage _ _ _ _ _ _ Hlogin Hok Hdata) as Hls.
  destruct (getStoredUser_of_stringified (Api.localStorage w') _ Hround Hne)
    as [[Hshaped _]|[_ Hstored]];
    [rewrite Hls; apply lookup_insert_eq
    |by apply LoginResponse_not_userShaped in Hshaped|].
  unfold res, AuthContext.initializeAuth, reloaded. simpl. rewrite Hstored.
  assert (Htok : Api.getAuthToken (Api.localStorage w')
                 = Some (Types.token (as_LoginResponse (AuthService.js_of_LoginResponse r)))).
  { unfold Api.getAuthToken, LocalStorage.getItem. rewrite Hls.
    rewrite lookup_insert_ne by done. apply lookup_insert_eq. }
  rewrite Htok. simpl. repeat split.
  - unfold LocalStorage.getItem, LocalStorage.removeItem. apply lookup_delete_eq.
  - unfold LocalStorage.getItem, LocalStorage.removeItem.
    rewrite lookup_delete_ne by done. exact Htok.
Qed.

(** How a call leaves storage and timers, and when it is rejected. *)
Lemma call_effects (c : Api.RequestConfig) (net : Api.Network) (w : Api.World) :
  Api._retry c = false ->
  let c' := Api.requestInterceptor (Api.localStorage w) c in
  let logged_out := Api.unauthorized (net c') && negb (Api.on_auth_page w) in
  (Api.fails (net c') = true -> exists t, (Api.call c net w).2 = Rejected t)
  /\ Api.localStorage (Api.call c net w).1
     = (if logged_out then Api.removeAuthToken (Api.localStorage w) else Api.localStorage w)
  /\ Api.timers (Api.call c net w).1
     = (if logged_out then Api.timers w ++ [Api.RedirectToLogin 100] else Api.timers w)
  /\ Api.pathname (Api.call c net w).1 = Api.pathname w.
Proof.
  intros Hfresh c' logged_out. subst logged_out. unfold Api.call, Api.send. fold c'.
  assert (Hfresh' : Api._retry c' = false).
  { unfold c'. by rewrite requestInterceptor_retry. }
  destruct (net c') as [st d| |msg] eqn:Hnet; cbv beta iota zeta.
  - destruct ((200 <=? st) && (st <? 300)) eqn:Hok.
    + assert ((st =? 401) = false) as H401 by lia.
      cbn [fst snd Api.fails Api.unauthorized]. rewrite Hok, H401. by repeat split.
    + rewrite responseInterceptor_fresh by done.
      unfold Api.is_401. cbn [Api.response Api.status Api.fails Api.unauthorized].
      destruct (st =? 401) eqn:H401.
      * change (Api.on_auth_page (Api.add_issued c' w)) with (Api.on_auth_page w).
        destruct (Api.on_auth_page w); cbn; repeat split; eauto.
      * cbn. repeat split; eauto.
  - rewrite responseInterceptor_fresh by done. cbn. repeat split; eauto.
  - rewrite responseInterceptor_fresh by done. cbn. repeat split; eauto.
Qed.

(** A 401 on any page but [/login] and [/register] ends the stored session:
    token and user data are gone, the next call carries no [Authorization]
    header, and the scheduled timer, once it fires, puts the browser on
    [/login]. *)
Theorem unauthorized_ends_session (k : Api.Call) (net : Api.Network) (w : Api.World)
    (k' : Api.Call) (net' : Api.Network) :
  Api.unauthorized (net (Api.requestInterceptor (Api.localStorage w) (Api.config_of k))) = true ->
  Api.on_auth_page w = false ->
  let w' := (Api.perform k net w).1 in
  LocalStorage.getItem "auth_token" (Api.localStorage w') = None
  /\ LocalStorage.getItem "user_data" (Api.localStorage w') = None
  /\ Api.timers w' = Api.timers w ++ [Api.RedirectToLogin 100]
  /\ Api.pathname (foldl (fun acc t => Api.fireTimer t acc) w' (Api.timers w')) = "/login"
  /\ exists c',
       Api.issued (Api.perform k' net' w').1 = Api.issued w' ++ [c']
       /\ Api.headers c' !! "Authorization" = None.
Proof.
  intros H401 Hpage w'.
  destruct (call_effects (Api.config_of k) net w (config_of_retry k))
    as (_ & Hls & Htimers & Hpath).
  rewrite H401, Hpage in Hls, Htimers. simpl in Hls, Htimers.
  rewrite <-perform_call in Hls, Htimers, Hpath. fold w' in Hls, Htimers, Hpath.
  split; [rewrite Hls; apply removeAuthToken_token|].
  split; [rewrite Hls; apply removeAuthToken_user|].
  split; [exact Htimers|]. split.
  - rewrite Htimers, foldl_app. simpl. unfold Api.fireTimer.
    by destruct (negb (String.eqb _ "/login")) eqn:Hat;
      [|apply negb_false_iff, String.eqb_eq in Hat].
  - eexists. split; [apply perform_issued|].
    unfold Api.requestInterceptor. rewrite Hls, removeAuthToken_token.
    by rewrite config_of_headers.
Qed.

(** Page load. [initializeAuth] always ends with [isLoading] off, and
    sends at most the one verification request. Started from the initial
    state it ends authenticated only if a non-empty token was stored, and
    then the state holds exactly that token. *)
Theorem initializeAuth_settles (net : Api.Network) (w : Api.World) (s : AuthState) :
  let res := initializeAuth' net w in
  isLoading (run res.1 s) = false
  /\ (Api.issued res.2 = Api.issued w
      \/ exists c, Api.issued res.2 = Api.issued w ++ [c] /\ Api.url c = "/auth/me")
  /\ (isAuthenticated (run res.1 initialState) = true ->
      exists t, Api.getAuthToken (Api.localStorage w) = Some t /\ t <> ""
                /\ token (run res.1 initialState) = JString t).
Proof.
  cbv zeta. unfold AuthContext.initializeAuth.
  destruct (AuthService.getStoredUser JSON_parse (Api.localStorage w)) as [[exn|u] ls1];
    [simpl; by repeat split; auto|].
  destruct (Api.getAuthToken (Api.localStorage w)) as [t|] eqn:Htok, u as [u|];
    try (simpl; by repeat split; auto).
  destruct (truthy_string t) eqn:Ht; [|simpl; by repeat split; auto].
  apply truthy_string_spec in Ht.
  unfold AuthService.getCurrentUser, Api.get.
  set (c := Api.mkConfig Api.GET "/auth/me" Api.defaultHeaders JUndefined JUndefined false).
  pose proof (send_issued c net (Api.set_localStorage ls1 w)) as Hissued.
  rewrite <-call_world in Hissued.
  assert (Hurl : Api.url (Api.requestInterceptor
                            (Api.localStorage (Api.set_localStorage ls1 w)) c) = "/auth/me").
  { unfold Api.requestInterceptor. by repeat case_match. }
  destruct (Api.call c net (Api.set_localStorage ls1 w)) as [w2 [raw|e]]; simpl in *.
  - destruct (success (as_ApiResponse raw)), (data (as_ApiResponse raw)); simpl;
      (split; [done|]); (split; [right; eauto|]); intros; try done; by exists t.
  - split; [done|]. split; [right; eauto|]. intros _. by exists t.
Qed.

(** Verification that fails keeps the stored session: when a non-empty token
    and a valid user are stored and the [/auth/me] request is rejected
    (server down, timeout, any status outside 2xx), [initializeAuth] ends
    authenticated with the stored user and token. If the rejection was a
    401 away from [/login] and [/register], the interceptor has removed the
    token from storage all the same, so state and storage disagree. *)
Theorem initializeAuth_keeps_session_on_failure (net : Api.Network) (w : Api.World)
    (s : AuthState) (t : string) (u : JSValue) :
  Api.getAuthToken (Api.localStorage w) = Some t -> t <> "" ->
  getStoredUser' (Api.localStorage w) = (inr (Some u), Api.localStorage w) ->
  let c := Api.requestInterceptor (Api.localStorage w)
             (Api.config_of (Api.CallGet "/auth/me" JUndefined)) in
  Api.fails (net c) = true ->
  let res := initializeAuth' net w in
  run res.1 s = mkAuthState (Some u) (JString t) true false
  /\ (Api.unauthorized (net c) = true -> Api.on_auth_page w = false ->
      LocalStorage.getItem "auth_token" (Api.localStorage res.2) = None).
Proof.
  intros Htok Ht Hstored c Hfails res.
  unfold res, AuthContext.initializeAuth. rewrite Hstored, Htok.
  apply truthy_string_spec in Ht. rewrite Ht.
  assert (Hw : Api.set_localStorage (Api.localStorage w) w = w) by by destruct w.
  rewrite Hw. unfold AuthService.getCurrentUser, Api.get.
  destruct (call_effects (Api.config_of (Api.CallGet "/auth/me" JUndefined)) net w eq_refl)
    as (Hrej & Hls & _).
  fold c in Hrej, Hls. destruct (Hrej Hfails) as [thrown Hthrown].
  simpl Api.config_of in Hthrown, Hls.
  destruct (Api.call _ net w) as [w2 [raw|e]]; simpl in *; [done|].
  split; [reflexivity|]. intros H401 Hpage. rewrite Hls, H401, Hpage. simpl.
  apply removeAuthToken_token.
Qed.


(** [refreshUser] never logs anyone in or out: token, [isAuthenticated] and
    [isLoading] stay as they are; the user either stays or becomes the
    server's, which is then also what [user_data] holds. *)
Theorem refreshUser_frame (net : Api.Network) (w : Api.World) (s : AuthState) :
  let res := AuthContext.refreshUser JSON_stringify as_ApiResponse net w in
  let s' := run res.1 s in
  token s' = token s /\ isAuthenticated s' = isAuthenticated s /\ isLoading s' = isLoading s
  /\ (s' = s
      \/ exists d, user s' = Some d
           /\ LocalStorage.getItem "user_data" (Api.localStorage res.2)
              = Some (JSON_stringify d)).
Proof.
  cbv zeta. unfold AuthContext.refreshUser.
  destruct (AuthService.getCurrentUser as_ApiResponse net w) as [w1 [response|e]];
    [|simpl; by repeat split; auto].
  destruct (success response), (data response) as [d|]; simpl;
    try (by repeat split; auto).
  repeat split. right. exists d. split; [done|].
  unfold LocalStorage.getItem, LocalStorage.setItem. apply lookup_insert_eq.
Qed.

(** The page load verifies the session exactly when the service's
    [isAuthenticated] holds of the storage it finds: then, and only then,
    [initializeAuth] sends its [/auth/me] request; otherwise it sends
    nothing and only switches [isLoading] off. *)
Theorem initializeAuth_verifies_iff_isAuthenticated (net : Api.Network) (w : Api.World)
    (s : AuthState) :
  let res := initializeAuth' net w in
  let stored := (AuthService.isAuthenticated JSON_parse (Api.localStorage w)).1 in
  (stored = inr true
   <-> exists c, Api.issued res.2 = Api.issued w ++ [c] /\ Api.url c = "/auth/me")
  /\ (stored = inr false ->
      Api.issued res.2 = Api.issued w
      /\ run res.1 s = mkAuthState (user s) (token s) (isAuthenticated s) false).
Proof.
  cbv zeta. unfold AuthContext.initializeAuth, AuthService.isAuthenticated.
  assert (Hself : forall (l : list Api.RequestConfig) c, l <> l ++ [c]).
  { intros l c Heq. apply (f_equal length) in Heq. rewrite length_app in Heq. simpl in Heq. lia. }
  assert (Hexn : forall ls exn ls', getStoredUser' ls <> (inl exn, ls')).
  { intros ls exn ls'. unfold AuthService.getStoredUser.
    by destruct (AuthService.getStoredUser_try JSON_parse ls) as [?|[??]]. }
  destruct (AuthService.getStoredUser JSON_parse (Api.localStorage w)) as [[exn|u] ls1] eqn:Hget;
    [by apply Hexn in Hget|].
  destruct (Api.getAuthToken (Api.localStorage w)) as [t|] eqn:Htok, u as [u|]; simpl;
    try (split; [split; [done|by intros (c & Hc%Hself & _)] | done]).
  destruct (truthy_string t) eqn:Ht;
    [|split; [split; [done|by intros (c & Hc%Hself & _)] | done]].
  split; [|done]. split; [intros _|done].
  unfold AuthService.getCurrentUser, Api.get.
  set (c := Api.mkConfig Api.GET "/auth/me" Api.defaultHeaders JUndefined JUndefined false).
  pose proof (send_issued c net (Api.set_localStorage ls1 w)) as Hissued.
  rewrite <-call_world in Hissued.
  assert (Hurl : Api.url (Api.requestInterceptor
                            (Api.localStorage (Api.set_localStorage ls1 w)) c) = "/auth/me").
  { unfold Api.requestInterceptor. by repeat case_match. }
  destruct (Api.call c net (Api.set_localStorage ls1 w)) as [w2 [raw|e]]; simpl in *;
    [destruct (success (as_ApiResponse raw)), (data (as_ApiResponse raw)); simpl|]; eauto.
Qed.

(** [hasAnyRole] holds exactly when [hasRole] holds of one of the roles;
    with no roles asked for it never holds. Either check cleans the storage
    the way [getStoredUser] does. *)
Theorem hasAnyRole_hasRole (roles : list string) (ls : Storage) :
  ((AuthService.hasAnyRole JSON_parse roles ls).1 = inr true
   <-> exists r, r ∈ roles /\ (AuthService.hasRole JSON_parse r ls).1 = inr true)
  /\ (AuthService.hasAnyRole JSON_parse [] ls).1 = inr false
  /\ (AuthService.hasAnyRole JSON_parse roles ls).2 = (getStoredUser' ls).2.
Proof.
  unfold AuthService.hasAnyRole, AuthService.hasRole.
  destruct (AuthService.getStoredUser JSON_parse ls) as [[exn|[u|]] ls'] eqn:Hget; simpl.
  - exfalso. unfold AuthService.getStoredUser in Hget.
    by destruct (AuthService.getStoredUser_try JSON_parse ls) as [?|[??]].
  - repeat split; try done.
    + intros [= Hex]. apply existsb_exists in Hex as (r & Hin & Hr).
      exists r. split; [by apply list_elem_of_In | by rewrite Hr].
    + intros (r & Hin & [= Hr]). f_equal. apply existsb_exists.
      exists r. split; [by apply list_elem_of_In | done].
  - repeat split; try done. by intros (r & _ & [=]).
Qed.

End Sessions.

(** [login_then_bearer] on the sample server: the bookings request after the
    login carries the new token. *)
Lemma login_then_bearer_witness :
  let w' := (AuthService.login JSONRef.stringify DecodeRef.as_ApiResponse
               DecodeRef.as_LoginResponse Samples.credentials Samples.server
               Samples.browser).1 in
  Api.getAuthToken (Api.localStorage w') = Some "jwt-1"
  /\ exists c',
       Api.issued (Api.perform (Api.CallGet "/bookings/me" JUndefined) Samples.offline w').1
       = Api.issued w' ++ [c']
       /\ Api.headers c' !! "Authorization" = Some "Bearer jwt-1".
Proof.
  cbv zeta.
  refine (login_then_bearer JSONRef.stringify DecodeRef.as_ApiResponse
            DecodeRef.as_LoginResponse Samples.credentials Samples.server Samples.browser
            _ (DecodeRef.as_ApiResponse Samples.loginBody) _
            (Api.CallGet "/bookings/me" JUndefined) Samples.offline
            eq_refl eq_refl eq_refl _).
  discriminate.
Defined.

(** [login_then_getStoredUser] on the sample server, whose payload has no
    [id]: the stored copy is discarded. *)
Lemma login_then_getStoredUser_witness :
  let w' := (AuthService.login JSONRef.stringify DecodeRef.as_ApiResponse
               DecodeRef.as_LoginResponse Samples.credentials Samples.server
               Samples.browser).1 in
  let d := JS.field Samples.loginBody "data" in
  (AuthService.userShaped d
   /\ AuthService.getStoredUser JSONRef.parse (Api.localStorage w')
      = (inr (Some d), Api.localStorage w'))
  \/ (~ AuthService.userShaped d
      /\ AuthService.getStoredUser JSONRef.parse (Api.localStorage w')
         = (inr None, LocalStorage.removeItem "user_data" (Api.localStorage w'))).
Proof.
  cbv zeta.
  refine (login_then_getStoredUser JSONRef.parse JSONRef.stringify DecodeRef.as_ApiResponse
            DecodeRef.as_LoginResponse Samples.credentials Samples.server Samples.browser
            _ (DecodeRef.as_ApiResponse Samples.loginBody)
            (JS.field Samples.loginBody "data")
            eq_refl _ eq_refl eq_refl eq_refl).
  discriminate.
Defined.

(** [typed_login_lost_on_reload] on a server that answers with exactly the
    interface's fields. *)
Lemma typed_login_lost_on_reload_witness :
  let w' := (AuthService.login JSONRef.stringify DecodeRef.as_ApiResponse
               DecodeRef.as_LoginResponse Samples.credentials Samples.typedServer
               Samples.browser).1 in
  let res := AuthContext.initializeAuth JSONRef.parse JSONRef.stringify
               DecodeRef.as_ApiResponse Samples.accepting
               (Api.mkWorld (Api.localStorage w') "/my-bookings" [] []) in
  AuthContext.run res.1 AuthContext.initialState = AuthContext.mkAuthState None JNull false false
  /\ Api.issued res.2 = []
  /\ LocalStorage.getItem "user_data" (Api.localStorage res.2) = None
  /\ LocalStorage.getItem "auth_token" (Api.localStorage res.2) = Some "jwt-2".
Proof.
  cbv zeta.
  refine (typed_login_lost_on_reload JSONRef.parse JSONRef.stringify DecodeRef.as_ApiResponse
            DecodeRef.as_LoginResponse Samples.credentials Samples.typedServer Samples.browser
            _ (DecodeRef.as_ApiResponse
                 (JObject [("success", JBool true);
                           ("data", AuthService.js_of_LoginResponse Samples.typedLogin);
                           ("message", JString "ok")]))
            Samples.typedLogin Samples.accepting "/my-bookings"
            eq_refl _ eq_refl eq_refl eq_refl).
  discriminate.
Defined.

(** [unauthorized_ends_session] for a stored session the server no longer
    accepts. *)
Lemma unauthorized_ends_session_witness :
  let w' := (Api.perform (Api.CallGet "/bookings/me" JUndefined) Samples.server
               Samples.session).1 in
  LocalStorage.getItem "auth_token" (Api.localStorage w') = None
  /\ LocalStorage.getItem "user_data" (Api.localStorage w') = None
  /\ Api.timers w' = [Api.RedirectToLogin 100]
  /\ Api.pathname (foldl (fun acc t => Api.fireTimer t acc) w' (Api.timers w')) = "/login"
  /\ exists c',
       Api.issued (Api.perform (Api.CallGet "/flights" JUndefined) Samples.accepting w').1
       = Api.issued w' ++ [c']
       /\ Api.headers c' !! "Authorization" = None.
Proof.
  exact (unauthorized_ends_session (Api.CallGet "/bookings/me" JUndefined) Samples.server
           Samples.session (Api.CallGet "/flights" JUndefined) Samples.accepting
           eq_refl eq_refl).
Defined.

(** [initializeAuth_keeps_session_on_failure] with the server answering 401:
    the state says authenticated, the storage has no token any more. *)
Lemma initializeAuth_keeps_session_witness :
  let res := AuthContext.initializeAuth JSONRef.parse JSONRef.stringify
               DecodeRef.as_ApiResponse Samples.server Samples.session in
  AuthContext.run res.1 AuthContext.initialState
  = AuthContext.mkAuthState (Some Samples.storedUser) (JString "jwt-1") true false
  /\ (Api.unauthorized
        (Samples.server
           (Api.requestInterceptor (Api.localStorage Samples.session)
              (Api.config_of (Api.CallGet "/auth/me" JUndefined)))) = true ->
      Api.on_auth_page Samples.session = false ->
      LocalStorage.getItem "auth_token" (Api.localStorage res.2) = None).
Proof.
  refine (initializeAuth_keeps_session_on_failure JSONRef.parse JSONRef.stringify
            DecodeRef.as_ApiResponse Samples.server Samples.session
            AuthContext.initialState "jwt-1" Samples.storedUser eq_refl _ eq_refl eq_refl).
  discriminate.
Defined.

(** The same page load with the network down: the session is kept, in
    state and in storage. *)
Example initializeAuth_offline :
  let res := AuthContext.initializeAuth JSONRef.parse JSONRef.stringify
               DecodeRef.as_ApiResponse Samples.offline Samples.session in
  AuthContext.run res.1 AuthContext.initialState
  = AuthContext.mkAuthState (Some Samples.storedUser) (JString "jwt-1") true false
  /\ LocalStorage.getItem "auth_token" (Api.localStorage res.2) = Some "jwt-1".
Proof. cbv zeta. split; reflexivity. Qed.

(** ** Routing and the menu *)

Section Routing.
Import AppRouter.

(** No redirect loop: from every location, in every authentication state,
    the browser comes to rest on a page or on the spinner after at most two
    redirects. *)
Theorem settle_within_two_redirects (r : Route) (auth : AuthContext.AuthState) :
  exists r' e, settle 2 r auth = Some (r', e) /\ is_redirect e = false.
Proof.
  destruct auth as [u t a l].
  destruct r, l, a, u as [u|];
    cbn -[hasRequiredRole];
    try (destruct (hasRequiredRole _ u)); cbn;
    eauto.
Qed.

(** Role gate. In a consistent authentication state a page that needs a
    login is shown only to an authenticated user, and a page behind a role
    requirement only to a user whose role is among the roles admitted. *)
Theorem protected_pages_need_role (r : Route) (auth : AuthContext.AuthState) (p : Page) :
  AuthContext.consistent auth ->
  element r auth = Render p ->
  needsLogin p = true ->
  AuthContext.isLoading auth = false
  /\ AuthContext.isAuthenticated auth = true
  /\ exists user, AuthContext.user auth = Some user
       /\ (rolesFor p <> [] -> exists role, role ∈ rolesFor p
             /\ AuthService.role_is user role = true).
Proof.
  intros Hcons Hrender Hneeds.
  destruct auth as [u t a l]. unfold AuthContext.consistent in Hcons. simpl in *.
  assert (Hgate : forall children roles fallback,
            is_redirect fallback = true ->
            ProtectedRoute children roles fallback (AuthContext.mkAuthState u t a l) = Render p ->
            children = p /\ l = false /\ a = true
            /\ exists user, u = Some user
                 /\ (roles <> [] -> exists role, role ∈ roles
                       /\ AuthService.role_is user role = true)).
  { intros children roles fallback Hfb. unfold ProtectedRoute. simpl.
    destruct l; [done|]. destruct a; simpl; [|by destruct fallback].
    destruct (Hcons eq_refl) as [Hu _]. destruct u as [user|]; [|done].
    destruct (Nat.ltb 0 (length roles) && negb (hasRequiredRole roles user)) eqn:Hrole;
      [done|].
    intros [= ->]. repeat split. exists user. split; [done|]. intros Hne.
    apply andb_false_iff in Hrole as [Hlen|Hhas].
    - destruct roles; [done|]. simpl in Hlen. done.
    - apply negb_false_iff, existsb_exists in Hhas as (role & Hin & Hrole).
      exists role. split; [by apply list_elem_of_In | done]. }
  destruct r; simpl in Hrender;
    try (unfold PublicRoute in Hrender; simpl in Hrender;
         destruct l, a; simplify_eq/=; done);
    try (by simplify_eq/=);
    (apply Hgate in Hrender as (<- & ? & ? & ?); [by repeat split | done]).
Qed.

(** An authenticated user who is neither operator nor administrator and
    opens [/login] or [/register] is sent to the dashboard and from there to
    the Unauthorized page. *)
Theorem signed_in_customer_at_login (auth : AuthContext.AuthState) (user : JSValue) :
  AuthContext.isLoading auth = false ->
  AuthContext.isAuthenticated auth = true ->
  AuthContext.user auth = Some user ->
  hasRequiredRole staff user = false ->
  element Login auth = Navigate Dashboard
  /\ element Dashboard auth = Navigate Unauthorized
  /\ settle 2 Login auth = Some (Unauthorized, Render UnauthorizedPage)
  /\ settle 2 Register auth = Some (Unauthorized, Render UnauthorizedPage).
Proof.
  destruct auth as [u t a l].
  cbn [AuthContext.isLoading AuthContext.isAuthenticated AuthContext.user].
  intros -> -> -> Hrole.
  assert (Hdash : element Dashboard (AuthContext.mkAuthState (Some user) t true false)
                  = Navigate Unauthorized).
  { unfold element, ProtectedRoute. cbn -[hasRequiredRole]. by rewrite Hrole. }
  repeat split; [exact Hdash|..];
    cbn [settle]; change (element Login _) with (Navigate Dashboard);
    change (element Register _) with (Navigate Dashboard);
    cbv beta iota; by rewrite Hdash.
Qed.

(** The menu agrees with the router: every entry the layout shows leads to
    a location the router does not redirect away from, in every
    authentication state. *)
Theorem menu_entries_are_reachable (auth : AuthContext.AuthState)
    (item : AppLayout.NavigationItem) :
  item ∈ AppLayout.filteredNavigation auth ->
  is_redirect (element (AppLayout.href item) auth) = false.
Proof.
  unfold AppLayout.filteredNavigation.
  rewrite list_elem_of_In, filter_In. intros [Hin Hshown].
  destruct auth as [u t a l]. simpl in *.
  unfold AppLayout.navigationItems in Hin. simpl in Hin.
  repeat (destruct Hin as [<-|Hin]); try done; simpl in *;
    unfold ProtectedRoute; simpl;
      destruct l; try done; destruct a; simpl in *; try done;
        destruct u as [user|]; try done;
          unfold hasRequiredRole; by rewrite Hshown.
Qed.

End Routing.

(** [protected_pages_need_role] for the user-management page and an
    administrator. *)
Lemma protected_pages_need_role_witness :
  let admin := JObject [("id", JNumber 1); ("role", JString "ADMINISTRATOR")] in
  let auth := AuthContext.mkAuthState (Some admin) (JString "jwt-9") true false in
  AuthContext.isLoading auth = false
  /\ AuthContext.isAuthenticated auth = true
  /\ exists user, AuthContext.user auth = Some user
       /\ (AppRouter.rolesFor AppRouter.UserManagementPage <> [] ->
           exists role, role ∈ AppRouter.rolesFor AppRouter.UserManagementPage
             /\ AuthService.role_is user role = true).
Proof.
  cbv zeta.
  refine (protected_pages_need_role AppRouter.ManageUsers
            (AuthContext.mkAuthState
               (Some (JObject [("id", JNumber 1); ("role", JString "ADMINISTRATOR")]))
               (JString "jwt-9") true false)
            AppRouter.UserManagementPage _ eq_refl eq_refl).
  intros _. by split.
Defined.

(** [signed_in_customer_at_login] for the state a customer's login leaves. *)
Lemma signed_in_customer_at_login_witness :
  let auth :=
    AuthContext.run
      (AuthContext.login JSONRef.stringify DecodeRef.as_ApiResponse DecodeRef.as_LoginResponse
         Samples.credentials Samples.server Samples.browser).1.1
      AuthContext.initialState in
  AppRouter.element AppRouter.Login auth = AppRouter.Navigate AppRouter.Dashboard
  /\ AppRouter.element AppRouter.Dashboard auth = AppRouter.Navigate AppRouter.Unauthorized
  /\ AppRouter.settle 2 AppRouter.Login auth
     = Some (AppRouter.Unauthorized, AppRouter.Render AppRouter.UnauthorizedPage)
  /\ AppRouter.settle 2 AppRouter.Register auth
     = Some (AppRouter.Unauthorized, AppRouter.Render AppRouter.UnauthorizedPage).
Proof.
  cbv zeta.
  refine (signed_in_customer_at_login
            (AuthContext.run
               (AuthContext.login JSONRef.stringify DecodeRef.as_ApiResponse
                  DecodeRef.as_LoginResponse Samples.credentials Samples.server
                  Samples.browser).1.1
               AuthContext.initialState)
            (AuthContext.user_of_login (JS.field Samples.loginBody "data"))
            eq_refl eq_refl eq_refl eq_refl).
Defined.

(** [menu_entries_are_reachable] for the dashboard entry of an operator. *)
Lemma menu_entries_are_reachable_witness :
  let operator := JObject [("id", JNumber 2); ("role", JString "OPERATOR")] in
  let auth := AuthContext.mkAuthState (Some operator) (JString "jwt-8") true false in
  AppRouter.is_redirect (AppRouter.element AppRouter.Dashboard auth) = false.
Proof.
  cbv zeta.
  refine (menu_entries_are_reachable
            (AuthContext.mkAuthState
               (Some (JObject [("id", JNumber 2); ("role", JString "OPERATOR")]))
               (JString "jwt-8") true false)
            (AppLayout.mkItem "Dashboard" AppRouter.Dashboard AppRouter.staff true) _).
  apply list_elem_of_In. vm_compute. auto.
Defined.

(** ** The filter panel and the result list *)

Section FilterPanel.
Import Types FlightSearchPage FlightFilters.

Variable Date_getTime : string -> option Z.
Variable Date_toTimeString : string -> string.

Abbreviation results := (getFilteredResults Date_getTime Date_toTimeString).

Lemma List_filter_all {B : Type} (f : B -> bool) (l : list B) :
  (forall x, x ∈ l -> f x = true) -> List.filter f l = l.
Proof.
  induction l as [|x l IH]; intros Hall; simpl; [reflexivity|].
  rewrite (Hall x) by apply list_elem_of_here. f_equal.
  apply IH. intros y Hy. apply Hall. by apply list_elem_of_further.
Qed.

Lemma foldl_max_bounds (ps : list Z) (p : Z) :
  foldl Z.max p ps ∈ p :: ps /\ Forall (fun x => x <= foldl Z.max p ps) (p :: ps).
Proof.
  revert p. induction ps as [|q ps IH]; intros p; simpl.
  - split; [apply list_elem_of_here | by repeat constructor].
  - destruct (IH (Z.max p q)) as [Hin Hall]. split.
    + apply elem_of_cons in Hin as [Heq|Hin]; [|by do 2 apply list_elem_of_further].
      rewrite Heq. destruct (Z.max_spec p q) as [[_ ->]|[_ ->]];
        [apply list_elem_of_further, list_elem_of_here | apply list_elem_of_here].
    + apply Forall_cons in Hall as [Hm Hall].
      repeat constructor; [lia|lia|exact Hall].
Qed.

Lemma foldl_min_bounds (ps : list Z) (p : Z) :
  foldl Z.min p ps ∈ p :: ps /\ Forall (fun x => foldl Z.min p ps <= x) (p :: ps).
Proof.
  revert p. induction ps as [|q ps IH]; intros p; simpl.
  - split; [apply list_elem_of_here | by repeat constructor].
  - destruct (IH (Z.min p q)) as [Hin Hall]. split.
    + apply elem_of_cons in Hin as [Heq|Hin]; [|by do 2 apply list_elem_of_further].
      rewrite Heq. destruct (Z.min_spec p q) as [[_ ->]|[_ ->]];
        [apply list_elem_of_here | apply list_elem_of_further, list_elem_of_here].
    + apply Forall_cons in Hall as [Hm Hall].
      repeat constructor; [lia|lia|exact Hall].
Qed.


Lemma price_le_max (sr : FlightSearchResult) (x : Z) :
  x ∈ allPrices sr -> x <= max (getPriceRange (Some sr)).
Proof.
  intros Hx. unfold getPriceRange.
  destruct (allPrices sr) as [|p ps]; [by apply not_elem_of_nil in Hx|]. simpl.
  destruct (foldl_max_bounds ps p) as [_ Hle]. rewrite Forall_forall in Hle. by apply Hle.
Qed.

Lemma classPrice_in_allPrices (sr : FlightSearchResult) (sc : option SeatClass) (flight : Flight) :
  flight ∈ directFlights sr -> classPrice sc flight ∈ allPrices sr.
Proof.
  intros Hin. unfold allPrices. apply elem_of_app. left.
  apply list_elem_of_In, in_flat_map. exists flight.
  split; [by apply list_elem_of_In|]. simpl. destruct sc as [[| |]|]; simpl; auto.
Qed.

Lemma totalPrice_in_allPrices (sr : FlightSearchResult) (option : TransitFlightOption) :
  option ∈ transitFlights sr -> totalPrice option ∈ allPrices sr.
Proof.
  intros Hin. unfold allPrices. apply elem_of_app. right.
  apply list_elem_of_In, in_map. by apply list_elem_of_In.
Qed.

(** A [maxPrice] equal to the largest price of the range hides nothing. *)
Lemma range_max_filters_nothing (sr : FlightSearchResult) (filters : Filters) :
  results (Some sr)
    (updateFilter filters (SetMaxPrice (max (getPriceRange (Some sr)))))
  = results (Some sr) (updateFilter filters (SetMaxPrice 0)).
Proof.
  rewrite !getFilteredResults_unfold. destruct filters as [mp sc range al ms sb].
  unfold filteredDirect, filteredTransit. cbn -[getPriceRange].
  destruct (0 <? max (getPriceRange (Some sr))); [|reflexivity].
  rewrite (List_filter_all (fun flight => classPrice sc flight <=? _) (directFlights sr)),
    (List_filter_all (fun option => totalPrice option <=? _) (transitFlights sr));
    [reflexivity|..].
  - intros option Hin. apply Z.leb_le, price_le_max. by apply totalPrice_in_allPrices.
  - intros flight Hin. apply Z.leb_le, price_le_max. by apply classPrice_in_allPrices.
Qed.

(** The price bound the panel prints, [filters.maxPrice || priceRange.max],
    is the bound in force: with [maxPrice] set to the printed value the page
    shows exactly what it shows now. In particular the [priceRange.max]
    printed while the price filter is off hides nothing. *)
Theorem printed_price_bound_in_force (searchResults : option FlightSearchResult)
    (filters : Filters) :
  results searchResults
    (updateFilter filters (SetMaxPrice (shownMaxPrice filters searchResults)))
  = results searchResults filters
  /\ (maxPrice filters = 0 ->
      shownMaxPrice filters searchResults = max (getPriceRange searchResults)).
Proof.
  unfold shownMaxPrice. split; [|by intros ->].
  destruct (maxPrice filters =? 0) eqn:Hoff.
  - apply Z.eqb_eq in Hoff. destruct searchResults as [sr|]; [|reflexivity].
    rewrite range_max_filters_nothing. destruct filters; simpl in *. by subst.
  - by destruct filters.
Qed.

(** The airline boxes change nothing: the result list does not depend on
    the [airlines] field, so ticking or clearing an airline leaves the
    shown flights as they are. *)
Theorem airlines_filter_is_ignored (searchResults : option FlightSearchResult)
    (filters : Filters) (airline : string) (checked : bool) (selection : list string) :
  results searchResults (updateFilter filters (SetAirlines selection))
  = results searchResults filters
  /\ results searchResults (updateFilter filters (toggleAirline airline checked filters))
     = results searchResults filters.
Proof. by destruct filters. Qed.


(** With no filter active (the Reset button hidden) every direct flight of
    the result is shown, and every transit option with at most two stops. *)
Theorem no_active_filter_shows_all (sr : FlightSearchResult) (filters : Filters) :
  hasActiveFilters filters = false ->
  exists out,
    results (Some sr) filters = Some out
    /\ directFlights out ≡ₚ directFlights sr
    /\ (forall option, option ∈ transitFlights sr ->
          (length (flights option) <= 3)%nat -> option ∈ transitFlights out).
Proof.
  unfold hasActiveFilters. rewrite !orb_false_iff.
  intros (((((Hprice & Hclass) & Hstart) & Hend) & _) & Hstops).
  eexists. split; [apply getFilteredResults_unfold|]. simpl.
  unfold filteredDirect, filteredTransit. rewrite Hprice, Hclass, Hstart. simpl. split.
  - apply Array_sort_perm.
  - intros option Hin Hlen. apply list_elem_of_In, filter_In.
    split; [by apply list_elem_of_In|]. lia.
Qed.

(** Filters never add results: the count the page announces is at most the
    number of flights and options the server returned, and 0 before a
    search. *)
Theorem filters_never_add_results (sr : FlightSearchResult) (filters : Filters) :
  (totalResults Date_getTime Date_toTimeString (Some sr) filters
   <= length (directFlights sr) + length (transitFlights sr))%nat
  /\ totalResults Date_getTime Date_toTimeString None filters = 0%nat.
Proof.
  split; [|reflexivity].
  unfold totalResults. rewrite getFilteredResults_unfold. simpl.
  rewrite Array_sort_perm.
  assert (sublist (filteredDirect Date_getTime Date_toTimeString filters (directFlights sr))
            (directFlights sr)) as Hd.
  { unfold filteredDirect. cbv zeta.
    etrans; [apply sublist_filter_if|]. etrans; apply sublist_filter_if. }
  assert (sublist (filteredTransit filters (transitFlights sr)) (transitFlights sr)) as Ht.
  { unfold filteredTransit. etrans; [apply sublist_List_filter | apply sublist_filter_if]. }
  apply sublist_length in Hd, Ht. lia.
Qed.

Lemma Set_add_spec (seen : list string) (x y : string) :
  y ∈ Set_add seen x <-> y ∈ seen \/ y = x.
Proof.
  unfold Set_add. destruct (Num.includes seen x) eqn:Hx.
  - apply includes_spec in Hx. split; [auto|]. by intros [?| ->].
  - rewrite elem_of_app, list_elem_of_singleton. tauto.
Qed.

Lemma Set_add_NoDup (seen : list string) (x : string) :
  NoDup seen -> NoDup (Set_add seen x).
Proof.
  intros Hnd. unfold Set_add. destruct (Num.includes seen x) eqn:Hx; [done|].
  apply NoDup_app. repeat split; [done| |apply NoDup_singleton].
  intros y Hy Hy'. apply list_elem_of_singleton in Hy' as ->.
  apply includes_spec in Hy. congruence.
Qed.

Lemma collect_spec (l : list Flight) (acc : list string) :
  let out := foldl (fun acc flight => Set_add acc (airlineOf flight)) acc l in
  (NoDup acc -> NoDup out)
  /\ forall a, a ∈ out <-> a ∈ acc \/ exists flight, flight ∈ l /\ a = airlineOf flight.
Proof.
  revert acc. induction l as [|f l IH]; intros acc; simpl.
  - split; [done|]. intros a. split; [auto|]. intros [?|(? & Hin & _)]; [done|].
    by apply not_elem_of_nil in Hin.
  - destruct (IH (Set_add acc (airlineOf f))) as [Hnd Hin]. split.
    + intros Hacc. by apply Hnd, Set_add_NoDup.
    + intros a. rewrite Hin, Set_add_spec. split.
      * intros [[?| ->]|(flight & Hf & ->)]; [by left|right..].
        -- exists f. split; [apply list_elem_of_here | done].
        -- exists flight. split; [by apply list_elem_of_further | done].
      * intros [?|(flight & Hf & ->)]; [by left; left|].
        apply elem_of_cons in Hf as [->|Hf]; [by left; right|].
        right. by exists flight.
Qed.

Lemma collect_options_spec (options : list TransitFlightOption) (acc : list string) :
  let out := foldl (fun acc option =>
                      foldl (fun acc' flight => Set_add acc' (airlineOf flight)) acc
                        (flights option)) acc options in
  (NoDup acc -> NoDup out)
  /\ forall a, a ∈ out
       <-> a ∈ acc \/ exists option flight,
             option ∈ options /\ flight ∈ flights option /\ a = airlineOf flight.
Proof.
  revert acc. induction options as [|o options IH]; intros acc; simpl.
  - split; [done|]. intros a. split; [auto|]. intros [?|(? & ? & Hin & _)]; [done|].
    by apply not_elem_of_nil in Hin.
  - destruct (collect_spec (flights o) acc) as [Hnd1 Hin1].
    destruct (IH (foldl (fun acc' flight => Set_add acc' (airlineOf flight)) acc (flights o)))
      as [Hnd Hin].
    split; [intros Hacc; by apply Hnd, Hnd1|].
    intros a. rewrite Hin, Hin1. split.
    + intros [[?|(flight & Hf & ->)]|(option & flight & Ho & Hf & ->)]; [by left|right..].
      * exists o, flight. by repeat split; [apply list_elem_of_here|].
      * exists option, flight. by repeat split; [apply list_elem_of_further|].
    + intros [?|(option & flight & Ho & Hf & ->)]; [by left; left|].
      apply elem_of_cons in Ho as [->|Ho]; [left; right; by exists flight|].
      right. by exists option, flight.
Qed.


End FilterPanel.

(** [no_active_filter_shows_all] for the filters [resetFilters] installs. *)
Lemma no_active_filter_shows_all_witness :
  exists out,
    FlightSearchPage.getFilteredResults DateRef.getTime DateRef.toTimeString
      (Some Samples.results) FlightFilters.resetFilters = Some out
    /\ Types.directFlights out ≡ₚ Types.directFlights Samples.results
    /\ (forall option, option ∈ Types.transitFlights Samples.results ->
          (length (Types.flights option) <= 3)%nat -> option ∈ Types.transitFlights out).
Proof.
  exact (no_active_filter_shows_all DateRef.getTime DateRef.toTimeString
           Samples.results FlightFilters.resetFilters eq_refl).
Defined.

(** ** Booking requests, durations, the customer's bookings *)

Section Bookings.
Import Types.

Variable Date_getTime : string -> option Z.

(** Who a booking is made for. On the booking page the request always
    carries the signed-in user's own id. In the booking dialog a customer's
    request carries the customer's own id whatever the form holds; anyone
    else's carries the id entered in the form, or the empty string when none
    was entered. *)
Theorem bookings_customer_id :
  (forall (st : BookingPage.State) (req : Api.Call),
     BookingPage.clickBook st = Some req ->
     exists u, BookingPage.user st = Some u
       /\ field (CreateBookingDialog.bodyOf req) "customerId" = JString (pretty (user_id u)))
  /\ (forall (u : User) (data : CreateBookingDialog.CreateBookingFormData),
        let body := CreateBookingDialog.bodyOf (CreateBookingDialog.handleSubmit (Some u) data) in
        (user_role u = "CUSTOMER" -> field body "customerId" = JString (pretty (user_id u)))
        /\ (user_role u <> "CUSTOMER" ->
            field body "customerId"
            = JString (default "" (CreateBookingDialog.form_customerId data)))).
Proof.
  split.
  - intros st req. unfold BookingPage.clickBook, BookingPage.handleBookFlight.
    destruct (BookingPage.bookDisabled st); [done|].
    destruct (BookingPage.flight st), (BookingPage.user st) as [u|]; try done.
    intros [= <-]. by exists u.
  - intros u data body. subst body. unfold CreateBookingDialog.handleSubmit. simpl.
    unfold field. simpl. unfold CreateBookingDialog.customerIdOf.
    destruct (String.eqb_spec (user_role u) "CUSTOMER") as [Hrole|Hrole]; split; try done.
    intros _. destruct (CreateBookingDialog.form_customerId data) as [c|]; [|done].
    simpl. destruct (truthy_string c) eqn:Hc; [done|].
    unfold truthy_string in Hc. apply negb_false_iff, String.eqb_eq in Hc. by subst.
Qed.

(** The booking dialog sends no request without a flight, and with one it
    sends the form's flight and seat class unchanged. *)
Theorem dialog_needs_a_flight (user : option User)
    (data : CreateBookingDialog.CreateBookingFormData) :
  (CreateBookingDialog.form_flightId data = ""
   /\ exists issues, issues <> [] /\ CreateBookingDialog.onSubmit user data = inl issues)
  \/ (CreateBookingDialog.form_flightId data <> ""
      /\ exists req,
           CreateBookingDialog.onSubmit user data = inr req
           /\ field (CreateBookingDialog.bodyOf req) "flightId"
              = JString (CreateBookingDialog.form_flightId data)
           /\ field (CreateBookingDialog.bodyOf req) "seatClass"
              = JString (SeatClass_value (CreateBookingDialog.form_seatClass data))).
Proof.
  unfold CreateBookingDialog.onSubmit, CreateBookingDialog.createBookingSchema.
  destruct (CreateBookingDialog.form_flightId data) as [|ch rest] eqn:Hid; simpl.
  - left. split; [done|]. eexists. split; [|reflexivity]. done.
  - right. split; [done|]. eexists. split; [reflexivity|].
    unfold CreateBookingDialog.handleSubmit. simpl. rewrite Hid. by split.
Qed.

(** The number of passengers decides whether the Book button works, but is
    not part of the request: two page states with the same flight, user and
    seat class send the same booking, for one seat, however many passengers
    each was opened for. *)
Theorem booking_request_ignores_passengers (st st' : BookingPage.State) (req req' : Api.Call) :
  BookingPage.flight st = BookingPage.flight st' ->
  BookingPage.user st = BookingPage.user st' ->
  BookingPage.selectedSeatClass st = BookingPage.selectedSeatClass st' ->
  BookingPage.clickBook st = Some req ->
  BookingPage.clickBook st' = Some req' ->
  req = req'.
Proof.
  unfold BookingPage.clickBook, BookingPage.handleBookFlight.
  intros <- <- <-.
  destruct (BookingPage.bookDisabled st), (BookingPage.bookDisabled st'); try done.
  by intros -> [= ->].
Qed.

(** For a flight that arrives no earlier than it departs, [formatDuration]
    shows whole hours and minutes: minutes below 60, and together the whole
    minutes of the flight. *)
Theorem formatDuration_parts (departureTime arrivalTime : string) (d a : Z) :
  Date_getTime departureTime = Some d ->
  Date_getTime arrivalTime = Some a ->
  d <= a ->
  exists h m,
    BookingPage.durationParts Date_getTime departureTime arrivalTime = (Some h, Some m)
    /\ 0 <= h /\ 0 <= m < 60
    /\ h * 60 + m = (a - d) / 60000
    /\ BookingPage.formatDuration Date_getTime departureTime arrivalTime
       = pretty h +:+ "h " +:+ pretty m +:+ "m".
Proof.
  intros Hd Ha Hle.
  unfold BookingPage.formatDuration, BookingPage.durationParts. rewrite Hd, Ha. simpl.
  eexists _, _. split; [reflexivity|].
  rewrite Z.rem_mod_nonneg by lia.
  change (1000 * 60 * 60) with 3600000. change (1000 * 60) with 60000.
  repeat split; try reflexivity; Z.div_mod_to_equations; lia.
Qed.

(** An unparsable time shows as [NaN]. *)
Lemma formatDuration_invalid (departureTime arrivalTime : string) :
  Date_getTime departureTime = None ->
  BookingPage.formatDuration Date_getTime departureTime arrivalTime = "NaNh NaNm".
Proof.
  intros Hd. unfold BookingPage.formatDuration, BookingPage.durationParts. rewrite Hd.
  by destruct (Date_getTime arrivalTime).
Qed.

(** What [getTimeUntilFlight] shows, by the time left to the departure:
    [Departed] once the departure is past; [Departing soon] in the last
    hour, and also for a departure time that is no date; the whole hours
    left, 1 to 23, within a day; the whole days left from a day on. The
    unit is in the plural exactly when the number is above one. *)
Theorem getTimeUntilFlight_ranges (now : Z) (departureTime : string) :
  let shown := MyBookingsPage.getTimeUntilFlight Date_getTime now departureTime in
  match Date_getTime departureTime with
  | None => shown = "Departing soon"
  | Some t =>
      (t < now -> shown = "Departed")
      /\ (now <= t < now + 3600000 -> shown = "Departing soon")
      /\ (now + 3600000 <= t < now + 86400000 ->
          exists h, h = (t - now) / 3600000 /\ 1 <= h <= 23
            /\ shown = pretty h +:+ " hour" +:+ (if decide (h = 1) then "" else "s") +:+ " left")
      /\ (now + 86400000 <= t ->
          exists d, d = (t - now) / 86400000 /\ 1 <= d
            /\ shown = pretty d +:+ " day" +:+ (if decide (d = 1) then "" else "s") +:+ " left")
  end.
Proof.
  cbv zeta. unfold MyBookingsPage.getTimeUntilFlight.
  destruct (Date_getTime departureTime) as [t|]; [|reflexivity].
  cbn [Num.sub Num.lt Num.floorDiv Num.remainder Num.gt Num.show].
  change (1000 * 60 * 60 * 24) with 86400000. change (1000 * 60 * 60) with 3600000.
  split; [|split; [|split]].
  - intros Hlt. by rewrite (proj2 (Z.ltb_lt (t - now) 0)) by lia.
  - intros Hsoon. rewrite (proj2 (Z.ltb_ge (t - now) 0)) by lia.
    rewrite (Z.div_small (t - now) 86400000), (Z.rem_small (t - now) 86400000) by lia.
    simpl. by rewrite (Z.div_small (t - now) 3600000) by lia.
  - intros Hday. rewrite (proj2 (Z.ltb_ge (t - now) 0)) by lia.
    rewrite (Z.div_small (t - now) 86400000), (Z.rem_small (t - now) 86400000) by lia.
    simpl.
    assert (1 <= (t - now) / 3600000 <= 23) by (Z.div_mod_to_equations; lia).
    rewrite (proj2 (Z.ltb_lt 0 ((t - now) / 3600000))) by lia.
    eexists. split; [reflexivity|]. split; [done|].
    case_decide as H1; [by rewrite H1|].
    by rewrite (proj2 (Z.ltb_lt 1 ((t - now) / 3600000))) by lia.
  - intros Hdays. rewrite (proj2 (Z.ltb_ge (t - now) 0)) by lia.
    assert (1 <= (t - now) / 86400000) by (Z.div_mod_to_equations; lia).
    rewrite (proj2 (Z.ltb_lt 0 ((t - now) / 86400000))) by lia.
    eexists. split; [reflexivity|]. split; [done|].
    case_decide as H1; [by rewrite H1|].
    by rewrite (proj2 (Z.ltb_lt 1 ((t - now) / 86400000))) by lia.
Qed.

Abbreviation departure := (MyBookingsPage.departure Date_getTime).
Abbreviation isUpcoming := (MyBookingsPage.isUpcoming Date_getTime).

Lemma filter_partition_perm {B : Type} (f : B -> bool) (l : list B) :
  List.filter f l ++ List.filter (fun x => negb (f x)) l ≡ₚ l.
Proof.
  induction l as [|x l IH]; simpl; [reflexivity|].
  destruct (f x); simpl.
  - by rewrite IH.
  - rewrite <-Permutation_middle. by rewrite IH.
Qed.


End Bookings.

(** [formatDuration_parts] for the morning flight: four hours and a half. *)
Lemma formatDuration_parts_witness :
  exists h m,
    BookingPage.durationParts DateRef.getTime "2030-05-01T07:15" "2030-05-01T11:45"
    = (Some h, Some m)
    /\ 0 <= h /\ 0 <= m < 60
    /\ h * 60 + m = (1903866300000 - 1903850100000) / 60000
    /\ BookingPage.formatDuration DateRef.getTime "2030-05-01T07:15" "2030-05-01T11:45"
       = pretty h +:+ "h " +:+ pretty m +:+ "m".
Proof.
  refine (formatDuration_parts DateRef.getTime "2030-05-01T07:15" "2030-05-01T11:45"
            1903850100000 1903866300000 eq_refl eq_refl _).
  lia.
Defined.

Example formatDuration_morning :
  BookingPage.formatDuration DateRef.getTime
    (Types.departureTime Samples.morning) (Types.arrivalTime Samples.morning) = "4h 30m".
Proof. reflexivity. Qed.

(** [booking_request_ignores_passengers] for one and for two passengers on
    the morning flight. *)
Lemma booking_request_ignores_passengers_witness :
  let one := BookingPage.mkState (Some Samples.morning) (Some Samples.ann) false
               Types.ECONOMY None in
  let two := BookingPage.mkState (Some Samples.morning) (Some Samples.ann) false
               Types.ECONOMY (Some 2) in
  exists req req',
    BookingPage.clickBook one = Some req
    /\ BookingPage.clickBook two = Some req'
    /\ req = req'.
Proof.
  cbv zeta. eexists _, _. split; [reflexivity|]. split; [reflexivity|].
  exact (booking_request_ignores_passengers
           (BookingPage.mkState (Some Samples.morning) (Some Samples.ann) false
              Types.ECONOMY None)
           (BookingPage.mkState (Some Samples.morning) (Some Samples.ann) false
              Types.ECONOMY (Some 2))
           _ _ eq_refl eq_refl eq_refl eq_refl eq_refl).
Defined.

(** ** The airplane page: list filters, counters, the edit dialog *)

Section Fleet.
Import Types AirplaneManagementPage.

Variable toLowerCase : string -> string.

Abbreviation filterAirplanes' := (filterAirplanes toLowerCase).

Lemma append_nil (t : string) : "" +:+ t = t.
Proof. reflexivity. Qed.

Lemma append_cons (a : ascii) (s t : string) : String a s +:+ t = String a (s +:+ t).
Proof. reflexivity. Qed.

Lemma prefix_spec (part text : string) :
  String.prefix part text = true <-> exists post, text = part +:+ post.
Proof.
  revert text. induction part as [|a part IH]; intros text.
  - destruct text; simpl; (split; [intros _; eexists; by rewrite append_nil | done]).
  - destruct text as [|b text]; simpl.
    + split; [done|]. intros [post Hpost]. by rewrite append_cons in Hpost.
    + destruct (ascii_dec a b) as [->|Hne].
      * rewrite IH. split; intros [post Hpost]; exists post;
          rewrite append_cons in *; congruence.
      * split; [done|]. intros [post Hpost]. rewrite append_cons in Hpost. congruence.
Qed.

(** [text.includes(part)] holds exactly when [part] occurs in [text]. *)
Lemma String_includes_spec (text part : string) :
  String_includes text part = true <-> exists pre post, text = pre +:+ part +:+ post.
Proof.
  induction text as [|c text IH]; cbn [String_includes]; rewrite orb_true_iff, prefix_spec.
  - split.
    + intros [[post ->]|?]; [by exists "", post | done].
    + intros ([|? ?] & post & Heq); [left; by exists post | by rewrite append_cons in Heq].
  - rewrite IH. split.
    + intros [[post ->]|(pre & post & ->)]; [by exists "", post | by exists (String c pre), post].
    + intros ([|c' pre] & post & Heq); [left; by exists post|].
      right. exists pre, post. rewrite append_cons in Heq. congruence.
Qed.

Lemma AirplaneCapacity_eqb_spec (a b : AirplaneCapacity) :
  AirplaneCapacity_eqb a b = true <-> a = b.
Proof. by destruct a, b. Qed.

(** What the airplane list shows. [filterAirplanes] keeps the airplanes in
    their order and never adds one; an airplane is listed exactly when the
    search term, if any, occurs in its lower-cased model or registration,
    its status is the selected one, and its size is the selected one. *)
Theorem filterAirplanes_selects (st : State) :
  sublist (filterAirplanes' st) (airplanes st)
  /\ forall a : Airplane,
       a ∈ filterAirplanes' st
       <-> a ∈ airplanes st
           /\ (searchTerm st = ""
               \/ (exists pre post,
                     toLowerCase (Types.model a) = pre +:+ toLowerCase (searchTerm st) +:+ post)
               \/ (exists pre post,
                     toLowerCase (Types.registrationNumber a)
                     = pre +:+ toLowerCase (searchTerm st) +:+ post))
           /\ match statusFilter st with
              | AllStatuses => True
              | ActiveOnly => Types.active a = true
              | InactiveOnly => Types.active a = false
              end
           /\ match capacityFilter st with
              | None => True
              | Some capacity => Types.size a = capacity
              end.
Proof.
  unfold filterAirplanes. cbv zeta. split.
  - destruct (capacityFilter st), (statusFilter st);
      repeat (etrans; [apply sublist_List_filter|]); apply sublist_filter_if.
  - intros a.
    assert (Hsearch :
      forall l, a ∈ (if truthy_string (searchTerm st)
                     then List.filter
                            (fun airplane =>
                               String_includes (toLowerCase (Types.model airplane))
                                 (toLowerCase (searchTerm st))
                               || String_includes (toLowerCase (Types.registrationNumber airplane))
                                    (toLowerCase (searchTerm st))) l
                     else l)
                <-> a ∈ l
                    /\ (searchTerm st = ""
                        \/ (exists pre post,
                              toLowerCase (Types.model a)
                              = pre +:+ toLowerCase (searchTerm st) +:+ post)
                        \/ (exists pre post,
                              toLowerCase (Types.registrationNumber a)
                              = pre +:+ toLowerCase (searchTerm st) +:+ post))).
    { intros l. rewrite elem_of_filter_if, orb_true_iff, !String_includes_spec.
      destruct (truthy_string (searchTerm st)) eqn:Hterm.
      - apply truthy_string_spec in Hterm. tauto.
      - apply not_true_iff_false in Hterm. rewrite truthy_string_spec in Hterm.
        destruct (decide (searchTerm st = "")); [|done].
        split; [intros [? _]; split; [done|by left] | intros [? _]; by split]. }
    destruct (capacityFilter st) as [capacity|], (statusFilter st);
      rewrite ?list_elem_of_In, ?filter_In, <-?list_elem_of_In, ?Hsearch,
        ?AirplaneCapacity_eqb_spec, ?negb_true_iff;
      tauto.
Qed.

(** The counters of the page: every airplane counts as active or as
    inactive, and with no search term and no size selected the list shows
    as many airplanes as the counter of the selected status says. *)
Theorem status_counters_agree (st : State) :
  (getTotalActiveAirplanes st + getTotalInactiveAirplanes st = length (airplanes st))%nat
  /\ (searchTerm st = "" -> capacityFilter st = None ->
      length (filterAirplanes' st)
      = match statusFilter st with
        | AllStatuses => length (airplanes st)
        | ActiveOnly => getTotalActiveAirplanes st
        | InactiveOnly => getTotalInactiveAirplanes st
        end).
Proof.
  unfold getTotalActiveAirplanes, getTotalInactiveAirplanes. split.
  - rewrite <-length_app.
    apply Permutation_length, (filter_partition_perm (fun a => Types.active a)).
  - intros Hterm Hcap. unfold filterAirplanes. rewrite Hterm, Hcap. simpl.
    by destruct (statusFilter st).
Qed.

(** Editing. After [openEditDialog] on an airplane, submitting the form as
    it was filled in either is refused, when the airplane's own values do
    not pass the schema, or sends one [PUT] to that airplane's path with the
    airplane's values and their total. *)
Theorem edit_unchanged_round_trip (airplane : Airplane) (st : State) :
  let '(st', data) := openEditDialog airplane st in
  match onSubmitEdit st' data with
  | inl issues =>
      issues <> []
      /\ ~ (Types.model airplane <> "" /\ Types.registrationNumber airplane <> ""
            /\ 0 <= Types.firstClassCapacity airplane
            /\ 0 <= Types.businessClassCapacity airplane
            /\ 1 <= Types.economyClassCapacity airplane)
  | inr None => False
  | inr (Some call) =>
      Api.method (Api.config_of call) = Api.PUT
      /\ Api.url (Api.config_of call) = "/airplanes/" +:+ airplane_id airplane
      /\ field (Api.body (Api.config_of call)) "model" = JString (Types.model airplane)
      /\ field (Api.body (Api.config_of call)) "registrationNumber"
         = JString (Types.registrationNumber airplane)
      /\ field (Api.body (Api.config_of call)) "size"
         = JString (AirplaneCapacity_value (Types.size airplane))
      /\ field (Api.body (Api.config_of call)) "active" = JBool (Types.active airplane)
      /\ field (Api.body (Api.config_of call)) "totalCapacity"
         = JNumber (Types.firstClassCapacity airplane + Types.businessClassCapacity airplane
                    + Types.economyClassCapacity airplane)
      /\ field (Api.body (Api.config_of call)) "id" = JUndefined
  end.
Proof.
  unfold openEditDialog, onSubmitEdit, handleEdit. simpl.
  destruct (airplaneSchema _) as [|issue issues] eqn:Hschema.
  - by repeat split.
  - split; [done|]. intros Hok.
    assert (airplaneSchema
              (mkFormData (Types.model airplane) (Types.registrationNumber airplane)
                 (Types.size airplane) (Types.firstClassCapacity airplane)
                 (Types.businessClassCapacity airplane)
                 (Types.economyClassCapacity airplane) (Types.active airplane)) = [])
      as Hnil by by apply airplaneSchema_spec.
    congruence.
Qed.

(** Every airplane the page's forms send, new or edited, passed the schema:
    its model and registration are not empty, its capacities are the ones
    entered, with at least one economy seat, and [totalCapacity] is their
    sum, so at least 1. An edit is sent only with an airplane selected, to
    that airplane's path. *)
Theorem airplane_requests_are_checked (st : State) (data : AirplaneFormData) (call : Api.Call) :
  onSubmitAdd data = inr call \/ onSubmitEdit st data = inr (Some call) ->
  let sent := Api.body (Api.config_of call) in
  admissible data
  /\ field sent "firstClassCapacity" = JNumber (firstClassCapacity data)
  /\ field sent "businessClassCapacity" = JNumber (businessClassCapacity data)
  /\ field sent "economyClassCapacity" = JNumber (economyClassCapacity data)
  /\ (exists total, field sent "totalCapacity" = JNumber total
        /\ total = firstClassCapacity data + businessClassCapacity data
                   + economyClassCapacity data
        /\ 1 <= total)
  /\ (onSubmitEdit st data = inr (Some call) ->
      exists selected, selectedAirplane st = Some selected
        /\ Api.url (Api.config_of call) = "/airplanes/" +:+ airplane_id selected).
Proof.
  unfold onSubmitAdd, onSubmitEdit, handleEdit.
  destruct (airplaneSchema data) eqn:Hschema; [|by intros [?|?]].
  apply airplaneSchema_spec in Hschema.
  assert (1 <= firstClassCapacity data + businessClassCapacity data + economyClassCapacity data)
    by (destruct Hschema as (_ & _ & ? & ? & ?); lia).
  intros [[= <-]|Hedit]; simpl.
  - split_and!; try done.
    + by eexists.
    + intros Hedit. destruct (selectedAirplane st); simplify_eq.
  - destruct (selectedAirplane st) as [selected|]; [|done].
    injection Hedit as <-. simpl. split_and!; try done.
    + by eexists.
    + intros _. by exists selected.
Qed.

End Fleet.

(** [airplane_requests_are_checked] for an edit of the A320 that adds a
    first-class cabin of four. *)
Lemma airplane_requests_are_checked_witness :
  let st := AirplaneManagementPage.mkState [Samples.a320] "" AirplaneManagementPage.AllStatuses
              None (Some Samples.a320) in
  let data := AirplaneManagementPage.mkFormData "A320" "4R-ABC" Types.MEDIUM 4 2 3 true in
  let call := Api.CallPut "/airplanes/p1" (AirplaneManagementPage.airplaneData data) in
  AirplaneManagementPage.onSubmitEdit st data = inr (Some call)
  /\ AirplaneManagementPage.admissible data
  /\ exists total,
       field (Api.body (Api.config_of call)) "totalCapacity" = JNumber total
       /\ total = 4 + 2 + 3 /\ 1 <= total.
Proof.
  cbv zeta. split; [reflexivity|].
  destruct (airplane_requests_are_checked
              (AirplaneManagementPage.mkState [Samples.a320] ""
                 AirplaneManagementPage.AllStatuses None (Some Samples.a320))
              (AirplaneManagementPage.mkFormData "A320" "4R-ABC" Types.MEDIUM 4 2 3 true)
              (Api.CallPut "/airplanes/p1"
                 (AirplaneManagementPage.airplaneData
                    (AirplaneManagementPage.mkFormData "A320" "4R-ABC" Types.MEDIUM 4 2 3 true)))
              (or_intror eq_refl))
    as (Hadmissible & _ & _ & _ & Htotal & _).
  split; [exact Hadmissible | exact Htotal].
Defined.

Example getTimeUntilFlight_samples :
  MyBookingsPage.getTimeUntilFlight DateRef.getTime Samples.now "2025-01-01T05:30"
  = "5 hours left"
  /\ MyBookingsPage.getTimeUntilFlight DateRef.getTime Samples.now "2025-01-02T00:00"
     = "1 day left"
  /\ MyBookingsPage.getTimeUntilFlight DateRef.getTime Samples.now "2024-12-31T23:59"
     = "Departed"
  /\ MyBookingsPage.getTimeUntilFlight DateRef.getTime Samples.now "tomorrow"
     = "Departing soon".
Proof. by repeat split. Qed.
